(** * A shallow embedding of [DeploymentRunner] (src/webapp/app.py)

    The runner tails the output of deploy.py and rebuilds stage and task
    progress from keyword matches on each log line.  Python strings are
    modelled as Rocq [string]s holding their UTF-8 bytes; the substring test
    [x in y] becomes [contains x y], which agrees with the code-point test
    on well-formed UTF-8.  Character classes ([str.strip], [str.lower],
    regex [\s]) are modelled on ASCII. *)

From Stdlib Require Import String Ascii List Bool Arith Lia ZArith DecimalNat.
Import ListNotations.
Open Scope string_scope.

(** ** String helpers (Python built-ins) *)

(** [needle in hay] *)
Fixpoint contains (needle hay : string) : bool :=
  String.prefix needle hay ||
  match hay with
  | EmptyString => false
  | String _ t => contains needle t
  end.

(** [any(k in line for k in ks)] *)
Definition any_in (ks : list string) (line : string) : bool :=
  existsb (fun k => contains k line) ks.

(** Whitespace of [str.isspace] restricted to ASCII. *)
Definition is_space (c : ascii) : bool :=
  let n := nat_of_ascii c in
  Nat.eqb n 32 || (Nat.leb 9 n && Nat.leb n 13) || (Nat.leb 28 n && Nat.leb n 31).

Fixpoint lstrip_by (p : ascii -> bool) (s : string) : string :=
  match s with
  | String c t => if p c then lstrip_by p t else s
  | EmptyString => s
  end.

Definition rev_string (s : string) : string :=
  string_of_list_ascii (rev (list_ascii_of_string s)).

Definition strip_by (p : ascii -> bool) (s : string) : string :=
  rev_string (lstrip_by p (rev_string (lstrip_by p s))).

(** [s.strip()] *)
Definition strip (s : string) : string := strip_by is_space s.

(** [s.strip(" .:")] *)
Definition strip_chars (cs : string) (s : string) : string :=
  strip_by (fun c => contains (String c EmptyString) cs) s.

(** [s.lower()] on ASCII letters *)
Definition ascii_lower (c : ascii) : ascii :=
  let n := nat_of_ascii c in
  if Nat.leb 65 n && Nat.leb n 90 then ascii_of_nat (n + 32) else c.

Fixpoint lower (s : string) : string :=
  match s with
  | String c t => String (ascii_lower c) (lower t)
  | EmptyString => EmptyString
  end.

(** [s.split(sep, 1)]: [Some (before, after)] at the first occurrence of a
    non-empty [sep], [None] when [sep] does not occur (the split then
    returns [[s]]). *)
Fixpoint split_once (sep s : string) : option (string * string) :=
  if String.prefix sep s then Some (EmptyString, substring (String.length sep) (String.length s) s)
  else match s with
       | EmptyString => None
       | String c t =>
           match split_once sep t with
           | Some (b, a) => Some (String c b, a)
           | None => None
           end
       end.

(** [s.split(sep, 1)[0]] and [s.split(sep, 1)[-1]] *)
Definition split_first (sep s : string) : string :=
  match split_once sep s with Some (b, _) => b | None => s end.
Definition split_last (sep s : string) : string :=
  match split_once sep s with Some (_, a) => a | None => s end.

(** [s.split(sep)[0]]: everything before the first [sep]. *)
Definition split_all_first (sep s : string) : string := split_first sep s.

(** [s.split()[0]] on a string with no leading whitespace: the first
    whitespace-free run. *)
Fixpoint first_word (s : string) : string :=
  match s with
  | String c t => if is_space c then EmptyString else String c (first_word t)
  | EmptyString => EmptyString
  end.

(** [str(n)] for the decimal rendering used in f-strings *)
Fixpoint uint_to_string (u : Decimal.uint) : string :=
  match u with
  | Decimal.Nil => EmptyString
  | Decimal.D0 u => String "0" (uint_to_string u)
  | Decimal.D1 u => String "1" (uint_to_string u)
  | Decimal.D2 u => String "2" (uint_to_string u)
  | Decimal.D3 u => String "3" (uint_to_string u)
  | Decimal.D4 u => String "4" (uint_to_string u)
  | Decimal.D5 u => String "5" (uint_to_string u)
  | Decimal.D6 u => String "6" (uint_to_string u)
  | Decimal.D7 u => String "7" (uint_to_string u)
  | Decimal.D8 u => String "8" (uint_to_string u)
  | Decimal.D9 u => String "9" (uint_to_string u)
  end.

Definition nat_to_string (n : nat) : string := uint_to_string (Nat.to_uint n).

Definition Z_to_string (z : Z) : string :=
  if (z <? 0)%Z then "-" ++ nat_to_string (Z.to_nat (- z))
  else nat_to_string (Z.to_nat z).

(** ** Data model *)

Inductive status := Pending | Running | Completed | Failed | Skipped.

Definition status_eqb (a b : status) : bool :=
  match a, b with
  | Pending, Pending | Running, Running | Completed, Completed
  | Failed, Failed | Skipped, Skipped => true
  | _, _ => false
  end.

Lemma status_eqb_eq a b : status_eqb a b = true <-> a = b.
Proof. destruct a, b; simpl; split; congruence. Qed.

(** A task dict [{"label": ..., "status": ...}] *)
Record task := mk_task { label : string; tstatus : status }.

Definition set_tstatus (st : status) (t : task) : task := mk_task (label t) st.

(** [progress_event] values *)
Inductive progress_kind := AnsibleTask | TerraformStep | TerraformDestroy.

Definition progress_kind_eqb (a b : progress_kind) : bool :=
  match a, b with
  | AnsibleTask, AnsibleTask | TerraformStep, TerraformStep
  | TerraformDestroy, TerraformDestroy => true
  | _, _ => false
  end.

(** The [tool] entry is a string or a list of strings. *)
Inductive tool := ToolName (s : string) | ToolNames (l : list string).

(** An entry of [STAGE_DEFINITIONS]; absent keys are [None]. *)
Record stage_def := mk_stage_def {
  def_id : string;
  def_title : string;
  def_description : string;
  def_tool : option tool;
  def_progress_event : option progress_kind;
  def_requires_role : option string;
  def_tasks : list string
}.

(** A stage entry of [stage_state]. *)
Record stage := mk_stage {
  sid : string;
  stitle : string;
  sdescription : string;
  stool : tool;
  sprogress_event : option progress_kind;
  tasks : list task;
  sstatus : status;
  note : string;
  base_task_count : nat
}.

Definition set_tasks (ts : list task) (s : stage) : stage :=
  mk_stage (sid s) (stitle s) (sdescription s) (stool s) (sprogress_event s)
    ts (sstatus s) (note s) (base_task_count s).

Definition set_status_note (st : status) (n : string) (s : stage) : stage :=
  mk_stage (sid s) (stitle s) (sdescription s) (stool s) (sprogress_event s)
    (tasks s) st n (base_task_count s).

(** A Python dict with string keys, as an association list in insertion
    order with unique keys. *)
Definition dict (V : Type) := list (string * V).

Fixpoint dict_get {V} (k : string) (d : dict V) : option V :=
  match d with
  | [] => None
  | (k', v) :: d' => if String.eqb k k' then Some v else dict_get k d'
  end.

Fixpoint dict_set {V} (k : string) (v : V) (d : dict V) : dict V :=
  match d with
  | [] => [(k, v)]
  | (k', v') :: d' => if String.eqb k k' then (k, v) :: d' else (k', v') :: dict_set k v d'
  end.

(** The role usage map returned by [determine_vm_role_usage]. *)
Definition role_map := dict bool.

(** The [DeploymentRunner] fields.  Timestamps are the values [time.time()]
    returned, passed in by the caller. *)
Record runner := mk_runner {
  mode : string;
  role_usage : role_map;
  stage_state : list stage;
  stage_lookup : dict nat;
  logs : list string;
  current_stage : option string;
  started_at : option Z;
  finished_at : option Z;
  return_code : option Z;
  running : bool
}.

(** Record updates of the runner fields. *)
Definition set_stage_state (l : list stage) (s : runner) : runner :=
  mk_runner (mode s) (role_usage s) l (stage_lookup s) (logs s) (current_stage s)
    (started_at s) (finished_at s) (return_code s) (running s).

Definition set_logs (l : list string) (s : runner) : runner :=
  mk_runner (mode s) (role_usage s) (stage_state s) (stage_lookup s) l (current_stage s)
    (started_at s) (finished_at s) (return_code s) (running s).

Definition set_current (c : option string) (s : runner) : runner :=
  mk_runner (mode s) (role_usage s) (stage_state s) (stage_lookup s) (logs s) c
    (started_at s) (finished_at s) (return_code s) (running s).

Definition set_return_code (rc : option Z) (s : runner) : runner :=
  mk_runner (mode s) (role_usage s) (stage_state s) (stage_lookup s) (logs s)
    (current_stage s) (started_at s) (finished_at s) rc (running s).

(** [l[i] = f(l[i])]; the indices used below always come from
    [stage_lookup] and are in range. *)
Fixpoint update_nth {A} (i : nat) (f : A -> A) (l : list A) : list A :=
  match l, i with
  | [], _ => []
  | x :: l', 0 => f x :: l'
  | x :: l', S i' => x :: update_nth i' f l'
  end.

Definition update_stage (i : nat) (f : stage -> stage) (s : runner) : runner :=
  set_stage_state (update_nth i f (stage_state s)) s.

(** ** Static tables *)

Definition STAGE_DEFINITIONS : dict (list stage_def) := [
  ("deploy", [
    mk_stage_def "setup" "Initial Setup & Validation"
      "Checks prerequisites, terraform.tfvars, and SSH keys."
      (Some (ToolName "Setup")) None None
      ["Check prerequisites"; "Validate terraform.tfvars";
       "Load validated variables"; "Ensure SSH keys"];
    mk_stage_def "terraform" "Terraform Deployment"
      "Creates or updates the Proxmox VMs through Terraform/OpenTofu."
      (Some (ToolName "Terraform")) (Some TerraformStep) None
      ["Initialize & validate"; "Create execution plan"; "Apply infrastructure"];
    mk_stage_def "nat" "NAT Rules"
      "Configures NAT and port forwarding on the Proxmox host."
      (Some (ToolName "Ansible")) (Some AnsibleTask) None
      ["Build inventories"; "Configure SSH NAT rules"; "Configure service NAT rules";
       "Validate NAT connectivity"; "Summarize port mappings"];
    mk_stage_def "vm" "VM Preparation"
      "Runs the base VM configuration playbook."
      (Some (ToolName "Ansible")) (Some AnsibleTask) None
      ["Update package cache"; "Install base packages"; "Configure firewall";
       "Create system directories"; "Apply timezone"; "Reboot if required"];
    mk_stage_def "k3s" "K3s Installation"
      "Installs the lightweight Kubernetes distribution."
      (Some (ToolName "Ansible")) (Some AnsibleTask) (Some "k3s")
      ["Install K3s binaries"; "Start K3s service"; "Verify API server";
       "Fetch kubeconfig"; "Update kubeconfig endpoint"; "Set kubeconfig permissions"];
    mk_stage_def "docker" "Docker Installation"
      "Installs Docker Engine on the nodes."
      (Some (ToolName "Ansible")) (Some AnsibleTask) (Some "docker")
      ["Install prerequisites"; "Deploy Docker packages"; "Enable Docker services"];
    mk_stage_def "openfaas" "OpenFaaS Installation"
      "Deploys OpenFaaS workloads on K3s."
      (Some (ToolNames ["Ansible"; "Helm"])) (Some AnsibleTask) None
      ["Install Helm if needed"; "Add OpenFaaS repo"; "Install OpenFaaS chart";
       "Wait for gateway pods"; "Retrieve admin password"; "Verify OpenFaaS pods"]
  ]);
  ("destroy", [
    mk_stage_def "destroy_nat" "Remove NAT Rules"
      "Reverts NAT and port forwarding rules on Proxmox."
      (Some (ToolName "Ansible")) (Some AnsibleTask) None
      ["Load inventories"; "Remove SSH NAT rules"; "Remove service NAT rules";
       "Validate removal"];
    mk_stage_def "destroy_tf" "Terraform Destroy"
      "Destroys all Terraform-managed infrastructure."
      (Some (ToolName "Terraform")) (Some TerraformDestroy) None
      ["Select Terraform/OpenTofu"; "Destroy VM resources"]
  ])
].

Definition DEFAULT_MODE : string := "deploy".

(** An entry of [TERRAFORM_TASK_SEQUENCE] / [DESTROY_TASK_SEQUENCE]. *)
Record seq_entry := mk_seq_entry {
  seq_label : string;
  keywords : list string;
  complete_keywords : list string
}.

Definition TERRAFORM_TASK_SEQUENCE : list seq_entry := [
  mk_seq_entry "Initialize & validate" ["Initializing"; "Validating configuration"]
    ["✓ Configuration valid"];
  mk_seq_entry "Create execution plan"
    ["Planning deployment"; "PLAN SUMMARY"; "✓ No changes needed"]
    ["✓ Plan created"; "✓ No changes needed"];
  mk_seq_entry "Apply infrastructure" ["Creating VM"; "[INFO] Creating"]
    ["✓ Infrastructure created successfully"]
].

Definition seq_keywords (sq : list seq_entry) : list string :=
  flat_map (fun e => (keywords e ++ complete_keywords e)%list) sq.

(** The set [TERRAFORM_KEYWORDS]; only membership tests are made on it. *)
Definition TERRAFORM_KEYWORDS : list string := seq_keywords TERRAFORM_TASK_SEQUENCE.

Definition DESTROY_TASK_SEQUENCE : list seq_entry := [
  mk_seq_entry "Select Terraform/OpenTofu" [] ["Using Terraform"; "Using OpenTofu"];
  mk_seq_entry "Destroy VM resources"
    ["Performing terraform destroy"; "Performing tofu destroy";
     "Performing terraform destroy -auto-approve"; "Performing tofu destroy -auto-approve";
     "Destroying..."; "destroy -auto-approve"]
    ["Destroy complete!"; "Destroy complete"; "Destruction complete"]
].

Definition DESTROY_KEYWORDS : list string :=
  (seq_keywords DESTROY_TASK_SEQUENCE ++ ["Destroying..."; "Destruction complete"])%list.

Definition HEADER_STAGE_MAP : dict string := [
  ("INITIAL SETUP AND VALIDATION", "setup");
  ("TERRAFORM DEPLOYMENT", "terraform")
].

Definition ANSIBLE_STAGE_KEYWORDS : dict string := [
  ("NAT configuration", "nat");
  ("VM configuration", "vm");
  ("K3s installation", "k3s");
  ("Docker installation", "docker");
  ("OpenFaaS installation", "openfaas");
  ("NAT rule removal", "destroy_nat")
].

(** ** [_reset_state], [start], [_append_log] *)

(** [if required_role and not self.role_usage.get(required_role, False)] *)
Definition keep_stage (ru : role_map) (d : stage_def) : bool :=
  match def_requires_role d with
  | None => true
  | Some r =>
      if String.eqb r "" then true
      else match dict_get r ru with Some true => true | _ => false end
  end.

Definition stage_entry (d : stage_def) : stage :=
  let ts := map (fun l => mk_task l Pending) (def_tasks d) in
  mk_stage (def_id d) (def_title d) (def_description d)
    (match def_tool d with Some t => t | None => ToolName "Ansible" end)
    (def_progress_event d) ts Pending "Waiting to start." (length ts).

(** [{stage["id"]: idx for idx, stage in enumerate(stage_state)}] *)
Fixpoint build_lookup_from (i : nat) (l : list stage) (d : dict nat) : dict nat :=
  match l with
  | [] => d
  | st :: l' => build_lookup_from (S i) l' (dict_set (sid st) i d)
  end.

Definition build_lookup (l : list stage) : dict nat := build_lookup_from 0 l [].

Definition reset_state (s : runner) : runner :=
  let defs := match dict_get (mode s) STAGE_DEFINITIONS with Some l => l | None => [] end in
  let st := map stage_entry (filter (keep_stage (role_usage s)) defs) in
  mk_runner (mode s) (role_usage s) st (build_lookup st) [] None None None None
    (running s).

(** [start(mode)]: [ru] is what [determine_vm_role_usage()] returned and
    [now] what [time.time()] returned; launching the worker thread is the
    separate step [run_deploy] below. *)
Definition start (m : string) (ru : role_map) (now : Z) (s : runner) : bool * runner :=
  if running s then (false, s)
  else
    let m' := match dict_get m STAGE_DEFINITIONS with Some _ => m | None => DEFAULT_MODE end in
    let s1 := reset_state (mk_runner m' ru (stage_state s) (stage_lookup s) (logs s)
                             (current_stage s) (started_at s) (finished_at s)
                             (return_code s) (running s)) in
    (true, mk_runner (mode s1) (role_usage s1) (stage_state s1) (stage_lookup s1)
             (logs s1) (current_stage s1) (Some now) (finished_at s1)
             (return_code s1) true).

Definition LOG_CAPACITY : nat := 200.

(** The list operation of [_append_log]. *)
Definition append_bounded (l : list string) (line : string) : list string :=
  let l' := (l ++ [line])%list in
  if Nat.ltb LOG_CAPACITY (length l') then skipn (length l' - LOG_CAPACITY) l' else l'.

Definition append_log (line : string) (s : runner) : runner :=
  set_logs (append_bounded (logs s) line) s.

(** ** [_mark_tasks] *)

Inductive mark_action := MStart | MComplete | MFail | MSkip.

Fixpoint start_first_pending (ts : list task) : list task :=
  match ts with
  | [] => []
  | t :: ts' =>
      if status_eqb (tstatus t) Pending then set_tstatus Running t :: ts'
      else t :: start_first_pending ts'
  end.

Definition complete_task (t : task) : task :=
  match tstatus t with
  | Pending | Running => set_tstatus Completed t
  | _ => t
  end.

Definition fail_task (t : task) : task :=
  match tstatus t with
  | Running => set_tstatus Failed t
  | Pending => set_tstatus Skipped t
  | _ => t
  end.

Definition skip_task (t : task) : task :=
  match tstatus t with
  | Pending => set_tstatus Skipped t
  | _ => t
  end.

Definition mark_tasks (st : stage) (a : mark_action) : stage :=
  let ts := tasks st in
  set_tasks
    (match a with
     | MStart => start_first_pending ts
     | MComplete => map complete_task ts
     | MFail => map fail_task ts
     | MSkip => map skip_task ts
     end) st.

(** ** Stage transitions *)

Definition start_stage (x : string) (s : runner) : runner :=
  match dict_get x (stage_lookup s) with
  | None => s
  | Some i =>
      let s1 :=
        match current_stage s with
        | Some c =>
            if negb (String.eqb c x) then
              match dict_get c (stage_lookup s) with
              | Some j =>
                  update_stage j
                    (fun g => mark_tasks (set_status_note Completed "Finished." g) MComplete) s
              | None => s
              end
            else s
        | None => s
        end in
      set_current (Some x)
        (update_stage i (fun g => mark_tasks (set_status_note Running "In progress..." g) MStart) s1)
  end.

(** The update of [_complete_stage]: status, note and [_mark_tasks]. *)
Definition closed_stage (st : status) (n : string) (g : stage) : stage :=
  let g1 := set_status_note st n g in
  match st with
  | Completed => mark_tasks g1 MComplete
  | Failed => mark_tasks g1 MFail
  | Skipped => mark_tasks g1 MSkip
  | _ => g1
  end.

Definition complete_stage (x : string) (st : status) (n : string) (s : runner) : runner :=
  match dict_get x (stage_lookup s) with
  | None => s
  | Some i =>
      let s1 := update_stage i (closed_stage st n) s in
      match current_stage s1 with
      | Some c => if String.eqb c x then set_current None s1 else s1
      | None => s1
      end
  end.

Definition skip_if_pending (g : stage) : stage :=
  match sstatus g with
  | Pending => mark_tasks (set_status_note Skipped "Not executed in this run." g) MSkip
  | _ => g
  end.

Definition finalize_run (success : bool) (now : Z) (s : runner) : runner :=
  let s1 :=
    match current_stage s with
    | Some c =>
        match dict_get c (stage_lookup s) with
        | Some j =>
            set_current None
              (update_stage j (fun g =>
                 mark_tasks
                   (set_status_note (if success then Completed else Failed)
                      (if success then "Finished." else "Deployment stopped.") g)
                   (if success then MComplete else MFail)) s)
        | None => s
        end
    | None => s
    end in
  let s2 := set_stage_state (map skip_if_pending (stage_state s1)) s1 in
  mk_runner (mode s2) (role_usage s2) (stage_state s2) (stage_lookup s2) (logs s2)
    (current_stage s2) (started_at s2) (Some now) (return_code s2) false.

(** ** Task progress *)

Fixpoint mapi_from {A B} (i : nat) (f : nat -> A -> B) (l : list A) : list B :=
  match l with
  | [] => []
  | x :: l' => f i x :: mapi_from (S i) f l'
  end.

Definition is_status (st : status) (t : task) : bool := status_eqb (tstatus t) st.

(** [_ensure_base_task_progress]: the loop over [range(base_count)]
    completes every base task before [target] and then handles [target]
    and breaks; [tasks] always has at least [base_task_count] entries. *)
Definition ensure_base_task_progress (st : stage) (target : nat) (complete : bool) : stage :=
  let base := base_task_count st in
  if Nat.leb base target then st
  else
    let ts1 := mapi_from 0 (fun i t =>
                 if Nat.ltb i target && negb (is_status Completed t)
                 then set_tstatus Completed t else t) (tasks st) in
    let ts2 :=
      if complete then
        let ts' := update_nth target (set_tstatus Completed) ts1 in
        if Nat.ltb (S target) base &&
           match nth_error ts' (S target) with Some t => is_status Pending t | None => false end
        then update_nth (S target) (set_tstatus Running) ts'
        else ts'
      else
        match nth_error ts1 target with
        | Some t => if negb (is_status Completed t)
                    then update_nth target (set_tstatus Running) ts1 else ts1
        | None => ts1
        end in
    set_tasks ts2 st.

Fixpoint find_index {A} (p : A -> bool) (l : list A) : option nat :=
  match l with
  | [] => None
  | x :: l' => if p x then Some 0 else option_map S (find_index p l')
  end.

Definition count {A} (p : A -> bool) (l : list A) : nat := length (filter p l).

(** [f"{name} ({n})"] *)
Definition numbered (name : string) (n : nat) : string :=
  name ++ " (" ++ nat_to_string n ++ ")".

(** [_advance_task] *)
Definition advance_task (st : stage) (task_name : option string) : stage :=
  let ts := tasks st in
  let name := match task_name with
              | Some n => if String.eqb n "" then None else Some n
              | None => None
              end in
  match name with
  | Some n =>
      let ts1 := map (fun t => if is_status Running t then set_tstatus Completed t else t) ts in
      match find (fun t => String.eqb (label t) n && is_status Running t) ts1 with
      | Some _ => set_tasks ts1 st
      | None =>
          let dup := count (fun t => String.prefix n (label t)) ts1 in
          let lbl := if Nat.eqb dup 0 then n else numbered n (S dup) in
          set_tasks (ts1 ++ [mk_task lbl Running])%list st
      end
  | None =>
      match ts with
      | [] => st
      | _ =>
          match find_index (is_status Running) ts with
          | Some r =>
              let ts1 := update_nth r (set_tstatus Completed) ts in
              set_tasks (firstn (S r) ts1 ++ start_first_pending (skipn (S r) ts1))%list st
          | None => set_tasks (start_first_pending ts) st
          end
      end
  end.

(** [ANSIBLE_TASK_PATTERN.search(line)] for [TASK\s+\[(.+?)\]], then
    [.group(1).strip()]. *)
Fixpoint upto_bracket (s : string) : option string :=
  match s with
  | EmptyString => None
  | String c t =>
      if Ascii.eqb c "]"%char then Some EmptyString
      else if Ascii.eqb c "010"%char then None
      else option_map (String c) (upto_bracket t)
  end.

Definition lazy_group (s : string) : option string :=
  match s with
  | EmptyString => None
  | String c t =>
      if Ascii.eqb c "010"%char then None else option_map (String c) (upto_bracket t)
  end.

Definition task_match_at (s : string) : option string :=
  match s with
  | String "T" (String "A" (String "S" (String "K" r))) =>
      match r with
      | String c _ =>
          if is_space c then
            match lstrip_by is_space r with
            | String "[" g => lazy_group g
            | _ => None
            end
          else None
      | EmptyString => None
      end
  | _ => None
  end.

Fixpoint task_search (s : string) : option string :=
  match task_match_at s with
  | Some g => Some g
  | None => match s with EmptyString => None | String _ t => task_search t end
  end.

Definition extract_ansible_task_name (line : string) : option string :=
  if String.eqb line "" then None else option_map strip (task_search line).

(** Helpers on the dynamic tasks [tasks[base_count:]]. *)
Definition map_dynamic (f : task -> task) (st : stage) : stage :=
  let b := base_task_count st in
  set_tasks (firstn b (tasks st) ++ map f (skipn b (tasks st)))%list st.

Definition complete_if_running (t : task) : task :=
  if is_status Running t then set_tstatus Completed t else t.

(** [_complete_dynamic_tasks] and [_complete_destroy_dynamic_tasks] *)
Definition complete_dynamic_tasks (st : stage) : stage :=
  map_dynamic (fun t => if is_status Pending t || is_status Running t
                        then set_tstatus Completed t else t) st.

Definition complete_destroy_dynamic_tasks (st : stage) : stage := complete_dynamic_tasks st.

(** The label choice shared by [_add_creation_task] and [_add_destroy_task]. *)
Definition fresh_dynamic_label (st : stage) (base_label : string) : string :=
  let existing := filter (String.prefix base_label)
                    (map label (skipn (base_task_count st) (tasks st))) in
  if existsb (String.eqb base_label) existing
  then numbered base_label (S (count (String.prefix base_label) existing))
  else base_label.

Definition add_creation_task (st : stage) (line : string) : stage :=
  let base := base_task_count st in
  if Nat.eqb base 0 then st
  else
    let st1 := ensure_base_task_progress st (Nat.min (base - 1) 2) false in
    let st2 := map_dynamic complete_if_running st1 in
    let l0 := strip_chars " .:" (split_last "Creating" line) in
    let l := if String.eqb l0 "" then "resource" else l0 in
    let lbl := fresh_dynamic_label st2 ("Creating " ++ l) in
    set_tasks (tasks st2 ++ [mk_task lbl Running])%list st2.

Fixpoint advance_terraform_loop (idx : nat) (sq : list seq_entry) (st : stage) (line : string)
  : stage :=
  match sq with
  | [] => st
  | e :: sq' =>
      if any_in (keywords e) line then
        let st1 := ensure_base_task_progress st idx false in
        if contains "[INFO] Creating" line then add_creation_task st1 line else st1
      else if any_in (complete_keywords e) line then
        let st1 := ensure_base_task_progress st idx true in
        if String.eqb (seq_label e) "Apply infrastructure" then complete_dynamic_tasks st1 else st1
      else advance_terraform_loop (S idx) sq' st line
  end.

Definition advance_terraform_task (st : stage) (line : string) : stage :=
  if String.eqb line "" then st
  else match tasks st with
       | [] => st
       | _ => advance_terraform_loop 0 TERRAFORM_TASK_SEQUENCE st line
       end.

Definition add_destroy_task (st : stage) (line : string) : stage :=
  let base := base_task_count st in
  if Nat.eqb base 0 then st
  else
    let st1 := ensure_base_task_progress st
                 (Nat.min (base - 1) (length DESTROY_TASK_SEQUENCE - 1)) false in
    let st2 := map_dynamic complete_if_running st1 in
    let resource := if contains ": Destroying" line
                    then strip (split_first ": Destroying" line)
                    else first_word (strip line) in
    let lbl := fresh_dynamic_label st2 ("Destroying " ++ resource) in
    set_tasks (tasks st2 ++ [mk_task lbl Running])%list st2.

Definition complete_matching_destroy_task (st : stage) (line : string) : stage :=
  let prefix := "Destroying " ++ strip (split_all_first ":" line) in
  map_dynamic (fun t => if String.prefix prefix (label t) then set_tstatus Completed t else t) st.

Definition any_in_lower (ks : list string) (line_lower : string) : bool :=
  existsb (fun k => contains (lower k) line_lower) ks.

Fixpoint advance_destroy_loop (idx : nat) (sq : list seq_entry) (st : stage) (ll : string)
  : stage :=
  match sq with
  | [] => st
  | e :: sq' =>
      let st1 := if any_in_lower (keywords e) ll
                 then ensure_base_task_progress st idx false else st in
      let st2 := if any_in_lower (complete_keywords e) ll then
                   let st' := ensure_base_task_progress st1 idx true in
                   if String.eqb (seq_label e) "Destroy VM resources"
                   then complete_destroy_dynamic_tasks st' else st'
                 else st1 in
      advance_destroy_loop (S idx) sq' st2 ll
  end.

Definition advance_destroy_task (st : stage) (line : string) : stage :=
  if String.eqb line "" then st
  else match tasks st with
       | [] => st
       | _ =>
           let st1 := advance_destroy_loop 0 DESTROY_TASK_SEQUENCE st (lower line) in
           if contains "Destroying..." line then add_destroy_task st1 line
           else if contains "Destruction complete" line || contains "Destroy complete" line
           then complete_matching_destroy_task st1 line
           else st1
       end.

(** The dispatch of [_record_progress_event] on the event type. *)
Definition progress_update (kind : progress_kind) (line : string) (g : stage) : stage :=
  match kind with
  | AnsibleTask => advance_task g (extract_ansible_task_name line)
  | TerraformStep => advance_terraform_task g line
  | TerraformDestroy => advance_destroy_task g line
  end.

(** [_record_progress_event] *)
Definition record_progress_event (kind : progress_kind) (line : string) (s : runner) : runner :=
  match current_stage s with
  | None => s
  | Some c =>
      match dict_get c (stage_lookup s) with
      | None => s
      | Some i =>
          match nth_error (stage_state s) i with
          | None => s
          | Some g =>
              match sprogress_event g with
              | Some k =>
                  if progress_kind_eqb k kind then update_stage i (progress_update kind line) s
                  else s
              | None => s
              end
          end
      end
  end.

(** ** [_handle_line] *)

(** The stage transition picked by the [ANSIBLE_STAGE_KEYWORDS] loop. *)
Inductive stage_event :=
| EvStart (id : string)
| EvComplete (id : string)
| EvFail (id : string).

Fixpoint ansible_stage_event (kws : dict string) (line : string) : option stage_event :=
  match kws with
  | [] => None
  | (lbl, id) :: kws' =>
      if contains ("Running Ansible " ++ lbl) line then Some (EvStart id)
      else if contains ("Ansible " ++ lbl ++ " completed successfully") line then Some (EvComplete id)
      else if contains ("Ansible " ++ lbl ++ " failed") line || contains (lbl ++ " failed") line
      then Some (EvFail id)
      else ansible_stage_event kws' line
  end.

Definition apply_stage_event (e : stage_event) (s : runner) : runner :=
  match e with
  | EvStart id => start_stage id s
  | EvComplete id => complete_stage id Completed "Finished." s
  | EvFail id => complete_stage id Failed "Failed. Check deployment logs." s
  end.

Fixpoint header_stage (hs : dict string) (line : string) : option string :=
  match hs with
  | [] => None
  | (h, id) :: hs' => if contains h line then Some id else header_stage hs' line
  end.

Definition handle_line (line : string) (s0 : runner) : runner :=
  let s1 := append_log line s0 in
  let s2 := if contains "TASK [" line then record_progress_event AnsibleTask line s1 else s1 in
  match header_stage HEADER_STAGE_MAP line with
  | Some id => start_stage id s2
  | None =>
      match ansible_stage_event ANSIBLE_STAGE_KEYWORDS line with
      | Some e => apply_stage_event e s2
      | None =>
          let s3 := if any_in TERRAFORM_KEYWORDS line
                    then record_progress_event TerraformStep line s2 else s2 in
          let s4 := if any_in DESTROY_KEYWORDS line
                    then record_progress_event TerraformDestroy line s3 else s3 in
          if contains "Performing" line && contains "destroy" (lower line) then
            start_stage "destroy_tf" s4
          else if contains "Deployment completed successfully" line then
            append_log "All stages completed."
              (match current_stage s4 with
               | Some c => complete_stage c Completed "Finished." s4
               | None => s4
               end)
          else s4
      end
  end.

Definition handle_lines (ls : list string) (s : runner) : runner :=
  fold_left (fun s l => handle_line l s) ls s.

(** ** [_run_deploy] *)

Definition in_range (lo hi : nat) (c : ascii) : bool :=
  Nat.leb lo (nat_of_ascii c) && Nat.leb (nat_of_ascii c) hi.

(** One match of [\x1B\[[0-?]*[ -/]*[@-~]] at the head of [s]; the three
    classes are disjoint, so the greedy match needs no backtracking. *)
Definition ansi_at (s : string) : option string :=
  match s with
  | String e (String "[" r) =>
      if Ascii.eqb e "027"%char then
        match lstrip_by (in_range 32 47) (lstrip_by (in_range 48 63) r) with
        | String c r' => if in_range 64 126 c then Some r' else None
        | EmptyString => None
        end
      else None
  | _ => None
  end.

Fixpoint remove_ansi_fuel (fuel : nat) (s : string) : string :=
  match fuel with
  | 0 => s
  | S fuel' =>
      match ansi_at s with
      | Some r => remove_ansi_fuel fuel' r
      | None =>
          match s with
          | EmptyString => EmptyString
          | String c t => String c (remove_ansi_fuel fuel' t)
          end
      end
  end.

(** [ANSI_ESCAPE.sub("", s)]: every step consumes a character. *)
Definition remove_ansi (s : string) : string := remove_ansi_fuel (S (String.length s)) s.

Definition clean_line (raw : string) : string := strip (remove_ansi raw).

(** The [for raw_line in process.stdout] loop. *)
Definition stream_lines (raw : list string) (s : runner) : runner :=
  fold_left (fun s r =>
    let line := clean_line r in
    if String.eqb line "" then s else handle_line line s) raw s.

(** The [finally] block once the stream is closed and [process.wait()]
    returned [rc] ([now] is [time.time()] in [_finalize_run]). *)
Definition finish_stream (rc : Z) (now : Z) (s0 : runner) : runner :=
  let success := Z.eqb rc 0 in
  let s1 := set_return_code (Some rc) s0 in
  let s2 :=
    match current_stage s1 with
    | Some c =>
        if negb success then
          append_log ("deploy.py exited with code " ++ Z_to_string rc)
            (complete_stage c Failed "deploy.py exited abruptly." s1)
        else s1
    | None => s1
    end in
  finalize_run success now s2.

(** [_run_deploy]: [out] is [None] when [process.stdout] is missing, else
    the raw lines the child wrote before exiting with [rc]. *)
Definition run_deploy (out : option (list string)) (rc : Z) (now : Z) (s : runner) : runner :=
  match out with
  | None => finalize_run false now (append_log "Failed to attach to deploy.py stdout." s)
  | Some raw => finish_stream rc now (stream_lines raw s)
  end.

(** [DeploymentRunner.__init__], with [ru] what [determine_vm_role_usage()]
    returned. *)
Definition init_runner (ru : role_map) : runner :=
  reset_state (mk_runner DEFAULT_MODE ru [] [] [] None None None None false).

(** The stage entry with a given id, as a client reads it from a snapshot. *)
Definition find_stage (x : string) (s : runner) : option stage :=
  find (fun g => String.eqb (sid g) x) (stage_state s).

(** The ids of the stages whose status is [running]. *)
Definition running_stage_ids (s : runner) : list string :=
  map sid (filter (fun g => status_eqb (sstatus g) Running) (stage_state s)).

Definition terminal (st : status) : Prop :=
  st = Completed \/ st = Failed \/ st = Skipped.

(** The state of a finished run: not running, and every stage and every
    task in a terminal status. *)
Definition run_settled (s : runner) : Prop :=
  running s = false /\
  Forall (fun g => terminal (sstatus g) /\ Forall (fun t => terminal (tstatus t)) (tasks g))
    (stage_state s).

(** Whether [role_usage] asks for a role, as [_reset_state] reads it. *)
Definition role_flag (r : string) (ru : role_map) : bool :=
  match dict_get r ru with Some true => true | _ => false end.

(** A fresh ["deploy"] plan for the given k3s and docker role usage. *)
Definition deploy_reset (k3s docker : bool) : runner :=
  reset_state (mk_runner "deploy" [("k3s", k3s); ("docker", docker)] [] [] [] None None None None false).

(** The output of one K3s playbook run with two tasks. *)
Definition k3s_scenario_lines : list string :=
  ["Running Ansible K3s installation"; "TASK [Install K3s binaries] ****";
   "TASK [Start K3s service] ****"; "Ansible K3s installation completed successfully"].

(** The Terraform output of a run whose plan has no changes. *)
Definition terraform_scenario_lines : list string :=
  ["=== TERRAFORM DEPLOYMENT ==="; "Initializing"; "✓ Configuration valid";
   "Planning deployment"; "✓ No changes needed"].

(** The operations that run under [self._lock], each one atomic: a
    state reached from a reset (at construction or in [start]) by any
    sequence of them.  [_complete_stage] is only ever called with
    ["completed"] or ["failed"]. *)
Inductive reachable : runner -> Prop :=
| reach_init s : reachable (reset_state s)
| reach_start m ru now s : running s = false -> reachable (snd (start m ru now s))
| reach_append l s : reachable s -> reachable (append_log l s)
| reach_progress k l s : reachable s -> reachable (record_progress_event k l s)
| reach_start_stage x s : reachable s -> reachable (start_stage x s)
| reach_complete_stage x st n s :
    (st = Completed \/ st = Failed) -> reachable s -> reachable (complete_stage x st n s)
| reach_return_code rc s : reachable s -> reachable (set_return_code rc s)
| reach_finalize b now s : reachable s -> reachable (finalize_run b now s).

(** The stage filter as the plan contract states it: a stage is kept when
    it requires no role or its role maps to [true]. *)
Definition role_requested (ru : role_map) (d : stage_def) : bool :=
  match def_requires_role d with
  | None => true
  | Some r => match dict_get r ru with Some b => b | None => false end
  end.

Definition fresh_entry_of (d : stage_def) (g : stage) : Prop :=
  sid g = def_id d /\ stitle g = def_title d /\ sdescription g = def_description d /\
  sprogress_event g = def_progress_event d /\
  sstatus g = Pending /\ note g = "Waiting to start." /\
  map label (tasks g) = def_tasks d /\
  Forall (fun t => tstatus t = Pending) (tasks g) /\
  base_task_count g = length (def_tasks d).

(** ** The stage invariant *)

(** Every key of [_stage_lookup] indexes a stage with that id. *)
Definition lookup_sound (l : list stage) (lk : dict nat) : Prop :=
  forall k i, dict_get k lk = Some i -> exists g, nth_error l i = Some g /\ sid g = k.

(** No stage runs when [current_stage] is [None]; otherwise exactly the
    stage [_stage_lookup[current_stage]] runs. *)
Definition single_running (l : list stage) (lk : dict nat) (c : option string) : Prop :=
  match c with
  | None => forall j g, nth_error l j = Some g -> sstatus g <> Running
  | Some x => exists i, dict_get x lk = Some i /\
      forall j g, nth_error l j = Some g -> (sstatus g = Running <-> j = i)
  end.

(** A pending stage has only pending tasks; a finished one only finished
    tasks. *)
Definition tasks_settled (g : stage) : Prop :=
  (sstatus g = Pending -> Forall (fun t => tstatus t = Pending) (tasks g)) /\
  (terminal (sstatus g) -> Forall (fun t => terminal (tstatus t)) (tasks g)).

Definition stages_inv (l : list stage) (lk : dict nat) (c : option string) : Prop :=
  NoDup (map sid l) /\ lookup_sound l lk /\ single_running l lk c /\
  (forall j g, nth_error l j = Some g -> tasks_settled g).

Definition runner_inv (s : runner) : Prop :=
  stages_inv (stage_state s) (stage_lookup s) (current_stage s).

(** A stage update that keeps the id and the status. *)
Definition same_head (g g' : stage) : Prop := sid g' = sid g /\ sstatus g' = sstatus g.

(** ** Module-level functions of app.py: tfvars and Proxmox access *)

(** ** [determine_vm_role_usage] *)

Definition QUOTE : ascii := "034".

(** [p] at the head of [s]: the rest of [s] after it. *)
Fixpoint strip_prefix (p s : string) : option string :=
  match p, s with
  | EmptyString, _ => Some s
  | String a p', String b s' => if Ascii.eqb a b then strip_prefix p' s' else None
  | String _ _, EmptyString => None
  end.

(** [re.sub(r'(#|//).*', '', line)] on one line: [.] stops at the line
    end, so everything from the first ["#"] or ["//"] on goes. *)
Fixpoint cut_comment (s : string) : string :=
  match s with
  | EmptyString => EmptyString
  | String c t =>
      if Ascii.eqb c "#" then EmptyString
      else if Ascii.eqb c "/" && String.prefix "/" t then EmptyString
      else String c (cut_comment t)
  end.

(** [[^Q]*] taken greedily, [Q] standing for the double quote: the run
    before the first quote, and the rest. *)
Fixpoint span_nonquote (s : string) : string * string :=
  match s with
  | EmptyString => (EmptyString, EmptyString)
  | String c t =>
      if Ascii.eqb c QUOTE then (EmptyString, s)
      else let (a, b) := span_nonquote t in (String c a, b)
  end.

(** [Q([^Q]+)Q] at the head of [s]: the group and what follows the
    closing quote.  The group cannot hold a quote, so the match is unique. *)
Definition quoted_at (s : string) : option (string * string) :=
  match s with
  | String q t =>
      if Ascii.eqb q QUOTE then
        match span_nonquote t with
        | (EmptyString, _) => None
        | (g, String _ r) => Some (g, r)
        | (_, EmptyString) => None
        end
      else None
  | EmptyString => None
  end.

(** [\s*=\s*] at the head of [s]; ["="] is not whitespace, so the greedy
    match needs no backtracking. *)
Definition eq_sep_at (s : string) : option string :=
  match lstrip_by is_space s with
  | String c r => if Ascii.eqb c "=" then Some (lstrip_by is_space r) else None
  | EmptyString => None
  end.

(** [re.match(r'Q([^Q]+)Q\s*=\s*Q([^Q]+)Q', s)]: the two groups. *)
Definition match_pair (s : string) : option (string * string) :=
  match quoted_at s with
  | Some (k, r) =>
      match eq_sep_at r with
      | Some r' => match quoted_at r' with Some (v, _) => Some (k, v) | None => None end
      | None => None
      end
  | None => None
  end.

(** [key\s*=\s*] matched at the head of [s]: the rest. *)
Definition match_key (key s : string) : option string :=
  match strip_prefix key s with Some r => eq_sep_at r | None => None end.

Definition is_digit (c : ascii) : bool :=
  Nat.leb 48 (nat_of_ascii c) && Nat.leb (nat_of_ascii c) 57.

(** [\d+] taken greedily (ASCII digits). *)
Fixpoint span_digits (s : string) : string :=
  match s with
  | String c t => if is_digit c then String c (span_digits t) else EmptyString
  | EmptyString => EmptyString
  end.

(** [int(ds)] for a string of ASCII digits. *)
Fixpoint digits_value (acc : nat) (s : string) : nat :=
  match s with
  | EmptyString => acc
  | String c t => digits_value (acc * 10 + (nat_of_ascii c - 48)) t
  end.

(** [re.match(r"vm_count\s*=\s*(\d+)", line)] and [int(group(1))] *)
Definition match_vm_count (line : string) : option nat :=
  match match_key "vm_count" line with
  | Some r =>
      match span_digits r with
      | EmptyString => None
      | ds => Some (digits_value 0 ds)
      end
  | None => None
  end.

(** [re.match(r'default_vm_role\s*=\s*Q([^Q]+)Q', line)] *)
Definition match_default_role (line : string) : option string :=
  match match_key "default_vm_role" line with
  | Some r => option_map fst (quoted_at r)
  | None => None
  end.

(** [s.endswith(suf)] *)
Definition ends_with (suf s : string) : bool := String.prefix (rev_string suf) (rev_string s).

(** The locals of the scanning loop. *)
Record tfvars_scan := mk_tfvars_scan {
  in_vm_roles : bool;
  vm_count : nat;
  default_role : string;
  explicit_roles : dict string
}.

Definition initial_scan : tfvars_scan := mk_tfvars_scan false 1 "k3s" [].

(** [explicit_roles[group(1)] = group(2)] when the pair matched. *)
Definition record_pair (m : option (string * string)) (d : dict string) : dict string :=
  match m with Some (k, v) => dict_set k v d | None => d end.

(** One iteration of [for raw_line in tf_file]; [raw] is the line without
    its terminator, which [.strip()] removes in the source. *)
Definition scan_line (st : tfvars_scan) (raw : string) : tfvars_scan :=
  let line := strip (cut_comment raw) in
  if String.eqb line "" then st
  else if in_vm_roles st then
    if String.prefix "}" line
    then mk_tfvars_scan false (vm_count st) (default_role st) (explicit_roles st)
    else mk_tfvars_scan true (vm_count st) (default_role st)
           (record_pair (match_pair line) (explicit_roles st))
  else if String.prefix "vm_roles" line then
    if contains "{" line then
      let remainder := strip (split_last "{" line) in
      let ex := if negb (String.eqb remainder "") && negb (String.eqb remainder "}")
                then record_pair (match_pair remainder) (explicit_roles st)
                else explicit_roles st in
      mk_tfvars_scan (if ends_with "}" remainder then in_vm_roles st else true)
        (vm_count st) (default_role st) ex
    else mk_tfvars_scan true (vm_count st) (default_role st) (explicit_roles st)
  else
    match match_vm_count line with
    | Some n => mk_tfvars_scan (in_vm_roles st) n (default_role st) (explicit_roles st)
    | None =>
        match match_default_role line with
        | Some d => mk_tfvars_scan (in_vm_roles st) (vm_count st) d (explicit_roles st)
        | None => st
        end
    end.

(** The role map built after the loop. *)
Definition role_usage_of (st : tfvars_scan) : role_map :=
  let vals := map snd (explicit_roles st) in
  let has_k3s := existsb (String.eqb "k3s") vals in
  let has_docker := existsb (String.eqb "docker") vals in
  let unspecified := vm_count st - length (explicit_roles st) in
  let '(k, d) :=
    if Nat.ltb 0 unspecified then
      if String.eqb (default_role st) "k3s" then (true, has_docker)
      else if String.eqb (default_role st) "docker" then (has_k3s, true)
      else (has_k3s, has_docker)
    else (has_k3s, has_docker) in
  [("k3s", k); ("docker", d)].

(** [determine_vm_role_usage()]: [tfvars] is [None] when neither
    terraform.tfvars nor the example file exists or reading it raised,
    else the lines of the file read. *)
Definition determine_vm_role_usage (tfvars : option (list string)) : role_map :=
  match tfvars with
  | None => [("k3s", true); ("docker", false)]
  | Some lines => role_usage_of (fold_left scan_line lines initial_scan)
  end.

(** ** [parse_proxmox_credentials] *)

(** [re.search(key + r'\s*=\s*Q([^Q]+)Q', content).group(1)]: the first
    position where the pattern matches. *)
Fixpoint search_assign (key s : string) : option string :=
  match match match_key key s with
        | Some r => option_map fst (quoted_at r)
        | None => None
        end with
  | Some v => Some v
  | None => match s with EmptyString => None | String _ t => search_assign key t end
  end.

Record credentials := mk_credentials {
  cred_url : string;
  cred_host : string;
  cred_user : string;
  cred_host_user : string;
  cred_password : string;
  cred_node : string
}.

Definition default_credentials : credentials := mk_credentials "" "" "" "" "" "".

(** The user fallback: [host_user or "root"], and ["@pam"] appended when
    the name has no realm. *)
Definition pam_user (user host_user : string) : string :=
  if String.eqb user "" then
    let candidate := if String.eqb host_user "" then "root" else host_user in
    if contains "@" candidate then candidate else candidate ++ "@pam"
  else if negb (contains "@" user) then user ++ "@pam" else user.

(** [parse_proxmox_credentials()]: [content] is [None] when no tfvars file
    exists or reading it raised. *)
Definition parse_proxmox_credentials (content : option string) : credentials :=
  match content with
  | None => default_credentials
  | Some c =>
      let get k := match search_assign k c with Some v => v | None => "" end in
      let user := get "proxmox_user" in
      let host_user := get "proxmox_host_user" in
      mk_credentials (get "proxmox_api_url") (get "proxmox_host") (pam_user user host_user)
        host_user (get "proxmox_password") (get "target_node")
  end.

Definition quote (x : string) : string := String QUOTE (x ++ String QUOTE "").

Definition tfvars_token (x : string) : bool :=
  negb (String.eqb x "") &&
  forallb (fun c => negb (Ascii.eqb c QUOTE || Ascii.eqb c "#" || Ascii.eqb c "/"))
    (list_ascii_of_string x).




Definition no_cut (c : ascii) : bool := negb (Ascii.eqb c "#" || Ascii.eqb c "/").



(** [s.replace(pat, rep)] for a non-empty [pat]: occurrences taken left to
    right without overlap; [skip] counts the characters of the occurrence
    just replaced that are still to be passed over. *)
Fixpoint replace_from (pat rep : string) (skip : nat) (s : string) : string :=
  match s with
  | EmptyString => EmptyString
  | String c t =>
      match skip with
      | S k => replace_from pat rep k t
      | O =>
          if String.prefix pat s then (rep ++ replace_from pat rep (String.length pat - 1) t)%string
          else String c (replace_from pat rep 0 t)
      end
  end.

Definition py_replace (pat rep s : string) : string := replace_from pat rep 0 s.

(** The digits of [int(s)] in base 10, with single underscores allowed
    between digits; [seen] tells whether a digit was just read. *)
Fixpoint py_digits (s : string) (acc : Z) (seen : bool) : option Z :=
  match s with
  | EmptyString => if seen then Some acc else None
  | String c t =>
      if is_digit c then py_digits t (acc * 10 + (Z.of_nat (nat_of_ascii c) - 48))%Z true
      else if Ascii.eqb c "_" && seen then py_digits t acc false
      else None
  end.

(** [int(s)] on a string: surrounding whitespace, an optional sign, then
    digits; [None] where Python raises [ValueError]. *)
Definition py_int (s : string) : option Z :=
  match strip s with
  | String c t =>
      if Ascii.eqb c "-" then option_map Z.opp (py_digits t 0 false)
      else if Ascii.eqb c "+" then py_digits t 0 false
      else py_digits (String c t) 0 false
  | EmptyString => None
  end.

(** The arguments [connect_proxmox] passes to [ProxmoxAPI(...)]. *)
Record proxmox_call := mk_proxmox_call {
  api_host : string;
  api_user : string;
  api_password : string;
  api_verify_ssl : bool;
  api_port : Z
}.

(** [connect_proxmox(creds)]: [None] for each early [return None] and for a
    port string [int] rejects; otherwise the [ProxmoxAPI] call it makes.
    [has_proxmoxer] is the module flag [HAS_PROXMOXER]. *)
Definition connect_proxmox (has_proxmoxer : bool) (creds : credentials) : option proxmox_call :=
  if negb has_proxmoxer then None
  else
    let url := cred_url creds in
    let host_override := cred_host creds in
    let user := cred_user creds in
    let password := cred_password creds in
    if (String.eqb url "" && String.eqb host_override "") || String.eqb user ""
       || String.eqb password ""
    then None
    else
      let host_port_source := if String.eqb url "" then host_override else url in
      let host_port := py_replace "http://" "" (py_replace "https://" "" host_port_source) in
      let host_port := split_all_first "/" host_port in
      let '(host, port_str) :=
        if contains ":" host_port then
          match split_once ":" host_port with
          | Some (h, p) => (h, p)
          | None => (host_port, "8006")
          end
        else (host_port, "8006") in
      match py_int port_str with
      | Some port => Some (mk_proxmox_call host user password false port)
      | None => None
      end.

Definition char_free (c : ascii) (s : string) : bool :=
  forallb (fun x => negb (Ascii.eqb c x)) (list_ascii_of_string s).

(** ** Predicates used by the properties of the runner *)

Definition task_kept (t t' : task) : Prop :=
  label t' = label t /\ (tstatus t = Completed -> tstatus t' = Completed).

Definition tasks_kept (ts ts' : list task) : Prop :=
  forall k t, nth_error ts k = Some t -> exists t', nth_error ts' k = Some t' /\ task_kept t t'.

Definition stage_kept (g g' : stage) : Prop :=
  sid g' = sid g /\ base_task_count g' = base_task_count g /\ tasks_kept (tasks g) (tasks g').

Definition runner_kept (s s' : runner) : Prop :=
  stage_lookup s' = stage_lookup s /\ Forall2 stage_kept (stage_state s) (stage_state s').

(** The dynamic tasks of a stage, [tasks[base_task_count:]]. *)
Definition dyn_tasks (g : stage) : list task := skipn (base_task_count g) (tasks g).

Definition not_pending (t : task) : Prop := tstatus t <> Pending.

Definition dyn_ok (g : stage) : Prop :=
  Forall not_pending (dyn_tasks g) /\ count (is_status Running) (dyn_tasks g) <= 1.

(** [t'] is no more [pending] or [running] than [t]. *)
Definition no_new (t t' : task) : Prop :=
  (tstatus t' = Pending -> tstatus t = Pending) /\ (tstatus t' = Running -> tstatus t = Running).

Definition dyn_inv (s : runner) : Prop := Forall dyn_ok (stage_state s).

Definition task_closed (t : task) : Prop := tstatus t <> Pending /\ tstatus t <> Running.

(** ** Sample inputs *)

Definition sample_terraform_stage : stage :=
  mk_stage "terraform" "Terraform" "Provision the VMs" (ToolName "Terraform/OpenTofu")
    (Some TerraformStep)
    [mk_task "Initialize" Completed; mk_task "Plan" Running; mk_task "Apply" Pending]
    Running "Running." 3.

Definition sample_destroy_stage : stage :=
  mk_stage "destroy_tf" "Destroy" "Tear down the VMs" (ToolName "Terraform/OpenTofu")
    (Some TerraformDestroy)
    [mk_task "Select Terraform/OpenTofu" Completed; mk_task "Destroy VM resources" Running;
     mk_task "Destroying vm[0]" Running]
    Running "Running." 2.



(** ** Log buffer *)

Section LogBuffer.
Local Open Scope list_scope.

(** The last [n] elements, Python's [l[-n:]] for [n > 0]. *)
Definition lastn {A} (n : nat) (l : list A) : list A := skipn (length l - n) l.

Lemma lastn_app_lastn {A} (n : nat) (l m : list A) :
  lastn n (lastn n l ++ m) = lastn n (l ++ m).
Proof.
  unfold lastn. set (k := length l - n).
  assert (Happ : skipn k l ++ m = skipn k (l ++ m)).
  { rewrite skipn_app. replace (k - length l) with 0 by (unfold k; lia). reflexivity. }
  rewrite Happ, skipn_skipn, length_skipn, length_app.
  f_equal. unfold k. lia.
Qed.

Lemma append_bounded_lastn (b : list string) (x : string) :
  length b <= LOG_CAPACITY ->
  append_bounded b x = lastn LOG_CAPACITY (b ++ [x]).
Proof.
  intros Hb. unfold append_bounded, lastn.
  destruct (Nat.ltb_spec LOG_CAPACITY (length (b ++ [x]))) as [H | H]; [reflexivity|].
  replace (length (b ++ [x]) - LOG_CAPACITY) with 0 by lia. reflexivity.
Qed.

Lemma length_append_bounded (b : list string) (x : string) :
  length (append_bounded b x) <= LOG_CAPACITY \/ length (append_bounded b x) = S (length b).
Proof.
  unfold append_bounded.
  destruct (Nat.ltb_spec LOG_CAPACITY (length (b ++ [x]))) as [H | H].
  - left. rewrite length_skipn. lia.
  - right. rewrite length_app. simpl. lia.
Qed.

Lemma fold_append_bounded (ls : list string) (b : list string) :
  length b <= LOG_CAPACITY ->
  fold_left append_bounded ls b = lastn LOG_CAPACITY (b ++ ls).
Proof.
  revert b. induction ls as [|x ls IH]; intros b Hb; simpl.
  - unfold lastn. replace (length (b ++ []) - LOG_CAPACITY) with 0
      by (rewrite app_nil_r; lia).
    rewrite app_nil_r. reflexivity.
  - rewrite IH.
    + rewrite append_bounded_lastn by exact Hb.
      rewrite lastn_app_lastn, <- app_assoc. reflexivity.
    + rewrite append_bounded_lastn by exact Hb. unfold lastn.
      rewrite length_skipn. lia.
Qed.

Lemma logs_fold_append_log (ls : list string) (s : runner) :
  logs (fold_left (fun s l => append_log l s) ls s) = fold_left append_bounded ls (logs s).
Proof.
  revert s. induction ls as [|x ls IH]; intros s; simpl; [reflexivity|].
  rewrite IH. reflexivity.
Qed.

End LogBuffer.

(** ** The plan built by [_reset_state] *)

Section Plan.
Local Open Scope list_scope.

Lemma stage_definitions_cases (m : string) (defs : list stage_def) :
  dict_get m STAGE_DEFINITIONS = Some defs ->
  (m = "deploy" /\ defs = match dict_get "deploy" STAGE_DEFINITIONS with Some l => l | None => [] end) \/
  (m = "destroy" /\ defs = match dict_get "destroy" STAGE_DEFINITIONS with Some l => l | None => [] end).
Proof.
  unfold STAGE_DEFINITIONS. cbn [dict_get].
  destruct (String.eqb_spec m "deploy") as [-> | Hd].
  - intros H. inversion H. left. split; reflexivity.
  - destruct (String.eqb_spec m "destroy") as [-> | He]; [|discriminate].
    intros H. inversion H. right. split; reflexivity.
Qed.

Lemma stage_definitions_roles_nonempty (m : string) (defs : list stage_def) (d : stage_def) :
  dict_get m STAGE_DEFINITIONS = Some defs -> In d defs -> def_requires_role d <> Some "".
Proof.
  intros H Hin. apply stage_definitions_cases in H.
  destruct H as [[_ ->] | [_ ->]]; simpl in Hin;
    repeat (destruct Hin as [<- | Hin]; [simpl; discriminate |]); contradiction.
Qed.

Lemma keep_stage_role_requested (ru : role_map) (d : stage_def) :
  def_requires_role d <> Some "" -> keep_stage ru d = role_requested ru d.
Proof.
  intros Hd. unfold keep_stage, role_requested.
  destruct (def_requires_role d) as [r|]; [|reflexivity].
  destruct (String.eqb_spec r "") as [-> | _]; [congruence|].
  destruct (dict_get r ru) as [[|]|]; reflexivity.
Qed.

Lemma stage_entry_fresh (d : stage_def) : fresh_entry_of d (stage_entry d).
Proof.
  unfold fresh_entry_of, stage_entry; simpl.
  repeat split; try reflexivity.
  - rewrite map_map. simpl. apply map_id.
  - apply Forall_map, Forall_forall. intros. reflexivity.
  - apply length_map.
Qed.

Lemma reset_state_stages (s : runner) :
  stage_state (reset_state s) =
  map stage_entry (filter (keep_stage (role_usage s))
                     match dict_get (mode s) STAGE_DEFINITIONS with Some l => l | None => [] end).
Proof. reflexivity. Qed.

(** A ["deploy"] reset only reads the k3s and docker entries of the role
    usage. *)
Lemma reset_state_deploy s :
  mode s = "deploy" ->
  reset_state s =
  mk_runner "deploy" (role_usage s)
    (stage_state (deploy_reset (role_flag "k3s" (role_usage s)) (role_flag "docker" (role_usage s))))
    (stage_lookup (deploy_reset (role_flag "k3s" (role_usage s)) (role_flag "docker" (role_usage s))))
    [] None None None None (running s).
Proof.
  intros Hm.
  assert (Hext : forall d,
    In d (match dict_get "deploy" STAGE_DEFINITIONS with Some l => l | None => [] end) ->
    keep_stage (role_usage s) d =
    keep_stage [("k3s", role_flag "k3s" (role_usage s));
                ("docker", role_flag "docker" (role_usage s))] d).
  { intros d Hin. simpl in Hin.
    repeat (destruct Hin as [<- | Hin];
      [unfold keep_stage, role_flag; simpl;
       try (destruct (dict_get _ (role_usage s)) as [[|]|]); reflexivity |]).
    contradiction. }
  unfold reset_state, deploy_reset. rewrite Hm. cbn zeta.
  assert (Hf : filter (keep_stage (role_usage s))
                 (match dict_get "deploy" STAGE_DEFINITIONS with Some l => l | None => [] end) =
               filter (keep_stage [("k3s", role_flag "k3s" (role_usage s));
                                   ("docker", role_flag "docker" (role_usage s))])
                 (match dict_get "deploy" STAGE_DEFINITIONS with Some l => l | None => [] end))
    by (apply filter_ext_in; exact Hext).
  rewrite Hf. reflexivity.
Qed.

End Plan.

(** ** Preservation of the stage invariant *)

Section Invariant.
Local Open Scope list_scope.

Lemma nth_error_update_nth_eq {A} (i : nat) (f : A -> A) (l : list A) :
  nth_error (update_nth i f l) i = option_map f (nth_error l i).
Proof. revert i; induction l as [|x l IH]; intros [|i]; simpl; auto. Qed.

Lemma nth_error_update_nth_neq {A} (i j : nat) (f : A -> A) (l : list A) :
  j <> i -> nth_error (update_nth i f l) j = nth_error l j.
Proof.
  revert i j; induction l as [|x l IH]; intros [|i] [|j] H; simpl; auto; try congruence.
Qed.

Lemma nth_error_update_nth_cases {A} (i j : nat) (f : A -> A) (l : list A) (y : A) :
  nth_error (update_nth i f l) j = Some y ->
  (j = i /\ exists x, nth_error l i = Some x /\ y = f x) \/ (j <> i /\ nth_error l j = Some y).
Proof.
  destruct (Nat.eq_dec j i) as [-> | Hne].
  - rewrite nth_error_update_nth_eq. destruct (nth_error l i) as [x|]; simpl; intros H;
      inversion H; subst; left; eauto.
  - rewrite nth_error_update_nth_neq by exact Hne. right. auto.
Qed.

Lemma map_update_nth {A B} (h : A -> B) (i : nat) (f : A -> A) (l : list A) :
  (forall x, h (f x) = h x) -> map h (update_nth i f l) = map h l.
Proof.
  intros Hf; revert i; induction l as [|x l IH]; intros [|i]; simpl; auto.
  - rewrite Hf. reflexivity.
  - rewrite IH. reflexivity.
Qed.

Lemma nth_error_map_some {A B} (f : A -> B) (l : list A) (j : nat) (y : B) :
  nth_error (map f l) j = Some y -> exists x, nth_error l j = Some x /\ y = f x.
Proof.
  rewrite nth_error_map. destruct (nth_error l j) as [x|]; simpl; intros H;
    inversion H; eauto.
Qed.

(** *** Task updates keep the stage's id and status *)

Lemma same_head_refl g : same_head g g.
Proof. split; reflexivity. Qed.

Lemma set_tasks_head g g' ts : same_head g g' -> same_head g (set_tasks ts g').
Proof. intros [H1 H2]. split; assumption. Qed.

Lemma map_dynamic_head g g' f : same_head g g' -> same_head g (map_dynamic f g').
Proof. apply set_tasks_head. Qed.

Lemma ensure_head g g' t c : same_head g g' -> same_head g (ensure_base_task_progress g' t c).
Proof.
  intros H. unfold ensure_base_task_progress.
  destruct (Nat.leb _ _); [exact H | apply set_tasks_head, H].
Qed.

Lemma add_creation_task_head g g' line : same_head g g' -> same_head g (add_creation_task g' line).
Proof.
  intros H. unfold add_creation_task. destruct (Nat.eqb _ _); [exact H|].
  apply set_tasks_head, map_dynamic_head, ensure_head, H.
Qed.

Lemma add_destroy_task_head g g' line : same_head g g' -> same_head g (add_destroy_task g' line).
Proof.
  intros H. unfold add_destroy_task. destruct (Nat.eqb _ _); [exact H|].
  apply set_tasks_head, map_dynamic_head, ensure_head, H.
Qed.

Lemma complete_dynamic_tasks_head g g' : same_head g g' -> same_head g (complete_dynamic_tasks g').
Proof. apply map_dynamic_head. Qed.

Lemma complete_matching_destroy_task_head g g' line :
  same_head g g' -> same_head g (complete_matching_destroy_task g' line).
Proof. apply map_dynamic_head. Qed.

Lemma advance_task_head g n : same_head g (advance_task g n).
Proof.
  unfold advance_task.
  destruct (match n with Some n => _ | None => None end) as [m|].
  - destruct (find _ _); apply set_tasks_head, same_head_refl.
  - destruct (tasks g); [apply same_head_refl|].
    destruct (find_index _ _); apply set_tasks_head, same_head_refl.
Qed.

Lemma advance_terraform_loop_head g idx sq st line :
  same_head g st -> same_head g (advance_terraform_loop idx sq st line).
Proof.
  revert idx st. induction sq as [|e sq IH]; intros idx st H; simpl; [exact H|].
  destruct (any_in (keywords e) line).
  - destruct (contains _ _); [apply add_creation_task_head|]; apply ensure_head, H.
  - destruct (any_in (complete_keywords e) line).
    + destruct (String.eqb _ _); [apply complete_dynamic_tasks_head|]; apply ensure_head, H.
    + apply IH, H.
Qed.

Lemma advance_destroy_loop_head g idx sq st ll :
  same_head g st -> same_head g (advance_destroy_loop idx sq st ll).
Proof.
  revert idx st. induction sq as [|e sq IH]; intros idx st H; simpl; [exact H|].
  apply IH.
  destruct (any_in_lower (complete_keywords e) ll).
  - destruct (String.eqb _ _);
      [apply complete_dynamic_tasks_head|]; apply ensure_head;
      (destruct (any_in_lower (keywords e) ll); [apply ensure_head|]; exact H).
  - destruct (any_in_lower (keywords e) ll); [apply ensure_head|]; exact H.
Qed.

Lemma progress_update_head kind line g : same_head g (progress_update kind line g).
Proof.
  destruct kind; simpl.
  - apply advance_task_head.
  - unfold advance_terraform_task. destruct (String.eqb _ _); [apply same_head_refl|].
    destruct (tasks g); [apply same_head_refl|]. apply advance_terraform_loop_head, same_head_refl.
  - unfold advance_destroy_task. destruct (String.eqb _ _); [apply same_head_refl|].
    destruct (tasks g); [apply same_head_refl|].
    assert (H := advance_destroy_loop_head g 0 DESTROY_TASK_SEQUENCE g (lower line) (same_head_refl g)).
    destruct (contains "Destroying..." line); [apply add_destroy_task_head, H|].
    destruct (_ || _); [apply complete_matching_destroy_task_head, H | exact H].
Qed.

(** *** Building blocks *)

Lemma lookup_sound_update l lk i f :
  (forall g, sid (f g) = sid g) -> lookup_sound l lk -> lookup_sound (update_nth i f l) lk.
Proof.
  intros Hf H k j Hk. destruct (H k j Hk) as [g [Hg Hid]].
  destruct (Nat.eq_dec j i) as [-> | Hne].
  - exists (f g). rewrite nth_error_update_nth_eq, Hg. split; [reflexivity | rewrite Hf; exact Hid].
  - exists g. rewrite nth_error_update_nth_neq by exact Hne. auto.
Qed.

Lemma lookup_distinct l lk x c i j :
  lookup_sound l lk -> dict_get x lk = Some i -> dict_get c lk = Some j -> x <> c -> i <> j.
Proof.
  intros H Hx Hc Hne ->.
  destruct (H x j Hx) as [g1 [H1 E1]]. destruct (H c j Hc) as [g2 [H2 E2]].
  rewrite H1 in H2. inversion H2. congruence.
Qed.

Lemma settled_running g : sstatus g = Running -> tasks_settled g.
Proof.
  intros H. split; intros H'; [congruence|].
  destruct H' as [H' | [H' | H']]; congruence.
Qed.

Lemma terminal_complete_task t : terminal (tstatus (complete_task t)).
Proof. destruct t as [l [| | | |]]; unfold terminal; simpl; auto. Qed.

Lemma terminal_fail_task t : terminal (tstatus (fail_task t)).
Proof. destruct t as [l [| | | |]]; unfold terminal; simpl; auto. Qed.

Lemma closed_stage_settled st n g :
  (st = Completed \/ st = Failed) -> tasks_settled (closed_stage st n g).
Proof.
  intros [-> | ->]; split; simpl; intros H; try discriminate;
    apply Forall_map, Forall_forall; intros t _;
    [apply terminal_complete_task | apply terminal_fail_task].
Qed.

Lemma closed_stage_status st n g : sstatus (closed_stage st n g) = st.
Proof. destruct st; reflexivity. Qed.

Lemma closed_stage_sid st n g : sid (closed_stage st n g) = sid g.
Proof. destruct st; reflexivity. Qed.

Lemma skip_if_pending_sid g : sid (skip_if_pending g) = sid g.
Proof. unfold skip_if_pending. destruct (sstatus g); reflexivity. Qed.

Lemma skip_if_pending_status g :
  sstatus (skip_if_pending g) = match sstatus g with Pending => Skipped | st => st end.
Proof. unfold skip_if_pending. destruct (sstatus g) eqn:E; try exact E; reflexivity. Qed.

Lemma skip_if_pending_settled g : tasks_settled g -> tasks_settled (skip_if_pending g).
Proof.
  intros Hs. unfold skip_if_pending. destruct (sstatus g) eqn:E; try exact Hs.
  destruct Hs as [Hp _]. split; simpl; intros H; [discriminate|].
  specialize (Hp E). apply Forall_map.
  eapply Forall_impl; [|exact Hp]. intros t Et. unfold skip_task. rewrite Et.
  unfold terminal. simpl. auto.
Qed.

(** Updating one stage with a function that keeps its id. *)
Lemma base_update l lk i f :
  (forall g, sid (f g) = sid g) ->
  (forall g, nth_error l i = Some g -> tasks_settled (f g)) ->
  NoDup (map sid l) -> lookup_sound l lk ->
  (forall j g, nth_error l j = Some g -> tasks_settled g) ->
  NoDup (map sid (update_nth i f l)) /\ lookup_sound (update_nth i f l) lk /\
  (forall j g, nth_error (update_nth i f l) j = Some g -> tasks_settled g).
Proof.
  intros Hf Hfs Hnd Hlk Hset. split; [|split].
  - rewrite map_update_nth by exact Hf. exact Hnd.
  - apply lookup_sound_update; assumption.
  - intros j g Hj. apply nth_error_update_nth_cases in Hj.
    destruct Hj as [[-> [x [Hx ->]]] | [_ Hj]]; [apply Hfs; exact Hx | apply (Hset j g Hj)].
Qed.

(** *** Each locked operation preserves the invariant *)

Lemma record_progress_event_inv kind line s :
  runner_inv s -> runner_inv (record_progress_event kind line s).
Proof.
  intros Hinv. pose proof Hinv as (Hnd & Hlk & Hrun & Hset).
  unfold record_progress_event.
  destruct (current_stage s) as [c|] eqn:Hc; [|exact Hinv].
  destruct (dict_get c (stage_lookup s)) as [i|] eqn:Hi; [|exact Hinv].
  destruct (nth_error (stage_state s) i) as [g0|] eqn:Hg0; [|exact Hinv].
  destruct (sprogress_event g0) as [k|]; [|exact Hinv].
  destruct (progress_kind_eqb k kind); [|exact Hinv].
  simpl in Hrun.
  destruct Hrun as [i0 [Hi0 Hrun]]. rewrite Hi in Hi0. inversion Hi0; subst i0.
  unfold runner_inv, update_stage, set_stage_state; cbn [stage_state stage_lookup current_stage].
  rewrite Hc.
  destruct (base_update (stage_state s) (stage_lookup s) i (progress_update kind line))
    as (Hnd' & Hlk' & Hset'); try assumption.
  - intros g. apply progress_update_head.
  - intros g Hg. apply settled_running.
    destruct (progress_update_head kind line g) as [_ ->].
    apply (Hrun i g Hg). reflexivity.
  - split; [exact Hnd'|]. split; [exact Hlk'|]. split; [|exact Hset'].
    exists i. split; [exact Hi|].
    intros j g Hj. apply nth_error_update_nth_cases in Hj.
    destruct Hj as [[-> [x [Hx ->]]] | [Hne Hj]].
    + destruct (progress_update_head kind line x) as [_ ->]. apply (Hrun i x Hx).
    + apply (Hrun j g Hj).
Qed.

Lemma start_stage_inv x s : runner_inv s -> runner_inv (start_stage x s).
Proof.
  intros Hinv. pose proof Hinv as (Hnd & Hlk & Hrun & Hset).
  unfold start_stage.
  destruct (dict_get x (stage_lookup s)) as [i|] eqn:Hi; [|exact Hinv].
  set (FC := fun g => mark_tasks (set_status_note Completed "Finished." g) MComplete).
  set (s1 := match current_stage s with
             | Some c => if negb (String.eqb c x) then
                           match dict_get c (stage_lookup s) with
                           | Some j => update_stage j FC s
                           | None => s
                           end
                         else s
             | None => s
             end).
  assert (Hs1 : stage_lookup s1 = stage_lookup s /\
                NoDup (map sid (stage_state s1)) /\ lookup_sound (stage_state s1) (stage_lookup s) /\
                (forall j g, nth_error (stage_state s1) j = Some g -> tasks_settled g) /\
                (forall j g, nth_error (stage_state s1) j = Some g -> j <> i -> sstatus g <> Running)).
  { unfold s1. unfold runner_inv in Hrun.
    destruct (current_stage s) as [c|] eqn:Hc.
    - destruct Hrun as [j0 [Hj0 Hrun]].
      destruct (String.eqb_spec c x) as [-> | Hne]; simpl.
      + rewrite Hi in Hj0. inversion Hj0; subst j0.
        split; [reflexivity|]. split; [assumption|]. split; [assumption|]. split; [assumption|].
        intros j g Hj Hji Hr. apply Hji, (Hrun j g Hj), Hr.
      + rewrite Hj0. unfold update_stage, set_stage_state; cbn [stage_state stage_lookup].
        destruct (base_update (stage_state s) (stage_lookup s) j0 FC)
          as (Hnd' & Hlk' & Hset'); try assumption.
        * intros g. reflexivity.
        * intros g _. apply (closed_stage_settled Completed "Finished." g). left; reflexivity.
        * split; [reflexivity|]. split; [assumption|]. split; [assumption|]. split; [assumption|].
          intros j g Hj Hji. apply nth_error_update_nth_cases in Hj.
          destruct Hj as [[-> [y [Hy ->]]] | [Hne' Hj]]; [discriminate|].
          intros Hr. apply Hne', (Hrun j g Hj), Hr.
    - simpl. split; [reflexivity|]. split; [assumption|]. split; [assumption|]. split; [assumption|].
      intros j g Hj _. apply (Hrun j g Hj). }
  destruct Hs1 as (Hlk1 & Hnd1 & Hlks1 & Hset1 & Hnr1).
  set (FR := fun g => mark_tasks (set_status_note Running "In progress..." g) MStart).
  destruct (base_update (stage_state s1) (stage_lookup s) i FR)
    as (Hnd' & Hlk' & Hset'); try assumption.
  - intros g. reflexivity.
  - intros g _. apply settled_running. reflexivity.
  - unfold runner_inv, set_current, update_stage, set_stage_state;
      cbn [stage_state stage_lookup current_stage]. rewrite Hlk1.
    split; [exact Hnd'|]. split; [exact Hlk'|]. split; [|exact Hset'].
    exists i. split; [exact Hi|].
    intros j g Hj. apply nth_error_update_nth_cases in Hj.
    destruct Hj as [[-> [y [Hy ->]]] | [Hne Hj]].
    + split; reflexivity.
    + split; [intros Hr; exfalso; apply (Hnr1 j g Hj Hne Hr) | intros E; contradiction].
Qed.

Lemma complete_stage_inv x st n s :
  (st = Completed \/ st = Failed) -> runner_inv s -> runner_inv (complete_stage x st n s).
Proof.
  intros Hst Hinv. pose proof Hinv as (Hnd & Hlk & Hrun & Hset).
  assert (Hnr : st <> Running) by (destruct Hst; subst; discriminate).
  unfold complete_stage.
  destruct (dict_get x (stage_lookup s)) as [i|] eqn:Hi; [|exact Hinv].
  destruct (base_update (stage_state s) (stage_lookup s) i (closed_stage st n))
    as (Hnd' & Hlk' & Hset'); try assumption.
  - intros g. apply closed_stage_sid.
  - intros g _. apply closed_stage_settled, Hst.
  - unfold runner_inv in Hrun.
    assert (Hst_i : forall j g, nth_error (update_nth i (closed_stage st n) (stage_state s)) j = Some g ->
                    (j = i /\ sstatus g = st) \/ (j <> i /\ nth_error (stage_state s) j = Some g)).
    { intros j g Hj. apply nth_error_update_nth_cases in Hj.
      destruct Hj as [[-> [y [Hy ->]]] | H]; [left; split; [reflexivity | apply closed_stage_status] | right; exact H]. }
    unfold update_stage, set_stage_state; cbn [current_stage].
    destruct (current_stage s) as [c|] eqn:Hc.
    + destruct Hrun as [j0 [Hj0 Hrun]].
      destruct (String.eqb_spec c x) as [-> | Hne].
      * rewrite Hi in Hj0. inversion Hj0; subst j0.
        unfold runner_inv, set_current; cbn [stage_state stage_lookup current_stage].
        split; [exact Hnd'|]. split; [exact Hlk'|]. split; [|exact Hset'].
        intros j g Hj. destruct (Hst_i j g Hj) as [[-> ->] | [Hne Hj']]; [exact Hnr|].
        intros Hr. apply Hne, (Hrun j g Hj'), Hr.
      * assert (Hij : i <> j0) by exact (lookup_distinct _ _ _ _ _ _ Hlk Hi Hj0 (not_eq_sym Hne)).
        unfold runner_inv; cbn [stage_state stage_lookup current_stage].
        split; [exact Hnd'|]. split; [exact Hlk'|]. split; [|exact Hset'].
        exists j0. split; [exact Hj0|].
        intros j g Hj. destruct (Hst_i j g Hj) as [[-> ->] | [_ Hj']].
        -- split; [contradiction | intros E; congruence].
        -- apply (Hrun j g Hj').
    + unfold runner_inv; cbn [stage_state stage_lookup current_stage].
      split; [exact Hnd'|]. split; [exact Hlk'|]. split; [|exact Hset'].
      intros j g Hj. destruct (Hst_i j g Hj) as [[-> ->] | [_ Hj']]; [exact Hnr|].
      apply (Hrun j g Hj').
Qed.

Lemma skip_all_inv l lk :
  NoDup (map sid l) -> lookup_sound l lk ->
  (forall j g, nth_error l j = Some g -> tasks_settled g) ->
  (forall j g, nth_error l j = Some g -> sstatus g <> Running) ->
  stages_inv (map skip_if_pending l) lk None.
Proof.
  intros Hnd Hlk Hset Hnr.
  assert (Hm : map sid (map skip_if_pending l) = map sid l)
    by (rewrite map_map; apply map_ext, skip_if_pending_sid).
  split; [rewrite Hm; exact Hnd|]. split; [|split].
  - intros k i Hk. destruct (Hlk k i Hk) as [g [Hg Hid]].
    exists (skip_if_pending g). rewrite nth_error_map, Hg.
    split; [reflexivity | rewrite skip_if_pending_sid; exact Hid].
  - simpl. intros j g Hj. apply nth_error_map_some in Hj. destruct Hj as [g0 [Hg0 ->]].
    rewrite skip_if_pending_status. specialize (Hnr j g0 Hg0).
    destruct (sstatus g0); congruence.
  - intros j g Hj. apply nth_error_map_some in Hj. destruct Hj as [g0 [Hg0 ->]].
    apply skip_if_pending_settled, (Hset j g0 Hg0).
Qed.

Lemma finalize_run_inv b now s :
  runner_inv s -> runner_inv (finalize_run b now s) /\ current_stage (finalize_run b now s) = None.
Proof.
  intros Hinv. pose proof Hinv as (Hnd & Hlk & Hrun & Hset).
  unfold finalize_run, runner_inv. unfold runner_inv in Hrun.
  destruct (current_stage s) as [c|] eqn:Hc.
  - destruct Hrun as [j0 [Hj0 Hrun]]. rewrite Hj0.
    cbn [stage_state stage_lookup current_stage set_current set_stage_state update_stage].
    split; [|reflexivity].
    match goal with |- context [update_nth j0 ?F (stage_state s)] => set (FF := F) end.
    assert (HF : forall g, FF g = closed_stage (if b then Completed else Failed)
                                   (if b then "Finished." else "Deployment stopped.") g)
      by (intros g; destruct b; reflexivity).
    destruct (base_update (stage_state s) (stage_lookup s) j0 FF)
      as (Hnd' & Hlk' & Hset'); try assumption.
    + intros g. rewrite HF. apply closed_stage_sid.
    + intros g _. rewrite HF. apply closed_stage_settled. destruct b; auto.
    + apply skip_all_inv; try assumption.
      intros j g Hj. apply nth_error_update_nth_cases in Hj.
      destruct Hj as [[-> [y [Hy ->]]] | [Hne Hj]].
      * rewrite HF, closed_stage_status. destruct b; discriminate.
      * intros Hr. apply Hne, (Hrun j g Hj), Hr.
  - cbn [stage_state stage_lookup current_stage set_stage_state].
    split; [|exact Hc]. rewrite Hc. apply skip_all_inv; assumption.
Qed.

Lemma dict_get_set {V} (k k' : string) (v : V) (d : dict V) :
  dict_get k (dict_set k' v d) = if String.eqb k k' then Some v else dict_get k d.
Proof.
  induction d as [|[k'' v''] d IH]; simpl; [reflexivity|].
  destruct (String.eqb_spec k' k'') as [-> | Hne]; simpl.
  - destruct (String.eqb k k''); reflexivity.
  - rewrite IH.
    destruct (String.eqb_spec k k'') as [-> | Hne2]; [|reflexivity].
    destruct (String.eqb_spec k'' k') as [-> | _]; [contradiction | reflexivity].
Qed.

Lemma build_lookup_from_sound i l d k j :
  dict_get k (build_lookup_from i l d) = Some j ->
  (i <= j /\ exists g, nth_error l (j - i) = Some g /\ sid g = k) \/ dict_get k d = Some j.
Proof.
  revert i d. induction l as [|g l IH]; intros i d H; simpl in H; [right; exact H|].
  destruct (IH _ _ H) as [[Hle [g' [Hg' Hid]]] | Hd].
  - left. split; [lia|]. exists g'.
    replace (j - i) with (S (j - S i)) by lia. simpl. auto.
  - rewrite dict_get_set in Hd. destruct (String.eqb_spec k (sid g)) as [-> | Hne].
    + inversion Hd; subst. left. split; [lia|]. exists g. rewrite Nat.sub_diag. auto.
    + right; exact Hd.
Qed.

Lemma build_lookup_sound l : lookup_sound l (build_lookup l).
Proof.
  intros k j H. apply build_lookup_from_sound in H.
  destruct H as [[_ H] | H]; [rewrite Nat.sub_0_r in H; exact H | discriminate].
Qed.

(** Dropping definitions keeps their ids distinct. *)
Lemma nodup_ids_filter (keep : stage_def -> bool) (ds : list stage_def) :
  NoDup (map def_id ds) -> NoDup (map def_id (filter keep ds)).
Proof.
  induction ds as [|d ds IH]; cbn [filter map]; intros Hnd; [constructor|].
  apply NoDup_cons_iff in Hnd. destruct Hnd as [Hout Hnd].
  destruct (keep d); cbn [map]; [|exact (IH Hnd)].
  apply NoDup_cons; [|exact (IH Hnd)].
  rewrite in_map_iff. intros [d' [Hid Hin]]. apply filter_In in Hin.
  apply Hout. rewrite <- Hid. apply in_map, (proj1 Hin).
Qed.

Lemma stage_definitions_nodup (m : string) :
  NoDup (map def_id match dict_get m STAGE_DEFINITIONS with Some l => l | None => [] end).
Proof.
  destruct (dict_get m STAGE_DEFINITIONS) eqn:H; [|constructor].
  apply stage_definitions_cases in H. destruct H as [[_ ->] | [_ ->]]; vm_compute;
    repeat (constructor; [simpl; intuition discriminate |]); constructor.
Qed.

Lemma reset_state_inv s : runner_inv (reset_state s).
Proof.
  unfold runner_inv, reset_state; cbn [stage_state stage_lookup current_stage].
  set (defs := match dict_get (mode s) STAGE_DEFINITIONS with Some l => l | None => [] end).
  split; [|split; [|split]].
  - rewrite map_map. apply nodup_ids_filter, stage_definitions_nodup.
  - apply build_lookup_sound.
  - simpl. intros j g Hj. apply nth_error_map_some in Hj. destruct Hj as [d [_ ->]].
    discriminate.
  - intros j g Hj. apply nth_error_map_some in Hj. destruct Hj as [d [_ ->]].
    destruct (stage_entry_fresh d) as (_ & _ & _ & _ & Hst & _ & _ & Hts & _).
    split; [intros _; exact Hts|]. rewrite Hst. intros [H | [H | H]]; discriminate.
Qed.

Lemma start_inv m ru now s : running s = false -> runner_inv (snd (start m ru now s)).
Proof.
  intros H. unfold start. rewrite H. apply reset_state_inv.
Qed.

Lemma reachable_inv s : reachable s -> runner_inv s.
Proof.
  induction 1.
  - apply reset_state_inv.
  - apply start_inv; assumption.
  - exact IHreachable.
  - apply record_progress_event_inv; assumption.
  - apply start_stage_inv; assumption.
  - apply complete_stage_inv; assumption.
  - exact IHreachable.
  - apply finalize_run_inv; assumption.
Qed.

(** *** Whole lines and runs are sequences of locked operations *)

Lemma reach_if (b : bool) x y : reachable x -> reachable y -> reachable (if b then x else y).
Proof. destruct b; auto. Qed.

Lemma handle_line_reachable l s : reachable s -> reachable (handle_line l s).
Proof.
  intros H. unfold handle_line. cbv zeta.
  assert (H1 : reachable (append_log l s)) by (constructor; exact H).
  assert (H2 : reachable (if contains "TASK [" l
                          then record_progress_event AnsibleTask l (append_log l s)
                          else append_log l s))
    by (apply reach_if; [constructor|]; exact H1).
  revert H2.
  generalize (if contains "TASK [" l
              then record_progress_event AnsibleTask l (append_log l s)
              else append_log l s) as s2.
  intros s2 H2.
  destruct (header_stage _ _); [constructor; exact H2|].
  destruct (ansible_stage_event _ _) as [[id | id | id] |]; cbn [apply_stage_event].
  - constructor; exact H2.
  - constructor; [left; reflexivity | exact H2].
  - constructor; [right; reflexivity | exact H2].
  - assert (H3 : reachable (if any_in TERRAFORM_KEYWORDS l
                            then record_progress_event TerraformStep l s2 else s2))
      by (apply reach_if; [constructor|]; exact H2).
    revert H3.
    generalize (if any_in TERRAFORM_KEYWORDS l
                then record_progress_event TerraformStep l s2 else s2) as s3.
    intros s3 H3.
    assert (H4 : reachable (if any_in DESTROY_KEYWORDS l
                            then record_progress_event TerraformDestroy l s3 else s3))
      by (apply reach_if; [constructor|]; exact H3).
    revert H4.
    generalize (if any_in DESTROY_KEYWORDS l
                then record_progress_event TerraformDestroy l s3 else s3) as s4.
    intros s4 H4.
    apply reach_if; [constructor; exact H4|].
    apply reach_if; [|exact H4].
    constructor. destruct (current_stage s4); [|exact H4].
    constructor; [left; reflexivity | exact H4].
Qed.

Lemma handle_lines_reachable ls s : reachable s -> reachable (handle_lines ls s).
Proof.
  unfold handle_lines. revert s. induction ls as [|l ls IH]; intros s H; simpl; [exact H|].
  apply IH, handle_line_reachable, H.
Qed.

Lemma stream_lines_reachable raw s : reachable s -> reachable (stream_lines raw s).
Proof.
  unfold stream_lines. revert s. induction raw as [|r raw IH]; intros s H; simpl; [exact H|].
  apply IH. destruct (String.eqb _ _); [exact H | apply handle_line_reachable, H].
Qed.

Lemma finish_stream_reachable rc now s : reachable s -> reachable (finish_stream rc now s).
Proof.
  intros H. unfold finish_stream. constructor.
  assert (H1 : reachable (set_return_code (Some rc) s)) by (constructor; exact H).
  destruct (current_stage _); [|exact H1].
  destruct (negb _); [|exact H1].
  constructor. constructor; [right; reflexivity | exact H1].
Qed.

Lemma run_deploy_reachable out rc now s : reachable s -> reachable (run_deploy out rc now s).
Proof.
  intros H. destruct out as [raw|]; simpl.
  - apply finish_stream_reachable, stream_lines_reachable, H.
  - constructor. constructor. exact H.
Qed.

End Invariant.

(** ** Finished runs *)

Section Runs.
Local Open Scope list_scope.

Lemma filter_none {A} (p : A -> bool) (l : list A) :
  (forall j b, nth_error l j = Some b -> p b = false) -> filter p l = [].
Proof.
  induction l as [|a l IH]; intros H; simpl; [reflexivity|].
  rewrite (H 0 a eq_refl). apply IH. intros j b Hj. exact (H (S j) b Hj).
Qed.

Lemma filter_unique {A} (p : A -> bool) (l : list A) (i : nat) (a : A) :
  nth_error l i = Some a ->
  (forall j b, nth_error l j = Some b -> (p b = true <-> j = i)) ->
  filter p l = [a].
Proof.
  revert i. induction l as [|x l IH]; intros [|i] Ha H; simpl in Ha; try discriminate.
  - inversion Ha; subst. simpl. rewrite (proj2 (H 0 a eq_refl) eq_refl).
    f_equal. apply filter_none. intros j b Hj.
    destruct (p b) eqn:E; [|reflexivity].
    apply (H (S j) b Hj) in E. discriminate.
  - simpl. destruct (p x) eqn:E.
    + apply (H 0 x eq_refl) in E. discriminate.
    + apply (IH i Ha). intros j b Hj. rewrite (H (S j) b Hj). split; congruence.
Qed.

Lemma running_stage_ids_inv s :
  runner_inv s ->
  running_stage_ids s = match current_stage s with Some x => [x] | None => [] end.
Proof.
  intros (Hnd & Hlk & Hrun & _). unfold running_stage_ids.
  destruct (current_stage s) as [x|].
  - destruct Hrun as [i [Hi Hrun]]. destruct (Hlk x i Hi) as [g [Hg Hid]].
    rewrite (filter_unique _ _ i g Hg); [simpl; rewrite Hid; reflexivity|].
    intros j b Hj. rewrite <- (Hrun j b Hj).
    split; intros E; [apply status_eqb_eq, E | rewrite E; reflexivity].
  - rewrite filter_none; [reflexivity|]. intros j b Hj.
    specialize (Hrun j b Hj). destruct (sstatus b); simpl; congruence.
Qed.

Lemma find_sid_nth (l : list stage) (i : nat) (g : stage) :
  NoDup (map sid l) -> nth_error l i = Some g ->
  find (fun h => String.eqb (sid h) (sid g)) l = Some g.
Proof.
  revert i. induction l as [|h l IH]; intros [|i] Hnd Hg; simpl in Hg; try discriminate.
  - inversion Hg; subst. simpl. rewrite String.eqb_refl. reflexivity.
  - simpl. inversion Hnd as [|? ? Hnin Hnd']; subst.
    destruct (String.eqb_spec (sid h) (sid g)) as [E | _].
    + exfalso. apply Hnin. rewrite E. apply in_map, (nth_error_In _ _ Hg).
    + exact (IH i Hnd' Hg).
Qed.

Lemma finalize_stage_state b now s :
  exists l, stage_state (finalize_run b now s) = map skip_if_pending l.
Proof. eexists. reflexivity. Qed.

Lemma finalize_run_settled b now s : runner_inv s -> run_settled (finalize_run b now s).
Proof.
  intros H. destruct (finalize_run_inv b now s H) as [(_ & _ & Hrun & Hset) Hc].
  rewrite Hc in Hrun. split; [reflexivity|].
  apply Forall_forall. intros g Hin. apply In_nth_error in Hin. destruct Hin as [j Hj].
  pose proof (Hrun j g Hj) as Hnr. pose proof (Hset j g Hj) as Hs.
  assert (Ht : terminal (sstatus g)).
  { destruct (finalize_stage_state b now s) as [l Hl]. rewrite Hl in Hj.
    apply nth_error_map_some in Hj. destruct Hj as [g0 [_ Hg0]]. subst g.
    unfold terminal in *. rewrite skip_if_pending_status in *.
    destruct (sstatus g0); auto; contradiction. }
  split; [exact Ht | apply (proj2 Hs), Ht].
Qed.

Lemma run_deploy_finalized out rc now s :
  reachable s -> exists b s', reachable s' /\ run_deploy out rc now s = finalize_run b now s'.
Proof.
  intros H. destruct out as [raw|]; simpl.
  - unfold finish_stream. eexists _, _. split; [|reflexivity].
    pose proof (stream_lines_reachable raw s H) as H0.
    assert (H1 : reachable (set_return_code (Some rc) (stream_lines raw s)))
      by (constructor; exact H0).
    destruct (current_stage _); [|exact H1].
    destruct (negb _); [|exact H1].
    constructor. constructor; [right; reflexivity | exact H1].
  - exists false, (append_log "Failed to attach to deploy.py stdout." s).
    split; [constructor; exact H | reflexivity].
Qed.

Lemma finish_stream_nonzero rc now s x :
  rc <> 0%Z -> current_stage s = Some x ->
  finish_stream rc now s =
  finalize_run false now
    (append_log ("deploy.py exited with code " ++ Z_to_string rc)
       (complete_stage x Failed "deploy.py exited abruptly." (set_return_code (Some rc) s))).
Proof.
  intros Hrc Hc. unfold finish_stream. cbv zeta.
  cbn [current_stage set_return_code]. rewrite Hc.
  apply Z.eqb_neq in Hrc. rewrite Hrc. reflexivity.
Qed.

End Runs.

(** * Claims *)

Section Claims.
Local Open Scope list_scope.

(** C6: calling [start] while a run is active returns [False] and leaves
    every field of the runner (mode, role usage, stages, logs, current
    stage, timestamps, return code, running flag) unchanged. *)
Theorem start_while_running_is_noop (m : string) (ru : role_map) (now : Z) (s : runner) :
  running s = true -> start m ru now s = (false, s).
Proof. intros H. unfold start. rewrite H. reflexivity. Qed.

Lemma start_while_running_is_noop_witness :
  running (snd (start "deploy" [] 0%Z (init_runner []))) = true /\
  start "destroy" [("k3s", true)] 7%Z (snd (start "deploy" [] 0%Z (init_runner []))) =
  (false, snd (start "deploy" [] 0%Z (init_runner []))).
Proof.
  split; [reflexivity|].
  apply (start_while_running_is_noop "destroy" [("k3s", true)] 7%Z
           (snd (start "deploy" [] 0%Z (init_runner [])))).
  reflexivity.
Defined.

(** C10: with no run active, [start] on a mode that is neither ["deploy"]
    nor ["destroy"] does not fail: it behaves exactly as [start("deploy")],
    returns [True] and leaves the runner in mode ["deploy"]. *)
Theorem start_unknown_mode_defaults_to_deploy (m : string) (ru : role_map) (now : Z) (s : runner) :
  running s = false -> m <> "deploy" -> m <> "destroy" ->
  start m ru now s = start "deploy" ru now s /\
  fst (start m ru now s) = true /\
  mode (snd (start m ru now s)) = "deploy".
Proof.
  intros Hr Hd He.
  assert (Hm : dict_get m STAGE_DEFINITIONS = None).
  { unfold STAGE_DEFINITIONS. cbn [dict_get].
    destruct (String.eqb_spec m "deploy"); [contradiction|].
    destruct (String.eqb_spec m "destroy"); [contradiction|]. reflexivity. }
  unfold start. rewrite Hr, Hm. repeat split; reflexivity.
Qed.

Lemma start_unknown_mode_defaults_to_deploy_witness :
  (running (init_runner []) = false /\ "normal" <> "deploy" /\ "normal" <> "destroy") /\
  (start "normal" [] 3%Z (init_runner []) = start "deploy" [] 3%Z (init_runner []) /\
   fst (start "normal" [] 3%Z (init_runner [])) = true /\
   mode (snd (start "normal" [] 3%Z (init_runner []))) = "deploy").
Proof.
  split; [split; [reflexivity | split; discriminate] |].
  apply start_unknown_mode_defaults_to_deploy; [reflexivity | discriminate | discriminate].
Defined.

(** C9: appending a sequence of lines to an empty log buffer keeps exactly
    the 200 most recent lines in append order when more than 200 were
    appended, and all of them in order otherwise. *)
Theorem append_log_keeps_last_200 (ls : list string) (s : runner) :
  logs s = [] ->
  (200 < length ls ->
     length (logs (fold_left (fun s l => append_log l s) ls s)) = 200 /\
     logs (fold_left (fun s l => append_log l s) ls s) = skipn (length ls - 200) ls) /\
  (length ls <= 200 -> logs (fold_left (fun s l => append_log l s) ls s) = ls).
Proof.
  intros H0.
  rewrite logs_fold_append_log, H0, fold_append_bounded by (simpl; unfold LOG_CAPACITY; lia).
  unfold lastn, LOG_CAPACITY. simpl. split.
  - intros Hl. split; [rewrite length_skipn; lia | reflexivity].
  - intros Hl. replace (length ls - 200) with 0 by lia. reflexivity.
Qed.

Lemma append_log_keeps_last_200_witness :
  logs (init_runner []) = [] /\
  ((200 < length (repeat "x" 201) ->
     length (logs (fold_left (fun s l => append_log l s) (repeat "x" 201) (init_runner []))) = 200 /\
     logs (fold_left (fun s l => append_log l s) (repeat "x" 201) (init_runner [])) =
       skipn (length (repeat "x" 201) - 200) (repeat "x" 201)) /\
   (length (repeat "x" 201) <= 200 ->
     logs (fold_left (fun s l => append_log l s) (repeat "x" 201) (init_runner [])) = repeat "x" 201)).
Proof.
  split; [reflexivity|].
  apply (append_log_keeps_last_200 (repeat "x" 201) (init_runner [])). reflexivity.
Defined.

(** C7: for a valid mode, [_reset_state] builds exactly the stages of the
    mode's definition list whose [requires_role] (if any) maps to [True]
    in the role usage, in declaration order, each [pending] with note
    ["Waiting to start."], every declared task [pending] and
    [base_task_count] the number of declared tasks; the plan depends only
    on the mode and the role usage. *)
Theorem reset_state_builds_plan (s : runner) (defs : list stage_def) :
  dict_get (mode s) STAGE_DEFINITIONS = Some defs ->
  Forall2 (fun g d => fresh_entry_of d g)
    (stage_state (reset_state s)) (filter (role_requested (role_usage s)) defs) /\
  (forall s', mode s' = mode s -> role_usage s' = role_usage s ->
     stage_state (reset_state s') = stage_state (reset_state s)).
Proof.
  intros Hdefs. split.
  - rewrite reset_state_stages, Hdefs.
    rewrite (filter_ext_in (keep_stage (role_usage s)) (role_requested (role_usage s)))
      by (intros d Hin; apply keep_stage_role_requested;
          exact (stage_definitions_roles_nonempty _ _ _ Hdefs Hin)).
    induction (filter (role_requested (role_usage s)) defs) as [|d l IH]; simpl;
      constructor; [apply stage_entry_fresh | exact IH].
  - intros s' Hm Hr. rewrite !reset_state_stages, Hm, Hr. reflexivity.
Qed.

Lemma reset_state_builds_plan_witness :
  dict_get (mode (init_runner [("k3s", true)])) STAGE_DEFINITIONS =
    match dict_get "deploy" STAGE_DEFINITIONS with Some l => Some l | None => None end /\
  (Forall2 (fun g d => fresh_entry_of d g)
     (stage_state (reset_state (init_runner [("k3s", true)])))
     (filter (role_requested (role_usage (init_runner [("k3s", true)])))
        match dict_get "deploy" STAGE_DEFINITIONS with Some l => l | None => [] end) /\
   (forall s', mode s' = mode (init_runner [("k3s", true)]) ->
      role_usage s' = role_usage (init_runner [("k3s", true)]) ->
      stage_state (reset_state s') = stage_state (reset_state (init_runner [("k3s", true)])))).
Proof.
  split; [reflexivity|].
  apply reset_state_builds_plan. reflexivity.
Defined.

(** C1: in every state reached from a reset by the operations that run
    under the lock ([_start_stage], [_complete_stage], [_finalize_run],
    progress events, log appends, [start]), the stages whose status is
    [running] are exactly the one named by [current_stage], or none when
    [current_stage] is [None]; each operation preserves this, and in
    particular it holds after every sequence of log lines fed to
    [_handle_line] from a fresh reset. *)
Theorem at_most_one_running_stage :
  (forall s, reachable s ->
     running_stage_ids s = match current_stage s with Some x => [x] | None => [] end) /\
  (forall s0 ls,
     running_stage_ids (handle_lines ls (reset_state s0)) =
     match current_stage (handle_lines ls (reset_state s0)) with
     | Some x => [x] | None => [] end).
Proof.
  assert (P : forall s, reachable s ->
     running_stage_ids s = match current_stage s with Some x => [x] | None => [] end)
    by (intros s H; apply running_stage_ids_inv, reachable_inv, H).
  split; [exact P|].
  intros s0 ls. apply P, handle_lines_reachable. constructor.
Qed.

(** C2: once a run has been finalized ([_finalize_run], the only place
    that clears the running flag of a started run), the runner is not
    running and every stage and every task is [completed], [failed] or
    [skipped]; this holds for [_finalize_run] from any reachable state and
    for every run of [_run_deploy] after [start], whatever the output and
    exit code of [deploy.py]. *)
Theorem finalized_run_is_settled :
  (forall s b now, reachable s -> run_settled (finalize_run b now s)) /\
  (forall s0 m ru t0 out rc t1, running s0 = false ->
     run_settled (run_deploy out rc t1 (snd (start m ru t0 s0)))).
Proof.
  assert (P : forall s b now, reachable s -> run_settled (finalize_run b now s))
    by (intros s b now H; apply finalize_run_settled, reachable_inv, H).
  split; [exact P|].
  intros s0 m ru t0 out rc t1 H.
  destruct (run_deploy_finalized out rc t1 (snd (start m ru t0 s0))) as [b [s' [Hs' ->]]].
  - constructor. exact H.
  - apply P, Hs'.
Qed.

(** C5: in a run where the stage [x] is active when the output of
    [deploy.py] ends and the process exits with code 137, the finalized
    state has [x] [failed], every stage that was still [pending] now
    [skipped], return code 137 and the running flag cleared. *)
Theorem exit_137_fails_active_stage (s0 : runner) (m : string) (ru : role_map)
    (t0 now : Z) (ls : list string) (x : string) :
  running s0 = false ->
  current_stage (handle_lines ls (snd (start m ru t0 s0))) = Some x ->
  (exists g, find_stage x (finish_stream 137 now (handle_lines ls (snd (start m ru t0 s0)))) = Some g
             /\ sstatus g = Failed) /\
  (forall j g, nth_error (stage_state (handle_lines ls (snd (start m ru t0 s0)))) j = Some g ->
     sstatus g = Pending ->
     exists g', nth_error (stage_state (finish_stream 137 now (handle_lines ls (snd (start m ru t0 s0))))) j
                = Some g' /\ sid g' = sid g /\ sstatus g' = Skipped) /\
  return_code (finish_stream 137 now (handle_lines ls (snd (start m ru t0 s0)))) = Some 137%Z /\
  running (finish_stream 137 now (handle_lines ls (snd (start m ru t0 s0)))) = false.
Proof.
  intros H0 Hc.
  set (s1 := handle_lines ls (snd (start m ru t0 s0))) in *.
  assert (Hr1 : reachable s1) by (apply handle_lines_reachable; constructor; exact H0).
  pose proof (reachable_inv s1 Hr1) as (Hnd & Hlk & Hrun & _).
  unfold runner_inv in Hrun. rewrite Hc in Hrun. destruct Hrun as [i [Hi Hrun]].
  destruct (Hlk x i Hi) as [g0 [Hg0 Hid]].
  set (n := "deploy.py exited abruptly.").
  assert (Hst : stage_state (finish_stream 137 now s1) =
                map skip_if_pending (update_nth i (closed_stage Failed n) (stage_state s1))).
  { rewrite (finish_stream_nonzero 137 now s1 x) by (discriminate || exact Hc).
    unfold complete_stage. cbn [stage_lookup set_return_code]. rewrite Hi.
    cbn [current_stage update_stage set_stage_state set_return_code]. rewrite Hc, String.eqb_refl.
    reflexivity. }
  split; [|split; [|split]].
  - pose proof (finish_stream_reachable 137 now s1 Hr1) as Hr2.
    pose proof (reachable_inv _ Hr2) as (Hnd2 & _).
    exists (skip_if_pending (closed_stage Failed n g0)).
    assert (Hg : nth_error (stage_state (finish_stream 137 now s1)) i =
                 Some (skip_if_pending (closed_stage Failed n g0)))
      by (rewrite Hst, nth_error_map, nth_error_update_nth_eq, Hg0; reflexivity).
    split; [|reflexivity].
    unfold find_stage.
    replace x with (sid (skip_if_pending (closed_stage Failed n g0)))
      by (rewrite skip_if_pending_sid, closed_stage_sid; exact Hid).
    exact (find_sid_nth _ i _ Hnd2 Hg).
  - intros j g Hj Hp. rewrite Hst, nth_error_map.
    destruct (Nat.eq_dec j i) as [-> | Hne].
    + rewrite Hj in Hg0. inversion Hg0; subst g0.
      assert (E : sstatus g = Running) by (apply (Hrun i g Hj); reflexivity).
      congruence.
    + rewrite nth_error_update_nth_neq, Hj by exact Hne. simpl.
      exists (skip_if_pending g). rewrite skip_if_pending_sid, skip_if_pending_status, Hp.
      auto.
  - rewrite (finish_stream_nonzero 137 now s1 x) by (discriminate || exact Hc).
    unfold complete_stage. cbn [stage_lookup set_return_code]. rewrite Hi.
    cbn [current_stage update_stage set_stage_state set_return_code]. rewrite Hc, String.eqb_refl.
    reflexivity.
  - reflexivity.
Qed.

Lemma exit_137_fails_active_stage_witness :
  (running (init_runner []) = false /\
   current_stage (handle_lines ["=== TERRAFORM DEPLOYMENT ==="]
                    (snd (start "deploy" [] 0%Z (init_runner [])))) = Some "terraform") /\
  ((exists g, find_stage "terraform"
                (finish_stream 137 5 (handle_lines ["=== TERRAFORM DEPLOYMENT ==="]
                   (snd (start "deploy" [] 0%Z (init_runner []))))) = Some g
              /\ sstatus g = Failed) /\
   (forall j g, nth_error (stage_state (handle_lines ["=== TERRAFORM DEPLOYMENT ==="]
                   (snd (start "deploy" [] 0%Z (init_runner []))))) j = Some g ->
      sstatus g = Pending ->
      exists g', nth_error (stage_state (finish_stream 137 5 (handle_lines
                   ["=== TERRAFORM DEPLOYMENT ==="] (snd (start "deploy" [] 0%Z (init_runner []))))))
                   j = Some g' /\ sid g' = sid g /\ sstatus g' = Skipped) /\
   return_code (finish_stream 137 5 (handle_lines ["=== TERRAFORM DEPLOYMENT ==="]
                   (snd (start "deploy" [] 0%Z (init_runner []))))) = Some 137%Z /\
   running (finish_stream 137 5 (handle_lines ["=== TERRAFORM DEPLOYMENT ==="]
                   (snd (start "deploy" [] 0%Z (init_runner []))))) = false).
Proof.
  split; [split; [reflexivity | vm_compute; reflexivity] |].
  apply (exit_137_fails_active_stage (init_runner []) "deploy" [] 0%Z 5%Z
           ["=== TERRAFORM DEPLOYMENT ==="] "terraform");
    [reflexivity | vm_compute; reflexivity].
Defined.

(** C3 (as stated, refuted): after the K3s scenario the k3s stage does not
    hold exactly the two tasks named by the markers. *)
Lemma k3s_scenario_two_tasks_counterexample :
  ~ (exists g, find_stage "k3s" (handle_lines k3s_scenario_lines (deploy_reset true true)) = Some g /\
               sstatus g = Completed /\
               tasks g = [mk_task "Install K3s binaries" Completed; mk_task "Start K3s service" Completed]).
Proof.
  intros [g [H [_ Ht]]]. vm_compute in H. injection H as <-. vm_compute in Ht. discriminate Ht.
Qed.

(** C3 (amended): from a fresh ["deploy"] reset with the k3s role active,
    the lines ["Running Ansible K3s installation"], the task markers for
    ["Install K3s binaries"] and ["Start K3s service"], and ["Ansible K3s
    installation completed successfully"] leave the k3s stage [completed]
    with eight tasks, all [completed]: its six declared tasks, then the
    dynamic tasks ["Install K3s binaries (2)"] and ["Start K3s service (2)"],
    numbered because the marker names are already labels of the stage. *)
Theorem k3s_scenario_tasks (s : runner) :
  mode s = "deploy" -> dict_get "k3s" (role_usage s) = Some true ->
  option_map (fun g => (sstatus g, tasks g, base_task_count g))
    (find_stage "k3s" (handle_lines k3s_scenario_lines (reset_state s))) =
  Some (Completed,
        [mk_task "Install K3s binaries" Completed; mk_task "Start K3s service" Completed;
         mk_task "Verify API server" Completed; mk_task "Fetch kubeconfig" Completed;
         mk_task "Update kubeconfig endpoint" Completed; mk_task "Set kubeconfig permissions" Completed;
         mk_task "Install K3s binaries (2)" Completed; mk_task "Start K3s service (2)" Completed],
        6).
Proof.
  intros Hm Hk. rewrite (reset_state_deploy s Hm).
  replace (role_flag "k3s" (role_usage s)) with true by (unfold role_flag; rewrite Hk; reflexivity).
  destruct (role_flag "docker" (role_usage s)); vm_compute; reflexivity.
Qed.

Lemma k3s_scenario_tasks_witness :
  (mode (mk_runner "deploy" [("k3s", true)] [] [] [] None None None None false) = "deploy" /\
   dict_get "k3s" (role_usage (mk_runner "deploy" [("k3s", true)] [] [] [] None None None None false))
     = Some true) /\
  option_map (fun g => (sstatus g, tasks g, base_task_count g))
    (find_stage "k3s" (handle_lines k3s_scenario_lines
       (reset_state (mk_runner "deploy" [("k3s", true)] [] [] [] None None None None false)))) =
  Some (Completed,
        [mk_task "Install K3s binaries" Completed; mk_task "Start K3s service" Completed;
         mk_task "Verify API server" Completed; mk_task "Fetch kubeconfig" Completed;
         mk_task "Update kubeconfig endpoint" Completed; mk_task "Set kubeconfig permissions" Completed;
         mk_task "Install K3s binaries (2)" Completed; mk_task "Start K3s service (2)" Completed],
        6).
Proof.
  split; [split; reflexivity|].
  apply (k3s_scenario_tasks (mk_runner "deploy" [("k3s", true)] [] [] [] None None None None false));
    reflexivity.
Defined.

(** C4 (as stated, refuted): after the Terraform scenario the terraform
    stage is not [completed]. *)
Lemma terraform_scenario_completed_counterexample :
  ~ (exists g, find_stage "terraform"
                 (handle_lines terraform_scenario_lines (deploy_reset false false)) = Some g /\
               sstatus g = Completed).
Proof.
  intros [g [H Hs]]. vm_compute in H. injection H as <-. vm_compute in Hs. discriminate Hs.
Qed.

(** C4 (amended): from a fresh ["deploy"] reset, the lines ["===
    TERRAFORM DEPLOYMENT ==="], ["Initializing"], ["✓ Configuration
    valid"], ["Planning deployment"], ["✓ No changes needed"] leave the
    terraform stage [running] and current (no line closes it), with exactly
    its three base tasks, ["Initialize & validate"] [completed] and
    ["Apply infrastructure"] still [pending]. *)
Theorem terraform_scenario_tasks (s : runner) :
  mode s = "deploy" ->
  current_stage (handle_lines terraform_scenario_lines (reset_state s)) = Some "terraform" /\
  option_map (fun g => (sstatus g, map label (tasks g),
                        nth_error (map tstatus (tasks g)) 0, nth_error (map tstatus (tasks g)) 2))
    (find_stage "terraform" (handle_lines terraform_scenario_lines (reset_state s))) =
  Some (Running, ["Initialize & validate"; "Create execution plan"; "Apply infrastructure"],
        Some Completed, Some Pending).
Proof.
  intros Hm. rewrite (reset_state_deploy s Hm).
  destruct (role_flag "k3s" (role_usage s)), (role_flag "docker" (role_usage s));
    vm_compute; split; reflexivity.
Qed.

Lemma terraform_scenario_tasks_witness :
  mode (mk_runner "deploy" [] [] [] [] None None None None false) = "deploy" /\
  (current_stage (handle_lines terraform_scenario_lines
     (reset_state (mk_runner "deploy" [] [] [] [] None None None None false))) = Some "terraform" /\
   option_map (fun g => (sstatus g, map label (tasks g),
                         nth_error (map tstatus (tasks g)) 0, nth_error (map tstatus (tasks g)) 2))
     (find_stage "terraform" (handle_lines terraform_scenario_lines
        (reset_state (mk_runner "deploy" [] [] [] [] None None None None false)))) =
   Some (Running, ["Initialize & validate"; "Create execution plan"; "Apply infrastructure"],
         Some Completed, Some Pending)).
Proof.
  split; [reflexivity|].
  apply (terraform_scenario_tasks (mk_runner "deploy" [] [] [] [] None None None None false)).
  reflexivity.
Defined.

(** C8 (the code diverges): a second ["=== TERRAFORM DEPLOYMENT ==="] line
    while the terraform stage is active re-enters [_start_stage], whose
    [_mark_tasks(stage, "start")] starts the next pending base task without
    completing the running one: two base tasks of the stage are then
    [running] at once. *)
Theorem repeated_header_runs_two_base_tasks :
  option_map (fun g => (base_task_count g, map tstatus (tasks g)))
    (find_stage "terraform"
       (handle_lines ["=== TERRAFORM DEPLOYMENT ==="; "=== TERRAFORM DEPLOYMENT ==="]
          (deploy_reset false false))) =
  Some (3, [Running; Running; Pending]).
Proof. vm_compute. reflexivity. Qed.

End Claims.

(** * Further properties of the code *)

Ltac split_matches :=
  repeat match goal with
  | |- context [match ?x with _ => _ end] => destruct x
  end.

Section LogBound.
Local Open Scope list_scope.


Lemma record_progress_event_logs k l s : logs (record_progress_event k l s) = logs s.
Proof. unfold record_progress_event. split_matches; reflexivity. Qed.

Lemma start_stage_logs x s : logs (start_stage x s) = logs s.
Proof. unfold start_stage. split_matches; reflexivity. Qed.

Lemma complete_stage_logs x st n s : logs (complete_stage x st n s) = logs s.
Proof. unfold complete_stage. split_matches; reflexivity. Qed.

Lemma finalize_run_logs b now s : logs (finalize_run b now s) = logs s.
Proof. unfold finalize_run. split_matches; reflexivity. Qed.

Lemma reachable_logs_bounded (s : runner) :
  reachable s -> length (logs s) <= LOG_CAPACITY.
Proof.
  induction 1.
  - unfold reset_state. simpl. unfold LOG_CAPACITY; lia.
  - unfold start. rewrite H. simpl. unfold LOG_CAPACITY; lia.
  - unfold append_log, set_logs. cbn [logs].
    destruct (length_append_bounded (logs s) l) as [E|E]; [exact E|].
    unfold append_bounded in *. rewrite length_app in *. simpl in *.
    destruct (Nat.ltb_spec LOG_CAPACITY (length (logs s) + 1)); [|lia].
    rewrite length_skipn, length_app in E. simpl in E. unfold LOG_CAPACITY in *. lia.
  - rewrite record_progress_event_logs; assumption.
  - rewrite start_stage_logs; assumption.
  - rewrite complete_stage_logs; assumption.
  - exact IHreachable.
  - rewrite finalize_run_logs; assumption.
Qed.
End LogBound.

Section History.
Local Open Scope list_scope.

Lemma task_kept_refl t : task_kept t t.
Proof. split; auto. Qed.

Lemma task_kept_trans a b c : task_kept a b -> task_kept b c -> task_kept a c.
Proof. intros [H1 H2] [H3 H4]. split; [congruence | auto]. Qed.

Lemma tasks_kept_refl ts : tasks_kept ts ts.
Proof. intros k t H. exists t. split; [exact H | apply task_kept_refl]. Qed.

Lemma tasks_kept_trans a b c : tasks_kept a b -> tasks_kept b c -> tasks_kept a c.
Proof.
  intros H1 H2 k t Ht. destruct (H1 k t Ht) as [t1 [Ht1 K1]].
  destruct (H2 k t1 Ht1) as [t2 [Ht2 K2]]. exists t2. split; [exact Ht2|].
  exact (task_kept_trans _ _ _ K1 K2).
Qed.

Lemma tasks_kept_map f ts : (forall t, task_kept t (f t)) -> tasks_kept ts (map f ts).
Proof.
  intros Hf k t Ht. exists (f t). split; [rewrite nth_error_map, Ht; reflexivity | apply Hf].
Qed.

Lemma tasks_kept_app ts ex : tasks_kept ts (ts ++ ex).
Proof.
  intros k t Ht. exists t. split; [|apply task_kept_refl].
  rewrite nth_error_app1; [exact Ht|]. apply nth_error_Some. congruence.
Qed.

Lemma tasks_kept_update_nth i f ts :
  (forall x, nth_error ts i = Some x -> task_kept x (f x)) -> tasks_kept ts (update_nth i f ts).
Proof.
  intros Hf k t Ht. destruct (Nat.eq_dec k i) as [-> | Hne].
  - exists (f t). rewrite nth_error_update_nth_eq, Ht. split; [reflexivity | apply Hf, Ht].
  - exists t. rewrite nth_error_update_nth_neq by exact Hne. split; [exact Ht | apply task_kept_refl].
Qed.

Lemma tasks_kept_mapi_from n f ts :
  (forall i t, task_kept t (f i t)) -> tasks_kept ts (mapi_from n f ts).
Proof.
  intros Hf. revert n. induction ts as [|x ts IH]; intros n k t Ht; [destruct k; discriminate|].
  destruct k as [|k]; simpl in Ht |- *.
  - inversion Ht; subst. eexists; split; [reflexivity | apply Hf].
  - exact (IH (S n) k t Ht).
Qed.

Lemma tasks_kept_firstn_app n ts m :
  tasks_kept (skipn n ts) m -> tasks_kept ts (firstn n ts ++ m).
Proof.
  intros H k t Ht.
  assert (Hk : k < length ts) by (apply nth_error_Some; congruence).
  destruct (Nat.lt_ge_cases k n) as [Hlt | Hge].
  - exists t. split; [|apply task_kept_refl].
    rewrite nth_error_app1 by (rewrite length_firstn; lia).
    rewrite nth_error_firstn. destruct (Nat.ltb_spec k n); [exact Ht | lia].
  - rewrite nth_error_app2 by (rewrite length_firstn; lia).
    rewrite length_firstn. replace (Nat.min n (length ts)) with n by lia.
    apply H. rewrite nth_error_skipn. replace (n + (k - n)) with k by lia. exact Ht.
Qed.

Lemma start_first_pending_kept ts : tasks_kept ts (start_first_pending ts).
Proof.
  induction ts as [|x ts IH]; intros k t Ht; [destruct k; discriminate|]. simpl.
  destruct (status_eqb (tstatus x) Pending) eqn:E.
  - apply status_eqb_eq in E. destruct k as [|k]; simpl in Ht |- *.
    + inversion Ht; subst. eexists; split; [reflexivity|]. split; [reflexivity|]. congruence.
    + exists t. split; [exact Ht | apply task_kept_refl].
  - destruct k as [|k]; simpl in Ht |- *.
    + inversion Ht; subst. eexists; split; [reflexivity | apply task_kept_refl].
    + exact (IH k t Ht).
Qed.

Lemma set_completed_kept t : task_kept t (set_tstatus Completed t).
Proof. split; reflexivity. Qed.

Lemma complete_task_kept t : task_kept t (complete_task t).
Proof. unfold complete_task. destruct (tstatus t) eqn:E; split; simpl; congruence. Qed.

Lemma fail_task_kept t : task_kept t (fail_task t).
Proof. unfold fail_task. destruct (tstatus t) eqn:E; split; simpl; congruence. Qed.

Lemma skip_task_kept t : task_kept t (skip_task t).
Proof. unfold skip_task. destruct (tstatus t) eqn:E; split; simpl; congruence. Qed.

Lemma complete_if_completed_kept (b : bool) t :
  task_kept t (if b then set_tstatus Completed t else t).
Proof. destruct b; [apply set_completed_kept | apply task_kept_refl]. Qed.

(** *** Stage level *)

Lemma stage_kept_refl g : stage_kept g g.
Proof. split; [|split]; auto using tasks_kept_refl. Qed.

Lemma stage_kept_trans a b c : stage_kept a b -> stage_kept b c -> stage_kept a c.
Proof.
  intros (H1 & H2 & H3) (H4 & H5 & H6). split; [congruence | split; [congruence|]].
  exact (tasks_kept_trans _ _ _ H3 H6).
Qed.

Lemma set_tasks_kept g ts : tasks_kept (tasks g) ts -> stage_kept g (set_tasks ts g).
Proof. intros H. split; [reflexivity | split; [reflexivity | exact H]]. Qed.

Lemma set_status_note_kept st n g : stage_kept g (set_status_note st n g).
Proof. split; [reflexivity | split; [reflexivity | apply tasks_kept_refl]]. Qed.

Lemma mark_tasks_kept g a : stage_kept g (mark_tasks g a).
Proof.
  apply set_tasks_kept. destruct a.
  - apply start_first_pending_kept.
  - apply tasks_kept_map, complete_task_kept.
  - apply tasks_kept_map, fail_task_kept.
  - apply tasks_kept_map, skip_task_kept.
Qed.

Lemma status_mark_kept st n a g : stage_kept g (mark_tasks (set_status_note st n g) a).
Proof. eapply stage_kept_trans; [apply set_status_note_kept | apply mark_tasks_kept]. Qed.

Lemma closed_stage_kept st n g : stage_kept g (closed_stage st n g).
Proof. unfold closed_stage. destruct st; try apply status_mark_kept; apply set_status_note_kept. Qed.

Lemma skip_if_pending_kept g : stage_kept g (skip_if_pending g).
Proof. unfold skip_if_pending. destruct (sstatus g); try apply status_mark_kept; apply stage_kept_refl. Qed.

Lemma map_dynamic_kept f g : (forall t, task_kept t (f t)) -> stage_kept g (map_dynamic f g).
Proof.
  intros Hf. apply set_tasks_kept, tasks_kept_firstn_app, tasks_kept_map, Hf.
Qed.

Lemma ensure_kept g target c : stage_kept g (ensure_base_task_progress g target c).
Proof.
  unfold ensure_base_task_progress. destruct (Nat.leb _ _); [apply stage_kept_refl|].
  apply set_tasks_kept.
  set (ts1 := mapi_from 0 _ (tasks g)).
  assert (H1 : tasks_kept (tasks g) ts1)
    by (apply tasks_kept_mapi_from; intros i t; apply complete_if_completed_kept).
  eapply tasks_kept_trans; [exact H1|]. destruct c.
  - set (ts' := update_nth target (set_tstatus Completed) ts1).
    assert (H2 : tasks_kept ts1 ts')
      by (apply tasks_kept_update_nth; intros; apply set_completed_kept).
    destruct (_ && _) eqn:E; [|exact H2].
    eapply tasks_kept_trans; [exact H2|]. apply tasks_kept_update_nth.
    intros x Hx. apply andb_true_iff in E. destruct E as [_ E]. rewrite Hx in E.
    unfold is_status in E. apply status_eqb_eq in E.
    split; [reflexivity | congruence].
  - destruct (nth_error ts1 target) as [t|] eqn:Ht; [|apply tasks_kept_refl].
    destruct (negb _) eqn:E; [|apply tasks_kept_refl].
    apply tasks_kept_update_nth. intros x Hx. rewrite Ht in Hx. inversion Hx; subst x.
    split; [reflexivity|]. intros C. unfold is_status in E. rewrite C in E. discriminate.
Qed.

Lemma advance_task_kept g n : stage_kept g (advance_task g n).
Proof.
  unfold advance_task.
  assert (H1 : tasks_kept (tasks g)
                 (map (fun t => if is_status Running t then set_tstatus Completed t else t) (tasks g)))
    by (apply tasks_kept_map; intros t; apply complete_if_completed_kept).
  destruct (match n with Some n => _ | None => None end) as [m|].
  - destruct (find _ _); apply set_tasks_kept; [exact H1|].
    eapply tasks_kept_trans; [exact H1 | apply tasks_kept_app].
  - destruct (tasks g) as [|t0 ts0] eqn:Eg; [apply stage_kept_refl|].
    rewrite <- Eg.
    destruct (find_index _ _) as [r|]; apply set_tasks_kept.
    + eapply tasks_kept_trans.
      * apply (tasks_kept_update_nth r (set_tstatus Completed)); intros; apply set_completed_kept.
      * apply tasks_kept_firstn_app, start_first_pending_kept.
    + apply start_first_pending_kept.
Qed.

Lemma add_creation_task_kept g line : stage_kept g (add_creation_task g line).
Proof.
  unfold add_creation_task. destruct (Nat.eqb _ _); [apply stage_kept_refl|].
  eapply stage_kept_trans; [apply ensure_kept|].
  eapply stage_kept_trans; [apply map_dynamic_kept; intros t; apply complete_if_completed_kept|].
  apply set_tasks_kept, tasks_kept_app.
Qed.

Lemma add_destroy_task_kept g line : stage_kept g (add_destroy_task g line).
Proof.
  unfold add_destroy_task. destruct (Nat.eqb _ _); [apply stage_kept_refl|].
  eapply stage_kept_trans; [apply ensure_kept|].
  eapply stage_kept_trans; [apply map_dynamic_kept; intros t; apply complete_if_completed_kept|].
  apply set_tasks_kept, tasks_kept_app.
Qed.

Lemma complete_dynamic_tasks_kept g : stage_kept g (complete_dynamic_tasks g).
Proof. apply map_dynamic_kept. intros t. apply complete_if_completed_kept. Qed.

Lemma advance_terraform_loop_kept idx sq g line :
  stage_kept g (advance_terraform_loop idx sq g line).
Proof.
  revert idx g. induction sq as [|e sq IH]; intros idx g; simpl; [apply stage_kept_refl|].
  destruct (any_in (keywords e) line).
  - destruct (contains _ _); [|apply ensure_kept].
    eapply stage_kept_trans; [apply ensure_kept | apply add_creation_task_kept].
  - destruct (any_in (complete_keywords e) line); [|apply IH].
    destruct (String.eqb _ _); [|apply ensure_kept].
    eapply stage_kept_trans; [apply ensure_kept | apply complete_dynamic_tasks_kept].
Qed.

Lemma advance_destroy_loop_kept idx sq g ll :
  stage_kept g (advance_destroy_loop idx sq g ll).
Proof.
  revert idx g. induction sq as [|e sq IH]; intros idx g; simpl; [apply stage_kept_refl|].
  eapply stage_kept_trans; [|apply IH].
  assert (H1 : stage_kept g (if any_in_lower (keywords e) ll
                             then ensure_base_task_progress g idx false else g))
    by (destruct (any_in_lower _ _); [apply ensure_kept | apply stage_kept_refl]).
  revert H1. generalize (if any_in_lower (keywords e) ll
                         then ensure_base_task_progress g idx false else g) as g1.
  intros g1 H1.
  destruct (any_in_lower (complete_keywords e) ll); [|exact H1].
  eapply stage_kept_trans; [exact H1|].
  destruct (String.eqb _ _); [|apply ensure_kept].
  eapply stage_kept_trans; [apply ensure_kept | apply complete_dynamic_tasks_kept].
Qed.

Lemma progress_update_kept kind line g : stage_kept g (progress_update kind line g).
Proof.
  destruct kind; simpl.
  - apply advance_task_kept.
  - unfold advance_terraform_task. destruct (String.eqb _ _); [apply stage_kept_refl|].
    destruct (tasks g); [apply stage_kept_refl | apply advance_terraform_loop_kept].
  - unfold advance_destroy_task. destruct (String.eqb _ _); [apply stage_kept_refl|].
    destruct (tasks g); [apply stage_kept_refl|].
    eapply stage_kept_trans; [apply advance_destroy_loop_kept|].
    destruct (contains _ _); [apply add_destroy_task_kept|].
    destruct (_ || _); [apply map_dynamic_kept; intros t0; apply complete_if_completed_kept
                       | apply stage_kept_refl].
Qed.

(** *** Runner level *)

Lemma stages_kept_refl l : Forall2 stage_kept l l.
Proof. induction l; constructor; auto using stage_kept_refl. Qed.

Lemma stages_kept_trans a b c : Forall2 stage_kept a b -> Forall2 stage_kept b c -> Forall2 stage_kept a c.
Proof.
  intros H1. revert c. induction H1; intros c H2; inversion H2; subst; constructor;
    eauto using stage_kept_trans.
Qed.

Lemma stages_kept_update_nth i f l :
  (forall g, stage_kept g (f g)) -> Forall2 stage_kept l (update_nth i f l).
Proof.
  intros Hf. revert i. induction l as [|g l IH]; intros [|i]; simpl; constructor;
    auto using stage_kept_refl, stages_kept_refl.
Qed.

Lemma stages_kept_map f l :
  (forall g, stage_kept g (f g)) -> Forall2 stage_kept l (map f l).
Proof. intros Hf. induction l; constructor; auto. Qed.

Lemma runner_kept_refl s : runner_kept s s.
Proof. split; [reflexivity | apply stages_kept_refl]. Qed.

Lemma runner_kept_trans a b c : runner_kept a b -> runner_kept b c -> runner_kept a c.
Proof.
  intros [H1 H2] [H3 H4]. split; [congruence | exact (stages_kept_trans _ _ _ H2 H4)].
Qed.

Lemma update_stage_kept i f s :
  (forall g, stage_kept g (f g)) -> runner_kept s (update_stage i f s).
Proof. intros Hf. split; [reflexivity | apply stages_kept_update_nth, Hf]. Qed.

Lemma append_log_kept l s : runner_kept s (append_log l s).
Proof. split; [reflexivity | apply stages_kept_refl]. Qed.

Lemma record_progress_event_kept k l s : runner_kept s (record_progress_event k l s).
Proof.
  unfold record_progress_event.
  destruct (current_stage s); [|apply runner_kept_refl].
  destruct (dict_get _ _) as [i|]; [|apply runner_kept_refl].
  destruct (nth_error _ _); [|apply runner_kept_refl].
  destruct (sprogress_event _); [|apply runner_kept_refl].
  destruct (progress_kind_eqb _ _); [|apply runner_kept_refl].
  apply update_stage_kept, progress_update_kept.
Qed.

Lemma start_stage_kept x s : runner_kept s (start_stage x s).
Proof.
  unfold start_stage. destruct (dict_get x _) as [i|]; [|apply runner_kept_refl].
  cbv zeta.
  match goal with |- runner_kept s (set_current _ (update_stage i ?F ?s1)) =>
    assert (H1 : runner_kept s s1) end.
  { destruct (current_stage s); [|apply runner_kept_refl].
    destruct (negb _); [|apply runner_kept_refl].
    destruct (dict_get _ _); [|apply runner_kept_refl].
    apply update_stage_kept. intros g; apply status_mark_kept. }
  refine (runner_kept_trans _ _ _ H1 _).
  split; [reflexivity | apply stages_kept_update_nth; intros g; apply status_mark_kept].
Qed.

Lemma complete_stage_kept x st n s : runner_kept s (complete_stage x st n s).
Proof.
  unfold complete_stage. destruct (dict_get x _) as [i|]; [|apply runner_kept_refl].
  cbv zeta.
  assert (H := update_stage_kept i (closed_stage st n) s (closed_stage_kept st n)).
  destruct (current_stage _); [|exact H]. destruct (String.eqb _ _); exact H.
Qed.

Lemma finalize_run_kept b now s : runner_kept s (finalize_run b now s).
Proof.
  unfold finalize_run. cbv zeta.
  match goal with |- runner_kept s (mk_runner _ _ (stage_state (set_stage_state _ ?s1)) _ _ _ _ _ _ _) =>
    assert (H1 : runner_kept s s1) end.
  { destruct (current_stage s); [|apply runner_kept_refl].
    destruct (dict_get _ _); [|apply runner_kept_refl].
    apply update_stage_kept. intros g; apply status_mark_kept. }
  destruct H1 as [Hl Hs]. split; [exact Hl|]. cbn [stage_state set_stage_state].
  eapply stages_kept_trans; [exact Hs | apply stages_kept_map, skip_if_pending_kept].
Qed.

Lemma handle_line_kept l s : runner_kept s (handle_line l s).
Proof.
  unfold handle_line. cbv zeta.
  assert (H2 : runner_kept s (if contains "TASK [" l
                              then record_progress_event AnsibleTask l (append_log l s)
                              else append_log l s))
    by (destruct (contains _ _);
        [exact (runner_kept_trans _ _ _ (append_log_kept l s) (record_progress_event_kept _ _ _))
        | apply append_log_kept]).
  revert H2.
  generalize (if contains "TASK [" l
              then record_progress_event AnsibleTask l (append_log l s)
              else append_log l s) as s2.
  intros s2 H2.
  destruct (header_stage _ _); [exact (runner_kept_trans _ _ _ H2 (start_stage_kept _ _))|].
  destruct (ansible_stage_event _ _) as [[id | id | id] |]; cbn [apply_stage_event].
  - exact (runner_kept_trans _ _ _ H2 (start_stage_kept _ _)).
  - exact (runner_kept_trans _ _ _ H2 (complete_stage_kept _ _ _ _)).
  - exact (runner_kept_trans _ _ _ H2 (complete_stage_kept _ _ _ _)).
  - assert (H3 : runner_kept s (if any_in TERRAFORM_KEYWORDS l
                                then record_progress_event TerraformStep l s2 else s2))
      by (destruct (any_in _ _); [exact (runner_kept_trans _ _ _ H2 (record_progress_event_kept _ _ _))
                                 | exact H2]).
    revert H3.
    generalize (if any_in TERRAFORM_KEYWORDS l
                then record_progress_event TerraformStep l s2 else s2) as s3.
    intros s3 H3.
    assert (H4 : runner_kept s (if any_in DESTROY_KEYWORDS l
                                then record_progress_event TerraformDestroy l s3 else s3))
      by (destruct (any_in _ _); [exact (runner_kept_trans _ _ _ H3 (record_progress_event_kept _ _ _))
                                 | exact H3]).
    revert H4.
    generalize (if any_in DESTROY_KEYWORDS l
                then record_progress_event TerraformDestroy l s3 else s3) as s4.
    intros s4 H4.
    destruct (_ && _); [exact (runner_kept_trans _ _ _ H4 (start_stage_kept _ _))|].
    destruct (contains _ _); [|exact H4].
    eapply runner_kept_trans; [|apply append_log_kept].
    destruct (current_stage s4); [|exact H4].
    exact (runner_kept_trans _ _ _ H4 (complete_stage_kept _ _ _ _)).
Qed.

Lemma handle_lines_kept ls s : runner_kept s (handle_lines ls s).
Proof.
  unfold handle_lines. revert s. induction ls as [|l ls IH]; intros s; simpl; [apply runner_kept_refl|].
  exact (runner_kept_trans _ _ _ (handle_line_kept l s) (IH _)).
Qed.

Lemma stream_lines_kept raw s : runner_kept s (stream_lines raw s).
Proof.
  unfold stream_lines. revert s. induction raw as [|r raw IH]; intros s; simpl; [apply runner_kept_refl|].
  eapply runner_kept_trans; [|apply IH].
  destruct (String.eqb _ _); [apply runner_kept_refl | apply handle_line_kept].
Qed.

Lemma finish_stream_kept rc now s : runner_kept s (finish_stream rc now s).
Proof.
  unfold finish_stream. cbv zeta. eapply runner_kept_trans; [|apply finalize_run_kept].
  apply (runner_kept_trans _ (set_return_code (Some rc) s));
    [split; [reflexivity | apply stages_kept_refl]|].
  destruct (current_stage _); [|apply runner_kept_refl].
  destruct (negb _); [|apply runner_kept_refl].
  eapply runner_kept_trans; [apply complete_stage_kept | apply append_log_kept].
Qed.

(** X2: progress tracking never rewrites what it has recorded: handling a
    line, or a whole run, keeps the stage lookup and, for every stage, its
    id, its base task count and, position by position, each task's label,
    and a completed task stays completed. *)
Theorem run_keeps_task_history :
  (forall l s, runner_kept s (handle_line l s)) /\
  (forall out rc now s, runner_kept s (run_deploy out rc now s)).
Proof.
  split; [exact handle_line_kept|].
  intros [raw|] rc now s; simpl.
  - eapply runner_kept_trans; [apply stream_lines_kept | apply finish_stream_kept].
  - eapply runner_kept_trans; [apply append_log_kept | apply finalize_run_kept].
Qed.
End History.

Section Dynamic.
Local Open Scope list_scope.

Lemma no_new_refl t : no_new t t.
Proof. split; auto. Qed.

Lemma no_new_completed (b : bool) t : no_new t (if b then set_tstatus Completed t else t).
Proof. destruct b; [split; simpl; discriminate | apply no_new_refl]. Qed.

Lemma complete_task_no_new t : no_new t (complete_task t).
Proof. unfold complete_task, no_new. destruct (tstatus t) eqn:E; simpl; split; congruence. Qed.

Lemma fail_task_no_new t : no_new t (fail_task t).
Proof. unfold fail_task, no_new. destruct (tstatus t) eqn:E; simpl; split; congruence. Qed.

Lemma skip_task_no_new t : no_new t (skip_task t).
Proof. unfold skip_task, no_new. destruct (tstatus t) eqn:E; simpl; split; congruence. Qed.

Lemma Forall2_map_no_new f l : (forall t, no_new t (f t)) -> Forall2 no_new l (map f l).
Proof. intros Hf. induction l; constructor; auto. Qed.

Lemma Forall2_update_nth_no_new i f l :
  (forall x, nth_error l i = Some x -> no_new x (f x)) -> Forall2 no_new l (update_nth i f l).
Proof.
  revert i. induction l as [|x l IH]; intros [|i] Hf; simpl; constructor.
  - apply Hf. reflexivity.
  - clear IH Hf. induction l; constructor; auto using no_new_refl.
  - apply no_new_refl.
  - apply IH. exact Hf.
Qed.

Lemma Forall2_skipn {A} (R : A -> A -> Prop) n l l' :
  Forall2 R l l' -> Forall2 R (skipn n l) (skipn n l').
Proof.
  intros H. revert n. induction H; intros [|n]; simpl; auto.
Qed.

Lemma no_new_lists l l' :
  Forall2 no_new l l' -> Forall not_pending l ->
  Forall not_pending l' /\ count (is_status Running) l' <= count (is_status Running) l.
Proof.
  unfold count. induction 1 as [|t t' l l' [Hp Hr] H IH]; intros Hl; [split; auto|].
  inversion Hl as [|? ? Ht Hl']; subst. destruct (IH Hl') as [IH1 IH2].
  split; [constructor; [intros E; apply Ht, Hp, E | exact IH1]|].
  simpl. destruct (is_status Running t') eqn:E1.
  - unfold is_status in E1. apply status_eqb_eq in E1.
    assert (E2 : is_status Running t = true) by (unfold is_status; rewrite (Hr E1); reflexivity).
    rewrite E2. simpl. lia.
  - destruct (is_status Running t); simpl; lia.
Qed.

Lemma dyn_ok_no_new g g' :
  base_task_count g' = base_task_count g ->
  Forall2 no_new (dyn_tasks g) (dyn_tasks g') -> dyn_ok g -> dyn_ok g'.
Proof.
  intros _ H [H1 H2]. destruct (no_new_lists _ _ H H1) as [H3 H4]. split; [exact H3 | lia].
Qed.

Lemma dyn_ok_tasks g ts : dyn_ok g -> Forall2 no_new (tasks g) ts -> dyn_ok (set_tasks ts g).
Proof.
  intros Hg H. apply (dyn_ok_no_new g); [reflexivity | apply Forall2_skipn, H | exact Hg].
Qed.

Lemma dyn_ok_same g g' :
  base_task_count g' = base_task_count g -> dyn_tasks g' = dyn_tasks g -> dyn_ok g -> dyn_ok g'.
Proof. intros _ E H. unfold dyn_ok. rewrite E. exact H. Qed.

Lemma start_first_pending_id l : Forall not_pending l -> start_first_pending l = l.
Proof.
  induction 1 as [|t l Ht _ IH]; simpl; [reflexivity|].
  destruct (status_eqb (tstatus t) Pending) eqn:E.
  - apply status_eqb_eq in E. contradiction.
  - rewrite IH. reflexivity.
Qed.

Lemma skipn_start_first_pending b l :
  Forall not_pending (skipn b l) -> skipn b (start_first_pending l) = skipn b l.
Proof.
  revert b. induction l as [|t l IH]; intros b H; [destruct b; reflexivity|].
  destruct b as [|b]; [apply start_first_pending_id; exact H|]. simpl in H |- *.
  - destruct (status_eqb (tstatus t) Pending); simpl; [reflexivity | apply IH, H].
Qed.

Lemma skipn_firstn_start_first_pending b k l :
  Forall not_pending (skipn b l) ->
  skipn b (firstn k l ++ start_first_pending (skipn k l)) = skipn b l.
Proof.
  revert b k. induction l as [|t l IH]; intros b k H.
  - destruct k, b; reflexivity.
  - destruct k as [|k].
    + apply skipn_start_first_pending, H.
    + destruct b as [|b].
      * simpl in H |- *. inversion H as [|? ? _ Hl]; subst. f_equal.
        rewrite <- (firstn_skipn k l) in Hl. apply Forall_app in Hl. destruct Hl as [_ Hs].
        rewrite (start_first_pending_id _ Hs). apply firstn_skipn.
      * simpl in H |- *. apply IH, H.
Qed.

Lemma skipn_map_dynamic b (f : task -> task) (l : list task) :
  skipn b (firstn b l ++ map f (skipn b l)) = map f (skipn b l).
Proof.
  destruct (Nat.le_gt_cases b (length l)) as [Hle | Hgt].
  - rewrite skipn_app, length_firstn. replace (Nat.min b (length l)) with b by lia.
    rewrite Nat.sub_diag, skipn_all2 by (rewrite length_firstn; lia). reflexivity.
  - rewrite (skipn_all2 l) by lia. rewrite firstn_all2 by lia. simpl.
    rewrite app_nil_r. apply skipn_all2. lia.
Qed.

Lemma map_dynamic_dyn f g : dyn_tasks (map_dynamic f g) = map f (dyn_tasks g).
Proof. apply skipn_map_dynamic. Qed.

Lemma dyn_ok_map_dynamic f g : (forall t, no_new t (f t)) -> dyn_ok g -> dyn_ok (map_dynamic f g).
Proof.
  intros Hf. apply dyn_ok_no_new; [reflexivity|]. rewrite map_dynamic_dyn.
  apply Forall2_map_no_new, Hf.
Qed.

Lemma count_running_map_complete l :
  count (is_status Running) (map complete_if_running l) = 0.
Proof.
  unfold count. induction l as [|t l IH]; [reflexivity|]. simpl.
  unfold complete_if_running at 1. unfold is_status at 1 2.
  destruct (status_eqb (tstatus t) Running) eqn:E; simpl; [exact IH|].
  unfold is_status. rewrite E. exact IH.
Qed.

Lemma dyn_ok_append_running g ts x :
  Forall not_pending (skipn (base_task_count g) ts) ->
  count (is_status Running) (skipn (base_task_count g) ts) = 0 ->
  tstatus x = Running ->
  dyn_ok (set_tasks (ts ++ [x]) g).
Proof.
  intros H1 H2 Hx. unfold dyn_ok, dyn_tasks; cbn [tasks base_task_count set_tasks].
  rewrite skipn_app.
  assert (Hs : Forall not_pending (skipn (base_task_count g - length ts) [x]) /\
               count (is_status Running) (skipn (base_task_count g - length ts) [x]) <= 1).
  { destruct (base_task_count g - length ts) as [|k]; simpl.
    - split; [constructor; [unfold not_pending; congruence | constructor]|].
      unfold count; simpl. destruct (is_status Running x); simpl; lia.
    - destruct k; simpl; split; auto; unfold count; simpl; lia. }
  destruct Hs as [Hs1 Hs2].
  split; [apply Forall_app; split; assumption|].
  unfold count in *. rewrite filter_app, length_app. lia.
Qed.

(** *** Each stage update keeps the dynamic tasks in order *)

Lemma skipn_update_nth_below {A} b i (f : A -> A) l :
  i < b -> skipn b (update_nth i f l) = skipn b l.
Proof.
  revert b i. induction l as [|x l IH]; intros b i H; [destruct i; reflexivity|].
  destruct b as [|b]; [lia|]. destruct i as [|i]; simpl; [reflexivity|]. apply IH. lia.
Qed.

Lemma skipn_mapi_from {A} b n (f : nat -> A -> A) l :
  (forall i x, b + n <= i -> f i x = x) -> skipn b (mapi_from n f l) = skipn b l.
Proof.
  revert b n. induction l as [|x l IH]; intros b n Hf; [destruct b; reflexivity|].
  destruct b as [|b]; simpl.
  - rewrite (Hf n x) by lia. f_equal.
    change (skipn 0 (mapi_from (S n) f l) = skipn 0 l). apply IH. intros i y Hi. apply Hf. lia.
  - apply IH. intros i y Hi. apply Hf. lia.
Qed.

Lemma ensure_dyn g target c :
  base_task_count (ensure_base_task_progress g target c) = base_task_count g /\
  dyn_tasks (ensure_base_task_progress g target c) = dyn_tasks g.
Proof.
  unfold ensure_base_task_progress, dyn_tasks.
  destruct (Nat.leb_spec (base_task_count g) target) as [Hle | Hlt]; [split; reflexivity|].
  cbn [set_tasks tasks base_task_count]. split; [reflexivity|].
  set (b := base_task_count g) in *.
  set (ts1 := mapi_from 0 _ (tasks g)).
  assert (H1 : skipn b ts1 = skipn b (tasks g)).
  { apply skipn_mapi_from. intros i x Hi.
    destruct (Nat.ltb_spec i target); [lia | reflexivity]. }
  destruct c.
  - destruct (_ && _) eqn:E.
    + apply andb_true_iff in E. destruct E as [E _]. apply Nat.ltb_lt in E.
      rewrite skipn_update_nth_below by exact E.
      rewrite skipn_update_nth_below by lia. exact H1.
    + rewrite skipn_update_nth_below by lia. exact H1.
  - destruct (nth_error ts1 target); [|exact H1].
    destruct (negb _); [|exact H1]. rewrite skipn_update_nth_below by lia. exact H1.
Qed.

Lemma dyn_ok_ensure g target c : dyn_ok g -> dyn_ok (ensure_base_task_progress g target c).
Proof.
  destruct (ensure_dyn g target c) as [H1 H2]. apply dyn_ok_same; assumption.
Qed.

Lemma dyn_ok_mark g a : dyn_ok g -> dyn_ok (mark_tasks g a).
Proof.
  intros H. destruct a; unfold mark_tasks.
  - unfold dyn_ok, dyn_tasks in *; cbn [set_tasks tasks base_task_count].
    rewrite skipn_start_first_pending by apply H. exact H.
  - apply dyn_ok_tasks; [exact H | apply Forall2_map_no_new, complete_task_no_new].
  - apply dyn_ok_tasks; [exact H | apply Forall2_map_no_new, fail_task_no_new].
  - apply dyn_ok_tasks; [exact H | apply Forall2_map_no_new, skip_task_no_new].
Qed.

Lemma dyn_ok_status_mark st n a g : dyn_ok g -> dyn_ok (mark_tasks (set_status_note st n g) a).
Proof. intros H. apply dyn_ok_mark. exact H. Qed.

Lemma dyn_ok_closed st n g : dyn_ok g -> dyn_ok (closed_stage st n g).
Proof. intros H. unfold closed_stage. destruct st; try apply dyn_ok_status_mark; exact H. Qed.

Lemma dyn_ok_skip_if_pending g : dyn_ok g -> dyn_ok (skip_if_pending g).
Proof. intros H. unfold skip_if_pending. destruct (sstatus g); try apply dyn_ok_status_mark; exact H. Qed.

Lemma dyn_ok_advance_task g n : dyn_ok g -> dyn_ok (advance_task g n).
Proof.
  intros H. unfold advance_task.
  assert (Hm : Forall2 no_new (tasks g) (map complete_if_running (tasks g)))
    by (apply Forall2_map_no_new; intros t; apply no_new_completed).
  destruct (match n with Some n => _ | None => None end) as [m|].
  - change (map (fun t => if is_status Running t then set_tstatus Completed t else t) (tasks g))
      with (map complete_if_running (tasks g)).
    destruct (find _ _); [apply dyn_ok_tasks; assumption|].
    apply dyn_ok_append_running; [| |reflexivity].
    + apply (no_new_lists (dyn_tasks g)); [apply Forall2_skipn, Hm | apply H].
    + rewrite skipn_map. apply count_running_map_complete.
  - destruct (tasks g) as [|t0 ts0] eqn:Eg; [exact H|]. rewrite <- Eg.
    destruct (find_index _ _) as [r|].
    + set (ts1 := update_nth r (set_tstatus Completed) (tasks g)).
      assert (H1 : Forall not_pending (skipn (base_task_count g) ts1)).
      { apply (no_new_lists (dyn_tasks g)); [|apply H].
        apply Forall2_skipn, Forall2_update_nth_no_new. intros x _. apply (no_new_completed true). }
      assert (H2 : dyn_ok (set_tasks ts1 g)).
      { apply dyn_ok_tasks; [exact H|]. apply Forall2_update_nth_no_new.
        intros x _. apply (no_new_completed true). }
      unfold dyn_ok, dyn_tasks in *; cbn [set_tasks tasks base_task_count] in *.
      rewrite skipn_firstn_start_first_pending by exact H1. exact H2.
    + unfold dyn_ok, dyn_tasks in *; cbn [set_tasks tasks base_task_count].
      rewrite skipn_start_first_pending by apply H. exact H.
Qed.

Lemma dyn_ok_add_dynamic g ts x :
  dyn_ok g -> tstatus x = Running ->
  ts = tasks (map_dynamic complete_if_running g) ->
  dyn_ok (set_tasks (ts ++ [x]) (map_dynamic complete_if_running g)).
Proof.
  intros H Hx ->. apply dyn_ok_append_running; [| |exact Hx].
  - apply (dyn_ok_map_dynamic complete_if_running g); [intros t; apply no_new_completed | exact H].
  - change (count (is_status Running) (dyn_tasks (map_dynamic complete_if_running g)) = 0).
    rewrite map_dynamic_dyn. apply count_running_map_complete.
Qed.

Lemma dyn_ok_add_creation g line : dyn_ok g -> dyn_ok (add_creation_task g line).
Proof.
  intros H. unfold add_creation_task. destruct (Nat.eqb _ _); [exact H|].
  apply dyn_ok_add_dynamic; [apply dyn_ok_ensure, H | reflexivity | reflexivity].
Qed.

Lemma dyn_ok_add_destroy g line : dyn_ok g -> dyn_ok (add_destroy_task g line).
Proof.
  intros H. unfold add_destroy_task. destruct (Nat.eqb _ _); [exact H|].
  apply dyn_ok_add_dynamic; [apply dyn_ok_ensure, H | reflexivity | reflexivity].
Qed.

Lemma dyn_ok_complete_dynamic g : dyn_ok g -> dyn_ok (complete_dynamic_tasks g).
Proof. apply dyn_ok_map_dynamic. intros t. apply no_new_completed. Qed.

Lemma dyn_ok_terraform_loop idx sq g line :
  dyn_ok g -> dyn_ok (advance_terraform_loop idx sq g line).
Proof.
  revert idx g. induction sq as [|e sq IH]; intros idx g H; simpl; [exact H|].
  destruct (any_in (keywords e) line).
  - destruct (contains _ _); [apply dyn_ok_add_creation|]; apply dyn_ok_ensure, H.
  - destruct (any_in (complete_keywords e) line); [|apply IH, H].
    destruct (String.eqb _ _); [apply dyn_ok_complete_dynamic|]; apply dyn_ok_ensure, H.
Qed.

Lemma dyn_ok_destroy_loop idx sq g ll :
  dyn_ok g -> dyn_ok (advance_destroy_loop idx sq g ll).
Proof.
  revert idx g. induction sq as [|e sq IH]; intros idx g H; simpl; [exact H|].
  apply IH.
  assert (H1 : dyn_ok (if any_in_lower (keywords e) ll
                       then ensure_base_task_progress g idx false else g))
    by (destruct (any_in_lower _ _); [apply dyn_ok_ensure|]; exact H).
  revert H1. generalize (if any_in_lower (keywords e) ll
                         then ensure_base_task_progress g idx false else g) as g1.
  intros g1 H1.
  destruct (any_in_lower (complete_keywords e) ll); [|exact H1].
  destruct (String.eqb _ _); [apply dyn_ok_complete_dynamic|]; apply dyn_ok_ensure, H1.
Qed.

Lemma dyn_ok_progress_update kind line g : dyn_ok g -> dyn_ok (progress_update kind line g).
Proof.
  intros H. destruct kind; simpl.
  - apply dyn_ok_advance_task, H.
  - unfold advance_terraform_task. destruct (String.eqb _ _); [exact H|].
    destruct (tasks g); [exact H | apply dyn_ok_terraform_loop, H].
  - unfold advance_destroy_task. destruct (String.eqb _ _); [exact H|].
    destruct (tasks g); [exact H|].
    pose proof (dyn_ok_destroy_loop 0 DESTROY_TASK_SEQUENCE g (lower line) H) as H1.
    destruct (contains _ _); [apply dyn_ok_add_destroy, H1|].
    destruct (_ || _); [|exact H1].
    apply dyn_ok_map_dynamic; [intros t0; apply no_new_completed | exact H1].
Qed.

(** *** Runner level *)

Lemma Forall_update_nth {A} (P : A -> Prop) i f l :
  (forall x, P x -> P (f x)) -> Forall P l -> Forall P (update_nth i f l).
Proof.
  intros Hf H. revert i. induction H as [|x l Hx H IH]; intros [|i]; simpl; constructor; auto.
Qed.

Lemma dyn_inv_update i f s : (forall g, dyn_ok g -> dyn_ok (f g)) -> dyn_inv s -> dyn_inv (update_stage i f s).
Proof. intros Hf H. apply Forall_update_nth; assumption. Qed.

Lemma dyn_inv_reset s : dyn_inv (reset_state s).
Proof.
  unfold dyn_inv. rewrite reset_state_stages. apply Forall_forall.
  intros g Hin. apply in_map_iff in Hin. destruct Hin as [d [<- _]].
  unfold dyn_ok, dyn_tasks, stage_entry; cbn [tasks base_task_count].
  rewrite skipn_all. split; [constructor | unfold count; simpl; lia].
Qed.

Lemma dyn_inv_reachable s : reachable s -> dyn_inv s.
Proof.
  induction 1.
  - apply dyn_inv_reset.
  - unfold start. rewrite H. apply dyn_inv_reset.
  - exact IHreachable.
  - unfold record_progress_event.
    destruct (current_stage s); [|exact IHreachable].
    destruct (dict_get _ _); [|exact IHreachable].
    destruct (nth_error _ _); [|exact IHreachable].
    destruct (sprogress_event _); [|exact IHreachable].
    destruct (progress_kind_eqb _ _); [|exact IHreachable].
    apply dyn_inv_update; [apply dyn_ok_progress_update | exact IHreachable].
  - unfold start_stage. destruct (dict_get x _); [|exact IHreachable].
    cbv zeta. unfold dyn_inv, set_current; cbn [stage_state].
    apply dyn_inv_update; [intros g; apply dyn_ok_status_mark|].
    destruct (current_stage s); [|exact IHreachable].
    destruct (negb _); [|exact IHreachable].
    destruct (dict_get _ _); [|exact IHreachable].
    apply dyn_inv_update; [intros g; apply dyn_ok_status_mark | exact IHreachable].
  - unfold complete_stage. destruct (dict_get x _); [|exact IHreachable].
    cbv zeta.
    assert (H1 := dyn_inv_update n0 (closed_stage st n) s (dyn_ok_closed st n) IHreachable).
    destruct (current_stage _); [|exact H1]. destruct (String.eqb _ _); exact H1.
  - exact IHreachable.
  - unfold finalize_run, dyn_inv. cbv zeta. cbn [stage_state set_stage_state].
    apply Forall_map. eapply Forall_impl; [apply dyn_ok_skip_if_pending|].
    destruct (current_stage s); [|exact IHreachable].
    destruct (dict_get _ _); [|exact IHreachable].
    apply dyn_inv_update; [intros g; apply dyn_ok_status_mark | exact IHreachable].
Qed.

End Dynamic.

Section Exits.
Local Open Scope list_scope.





End Exits.

Section Exits2.
Local Open Scope list_scope.

Lemma complete_task_closed t : task_closed (complete_task t).
Proof. unfold complete_task, task_closed. destruct (tstatus t) eqn:E; simpl; rewrite ?E; split; discriminate. Qed.

(** X5: when a run started on an idle runner exits with code 0 while a
    stage is active, that stage ends completed with the note "Finished.",
    none of its tasks is pending or running, and no log line is added. *)
Theorem clean_exit_completes_active_stage (s0 : runner) (m : string) (ru : role_map)
    (t0 now : Z) (raw : list string) (x : string) :
  running s0 = false ->
  current_stage (stream_lines raw (snd (start m ru t0 s0))) = Some x ->
  exists g, find_stage x (run_deploy (Some raw) 0 now (snd (start m ru t0 s0))) = Some g /\
    sstatus g = Completed /\ note g = "Finished." /\ Forall task_closed (tasks g) /\
    logs (run_deploy (Some raw) 0 now (snd (start m ru t0 s0))) =
    logs (stream_lines raw (snd (start m ru t0 s0))).
Proof.
  intros H0 Hc.
  change (run_deploy (Some raw) 0 now (snd (start m ru t0 s0)))
    with (finish_stream 0 now (stream_lines raw (snd (start m ru t0 s0)))).
  set (s1 := stream_lines raw (snd (start m ru t0 s0))) in *.
  assert (Hr1 : reachable s1) by (apply stream_lines_reachable; constructor; exact H0).
  pose proof (reachable_inv s1 Hr1) as (Hnd & Hlk & Hrun & _).
  unfold runner_inv in Hrun. rewrite Hc in Hrun. destruct Hrun as [i [Hi _]].
  destruct (Hlk x i Hi) as [g0 [Hg0 Hid]].
  assert (Hf : finish_stream 0 now s1 = finalize_run true now (set_return_code (Some 0%Z) s1)).
  { unfold finish_stream. cbv zeta. cbn [current_stage set_return_code]. rewrite Hc. reflexivity. }
  set (F := fun g => mark_tasks (set_status_note Completed "Finished." g) MComplete).
  assert (Hst : stage_state (finish_stream 0 now s1) =
                map skip_if_pending (update_nth i F (stage_state s1))).
  { rewrite Hf. unfold finalize_run. cbn [current_stage stage_lookup set_return_code].
    rewrite Hc, Hi. reflexivity. }
  pose proof (finish_stream_reachable 0 now s1 Hr1) as Hr2.
  pose proof (reachable_inv _ Hr2) as (Hnd2 & _).
  exists (F g0).
  assert (Hg : nth_error (stage_state (finish_stream 0 now s1)) i = Some (F g0)).
  { rewrite Hst, nth_error_map, nth_error_update_nth_eq, Hg0. reflexivity. }
  split; [|split; [reflexivity | split; [reflexivity | split]]].
  - unfold find_stage. replace x with (sid (F g0)) by exact Hid.
    exact (find_sid_nth _ i _ Hnd2 Hg).
  - apply Forall_forall. intros t Ht. simpl in Ht. apply in_map_iff in Ht.
    destruct Ht as [t1 [<- _]]. apply complete_task_closed.
  - rewrite Hf. unfold finalize_run. cbn [current_stage stage_lookup set_return_code].
    rewrite Hc, Hi. reflexivity.
Qed.

Lemma skip_task_of_pending t : tstatus t = Pending -> tstatus (skip_task t) = Skipped.
Proof. intros E. unfold skip_task. rewrite E. reflexivity. Qed.

(** X6: when the child's stdout cannot be attached, every stage of the
    fresh plan ends skipped with the note "Not executed in this run." and
    all its tasks skipped, the stage list keeps its ids, the log holds the
    single failure line, no return code is recorded and the run is over. *)
Theorem stdout_failure_skips_every_stage (s0 : runner) (m : string) (ru : role_map)
    (t0 rc now : Z) :
  running s0 = false ->
  (forall g, In g (stage_state (run_deploy None rc now (snd (start m ru t0 s0)))) ->
     sstatus g = Skipped /\ note g = "Not executed in this run." /\
     Forall (fun t => tstatus t = Skipped) (tasks g)) /\
  map sid (stage_state (run_deploy None rc now (snd (start m ru t0 s0)))) =
  map sid (stage_state (snd (start m ru t0 s0))) /\
  logs (run_deploy None rc now (snd (start m ru t0 s0))) = ["Failed to attach to deploy.py stdout."] /\
  return_code (run_deploy None rc now (snd (start m ru t0 s0))) = None /\
  running (run_deploy None rc now (snd (start m ru t0 s0))) = false.
Proof.
  intros H0. unfold start. rewrite H0. cbn [snd run_deploy].
  unfold finalize_run, append_log, set_logs; cbn -[reset_state skip_if_pending].
  set (r := reset_state _).
  assert (Hc : current_stage r = None) by reflexivity.
  assert (Hl : logs r = []) by reflexivity.
  assert (Hrc : return_code r = None) by reflexivity.
  rewrite Hc, Hl, Hrc. cbn -[reset_state skip_if_pending].
  split; [|split; [|split; [reflexivity | split; reflexivity]]].
  - intros g Hin. apply in_map_iff in Hin. destruct Hin as [g0 [<- Hin]].
    unfold r in Hin. rewrite reset_state_stages in Hin.
    apply in_map_iff in Hin. destruct Hin as [d [<- _]].
    destruct (stage_entry_fresh d) as (_ & _ & _ & _ & Hst & _ & _ & Hts & _).
    unfold skip_if_pending. rewrite Hst. cbn.
    split; [reflexivity | split; [reflexivity|]].
    apply Forall_map. eapply Forall_impl; [|exact Hts]. apply skip_task_of_pending.
  - rewrite map_map. apply map_ext, skip_if_pending_sid.
Qed.

End Exits2.

Section AnsibleMarker.





End AnsibleMarker.

Section AnsibleMarker2.
Local Open Scope list_scope.




End AnsibleMarker2.

Section Creation.
Local Open Scope list_scope.

Lemma nth_error_mapi_from {A B} n (f : nat -> A -> B) l k :
  nth_error (mapi_from n f l) k = option_map (f (n + k)) (nth_error l k).
Proof.
  revert n k. induction l as [|x l IH]; intros n [|k]; simpl; try reflexivity.
  - rewrite Nat.add_0_r. reflexivity.
  - rewrite IH. f_equal. f_equal. lia.
Qed.

Lemma length_mapi_from {A B} n (f : nat -> A -> B) l : length (mapi_from n f l) = length l.
Proof. revert n. induction l; intros n; simpl; auto. Qed.

Lemma length_update_nth {A} i (f : A -> A) l : length (update_nth i f l) = length l.
Proof. revert i. induction l; intros [|i]; simpl; auto. Qed.

Lemma ensure_false_base g target :
  target < base_task_count g -> base_task_count g <= length (tasks g) ->
  length (tasks (ensure_base_task_progress g target false)) = length (tasks g) /\
  (forall k t, k < target -> nth_error (tasks (ensure_base_task_progress g target false)) k = Some t ->
     tstatus t = Completed) /\
  (exists t, nth_error (tasks (ensure_base_task_progress g target false)) target = Some t /\
     (tstatus t = Running \/ tstatus t = Completed)).
Proof.
  intros Ht Hl. unfold ensure_base_task_progress.
  destruct (Nat.leb_spec (base_task_count g) target); [lia|]. cbn [set_tasks tasks].
  set (f := fun i t => if Nat.ltb i target && negb (is_status Completed t)
                       then set_tstatus Completed t else t).
  assert (Hf : forall k t, k < target -> nth_error (mapi_from 0 f (tasks g)) k = Some t ->
                 tstatus t = Completed).
  { intros k t Hk E. rewrite nth_error_mapi_from in E.
    destruct (nth_error (tasks g) k) as [t0|]; simpl in E; inversion E; subst t. clear E.
    unfold f. simpl. destruct (Nat.ltb_spec k target); [|lia].
    destruct (is_status Completed t0) eqn:C; simpl; [|reflexivity].
    unfold is_status in C. apply status_eqb_eq in C. exact C. }
  destruct (nth_error (tasks g) target) as [t0|] eqn:E0;
    [|apply nth_error_None in E0; lia].
  assert (E1 : nth_error (mapi_from 0 f (tasks g)) target = Some (f target t0))
    by (rewrite nth_error_mapi_from, E0; reflexivity).
  rewrite E1.
  assert (Ef : f target t0 = t0)
    by (unfold f; rewrite Nat.ltb_irrefl; reflexivity).
  rewrite Ef in *.
  destruct (negb (is_status Completed t0)) eqn:C.
  - split; [rewrite length_update_nth, length_mapi_from; reflexivity|]. split.
    + intros k t Hk E. rewrite nth_error_update_nth_neq in E by lia. exact (Hf k t Hk E).
    + rewrite nth_error_update_nth_eq, E1. eexists; split; [reflexivity | left; reflexivity].
  - split; [rewrite length_mapi_from; reflexivity|]. split; [exact Hf|].
    exists t0. split; [exact E1|]. right.
    apply negb_false_iff in C. unfold is_status in C. apply status_eqb_eq in C. exact C.
Qed.

Lemma prefix_app_r p x : String.prefix p (p ++ x) = true.
Proof.
  induction p as [|a p IH]; [destruct x; reflexivity|]. simpl.
  destruct (ascii_dec a a) as [_|C]; [exact IH | contradiction].
Qed.

Lemma prefix_trans a b c :
  String.prefix a b = true -> String.prefix b c = true -> String.prefix a c = true.
Proof.
  revert b c. induction a as [|x a IH]; intros b c H1 H2; [destruct c; reflexivity|].
  destruct b as [|y b]; [discriminate|]. destruct c as [|z c]; [discriminate|].
  simpl in *. destruct (ascii_dec x y) as [<-|]; [|discriminate].
  destruct (ascii_dec x z) as [<-|]; [|discriminate]. eapply IH; eassumption.
Qed.

Lemma fresh_dynamic_label_prefix g b : String.prefix b (fresh_dynamic_label g b) = true.
Proof.
  unfold fresh_dynamic_label, numbered. destruct (existsb _ _); [apply prefix_app_r|].
  clear. induction b as [|a b IH]; [reflexivity|]. simpl.
  destruct (ascii_dec a a) as [_|C]; [exact IH | contradiction].
Qed.

Lemma length_map_dynamic f g : length (tasks (map_dynamic f g)) = length (tasks g).
Proof.
  unfold map_dynamic; cbn [tasks set_tasks].
  rewrite length_app, length_map, <- (length_app (firstn _ _) (skipn _ _)), firstn_skipn.
  reflexivity.
Qed.

Lemma nth_error_map_dynamic_base f g k :
  k < base_task_count g -> nth_error (tasks (map_dynamic f g)) k = nth_error (tasks g) k.
Proof.
  intros Hk. unfold map_dynamic; cbn [tasks set_tasks].
  destruct (Nat.lt_ge_cases k (length (tasks g))) as [Hl | Hl].
  - rewrite nth_error_app1 by (rewrite length_firstn; lia).
    rewrite nth_error_firstn. destruct (Nat.ltb_spec k (base_task_count g)); [reflexivity | lia].
  - rewrite (proj2 (nth_error_None (tasks g) k) Hl). apply nth_error_None.
    rewrite length_app, length_map, <- (length_app (firstn _ _) (skipn _ _)), firstn_skipn. lia.
Qed.

(** X8: a creation line in the Terraform stage adds exactly one task: a
    running subtask whose label starts with "Creating "; it is the only
    running subtask, and the base tasks before the third one (or before the
    last one, for fewer than three) are completed, that task running or
    completed. *)
Theorem creation_line_opens_subtask (g : stage) (line : string) :
  0 < base_task_count g -> base_task_count g <= length (tasks g) ->
  let target := Nat.min (base_task_count g - 1) 2 in
  let g' := add_creation_task g line in
  length (tasks g') = S (length (tasks g)) /\
  (forall k t, k < target -> nth_error (tasks g') k = Some t -> tstatus t = Completed) /\
  (exists t, nth_error (tasks g') target = Some t /\ (tstatus t = Running \/ tstatus t = Completed)) /\
  count (is_status Running) (skipn (base_task_count g) (tasks g')) = 1 /\
  (exists lbl, nth_error (tasks g') (length (tasks g)) = Some (mk_task lbl Running) /\
               String.prefix "Creating " lbl = true).
Proof.
  intros Hb Hl target g'. unfold g', add_creation_task.
  destruct (Nat.eqb_spec (base_task_count g) 0) as [E|_]; [lia|]. cbv zeta.
  fold target.
  set (st1 := ensure_base_task_progress g target false).
  destruct (ensure_false_base g target) as (L1 & B1 & T1);
    [unfold target; lia | exact Hl | fold st1 in L1, B1, T1].
  destruct (ensure_dyn g target false) as [Eb _]. fold st1 in Eb.
  set (st2 := map_dynamic complete_if_running st1).
  set (lbl := fresh_dynamic_label st2 _).
  cbn [tasks set_tasks].
  assert (L2 : length (tasks st2) = length (tasks g)) by (unfold st2; rewrite length_map_dynamic; exact L1).
  assert (N2 : forall k, k < base_task_count g -> nth_error (tasks st2 ++ [mk_task lbl Running]) k =
                                                nth_error (tasks st1) k).
  { intros k Hk. rewrite nth_error_app1 by lia. unfold st2.
    apply nth_error_map_dynamic_base. rewrite Eb. exact Hk. }
  split; [rewrite length_app, L2; simpl; lia|]. split; [|split; [|split]].
  - intros k t Hk E. rewrite N2 in E by (unfold target in Hk; lia). exact (B1 k t Hk E).
  - rewrite N2 by (unfold target; lia). exact T1.
  - pose proof (map_dynamic_dyn complete_if_running st1) as D. unfold dyn_tasks in D.
    cbn [base_task_count map_dynamic set_tasks] in D. rewrite Eb in D. fold st2 in D.
    rewrite skipn_app, D. replace (base_task_count g - length (tasks st2)) with 0 by lia.
    unfold count. rewrite filter_app, length_app.
    change (length (filter (is_status Running) (map complete_if_running (skipn (base_task_count g) (tasks st1)))))
      with (count (is_status Running) (map complete_if_running (skipn (base_task_count g) (tasks st1)))).
    rewrite count_running_map_complete. reflexivity.
  - exists lbl. split.
    + rewrite nth_error_app2 by lia. rewrite L2, Nat.sub_diag. reflexivity.
    + unfold lbl. eapply prefix_trans; [apply prefix_app_r | apply fresh_dynamic_label_prefix].
Qed.
End Creation.

Section DestroyDone.
Local Open Scope list_scope.

Lemma prefix_lower a b : String.prefix a b = true -> String.prefix (lower a) (lower b) = true.
Proof.
  revert b. induction a as [|x a IH]; intros b H; [destruct (lower b); reflexivity|].
  destruct b as [|y b]; [discriminate|]. simpl in H |- *.
  destruct (ascii_dec x y) as [<-|]; [|discriminate].
  destruct (ascii_dec (ascii_lower x) (ascii_lower x)) as [_|C]; [apply IH, H | contradiction].
Qed.

Lemma contains_lower a b : contains a b = true -> contains (lower a) (lower b) = true.
Proof.
  induction b as [|y b IH]; intros H.
  - destruct a as [|x a]; [reflexivity | discriminate].
  - change (String.prefix a (String y b) || contains a b = true) in H.
    change (String.prefix (lower a) (String (ascii_lower y) (lower b)) || contains (lower a) (lower b)
            = true).
    apply orb_true_iff in H. destruct H as [H|H].
    + apply prefix_lower in H. change (lower (String y b)) with (String (ascii_lower y) (lower b)) in H.
      rewrite H. reflexivity.
    + rewrite IH by exact H. apply orb_true_r.
Qed.

Lemma closed_map_completed (p : task -> bool) l :
  Forall task_closed l ->
  Forall task_closed (map (fun t => if p t then set_tstatus Completed t else t) l).
Proof.
  intros H. apply Forall_map. eapply Forall_impl; [|exact H].
  intros t Ht. destruct (p t); [split; discriminate | exact Ht].
Qed.

Lemma complete_dynamic_closed g : Forall task_closed (dyn_tasks (complete_dynamic_tasks g)).
Proof.
  unfold complete_dynamic_tasks. rewrite map_dynamic_dyn. apply Forall_forall.
  intros t Ht. apply in_map_iff in Ht. destruct Ht as [t0 [<- _]].
  unfold is_status, task_closed. destruct (tstatus t0) eqn:E; simpl; split; congruence.
Qed.

Lemma destroy_loop_step idx e sq st ll :
  exists st', advance_destroy_loop idx (e :: sq) st ll = advance_destroy_loop (S idx) sq st' ll.
Proof. eexists. reflexivity. Qed.

Lemma destroy_loop_last idx e st ll :
  any_in_lower (complete_keywords e) ll = true -> seq_label e = "Destroy VM resources" ->
  Forall task_closed (dyn_tasks (advance_destroy_loop idx [e] st ll)).
Proof.
  intros H1 H2. simpl. rewrite H1, H2, String.eqb_refl. apply complete_dynamic_closed.
Qed.

Lemma contains_empty_hay k : k <> "" -> contains k "" = false.
Proof. destruct k; [contradiction | reflexivity]. Qed.

(** X9: a "Destroy complete" or "Destruction complete" line (that is not
    a "Destroying..." line) leaves no subtask of the destroy stage pending or
    running. *)
Theorem destroy_complete_closes_subtasks (g : stage) (line : string) :
  contains "Destroy complete" line = true \/ contains "Destruction complete" line = true ->
  contains "Destroying..." line = false ->
  Forall task_closed (skipn (base_task_count g) (tasks (advance_destroy_task g line))).
Proof.
  intros Hc Hd.
  assert (Hb : base_task_count (advance_destroy_task g line) = base_task_count g)
    by (apply (progress_update_kept TerraformDestroy line g)).
  rewrite <- Hb. change (Forall task_closed (dyn_tasks (advance_destroy_task g line))).
  unfold advance_destroy_task.
  destruct (String.eqb_spec line "") as [->|_].
  { destruct Hc as [Hc|Hc]; discriminate. }
  destruct (tasks g) as [|t0 ts0] eqn:Eg.
  { unfold dyn_tasks. rewrite Eg, skipn_nil. constructor. }
  unfold DESTROY_TASK_SEQUENCE.
  destruct (destroy_loop_step 0 (mk_seq_entry "Select Terraform/OpenTofu" [] ["Using Terraform"; "Using OpenTofu"])
              [mk_seq_entry "Destroy VM resources"
                 ["Performing terraform destroy"; "Performing tofu destroy";
                  "Performing terraform destroy -auto-approve"; "Performing tofu destroy -auto-approve";
                  "Destroying..."; "destroy -auto-approve"]
                 ["Destroy complete!"; "Destroy complete"; "Destruction complete"]] g (lower line))
    as [st' E].
  rewrite E. rewrite Hd.
  assert (H1 : Forall task_closed (dyn_tasks (advance_destroy_loop 1
     [mk_seq_entry "Destroy VM resources"
        ["Performing terraform destroy"; "Performing tofu destroy";
         "Performing terraform destroy -auto-approve"; "Performing tofu destroy -auto-approve";
         "Destroying..."; "destroy -auto-approve"]
        ["Destroy complete!"; "Destroy complete"; "Destruction complete"]] st' (lower line)))).
  { apply destroy_loop_last; [|reflexivity].
    unfold any_in_lower. apply existsb_exists. cbn [complete_keywords].
    destruct Hc as [Hc|Hc].
    - exists "Destroy complete". split; [simpl; tauto | exact (contains_lower _ _ Hc)].
    - exists "Destruction complete". split; [simpl; tauto | exact (contains_lower _ _ Hc)]. }
  replace (contains "Destruction complete" line || contains "Destroy complete" line) with true
    by (destruct Hc as [Hc|Hc]; rewrite Hc; [rewrite orb_true_r|]; reflexivity).
  unfold complete_matching_destroy_task. rewrite map_dynamic_dyn.
  apply closed_map_completed, H1.
Qed.

End DestroyDone.

Section TerraformDone.
Local Open Scope list_scope.

Lemma ensure_true_base g target :
  target < base_task_count g -> base_task_count g <= length (tasks g) ->
  forall k t, k <= target -> nth_error (tasks (ensure_base_task_progress g target true)) k = Some t ->
  tstatus t = Completed.
Proof.
  intros Ht Hl k t Hk. unfold ensure_base_task_progress.
  destruct (Nat.leb_spec (base_task_count g) target); [lia|]. cbn [set_tasks tasks].
  set (f := fun i t => if Nat.ltb i target && negb (is_status Completed t)
                       then set_tstatus Completed t else t).
  set (ts' := update_nth target (set_tstatus Completed) (mapi_from 0 f (tasks g))).
  assert (H1 : nth_error ts' k = Some t -> tstatus t = Completed).
  { unfold ts'. intros E. destruct (Nat.eq_dec k target) as [->|Hne].
    - rewrite nth_error_update_nth_eq in E.
      destruct (nth_error (mapi_from 0 f (tasks g)) target); inversion E; reflexivity.
    - rewrite nth_error_update_nth_neq in E by exact Hne.
      rewrite nth_error_mapi_from in E.
      destruct (nth_error (tasks g) k) as [t0|]; simpl in E; inversion E; subst t. clear E.
      unfold f. simpl. destruct (Nat.ltb_spec k target); [|lia].
      destruct (is_status Completed t0) eqn:C; simpl; [|reflexivity].
      unfold is_status in C. apply status_eqb_eq in C. exact C. }
  destruct (_ && _); [|exact H1].
  rewrite nth_error_update_nth_neq by lia. exact H1.
Qed.

Lemma terraform_loop_skip idx e sq st line :
  any_in (keywords e) line = false -> any_in (complete_keywords e) line = false ->
  advance_terraform_loop idx (e :: sq) st line = advance_terraform_loop (S idx) sq st line.
Proof. intros H1 H2. simpl. rewrite H1, H2. reflexivity. Qed.

(** X10: the line "✓ Infrastructure created successfully" (with no
    earlier Terraform keyword in it) completes the first three base tasks of
    the Terraform stage and leaves no subtask pending or running. *)
Theorem infrastructure_created_closes_terraform_tasks (g : stage) (line : string) :
  2 < base_task_count g -> base_task_count g <= length (tasks g) ->
  contains "✓ Infrastructure created successfully" line = true ->
  any_in ["Initializing"; "Validating configuration"; "✓ Configuration valid";
          "Planning deployment"; "PLAN SUMMARY"; "✓ No changes needed"; "✓ Plan created";
          "Creating VM"; "[INFO] Creating"] line = false ->
  (forall k t, k <= 2 -> nth_error (tasks (advance_terraform_task g line)) k = Some t ->
     tstatus t = Completed) /\
  Forall task_closed (skipn (base_task_count g) (tasks (advance_terraform_task g line))).
Proof.
  intros Hb Hl Hc Hn.
  unfold any_in in Hn. simpl existsb in Hn. repeat rewrite orb_false_iff in Hn.
  destruct Hn as (N1 & N2 & N3 & N4 & N5 & N6 & N7 & N8 & N9 & _).
  unfold advance_terraform_task.
  destruct (String.eqb_spec line "") as [->|_]; [discriminate|].
  destruct (tasks g) as [|t0 ts0] eqn:Eg; [simpl in Hl; lia|].
  unfold TERRAFORM_TASK_SEQUENCE.
  rewrite terraform_loop_skip
    by (unfold any_in; simpl existsb; rewrite ?N1, ?N2, ?N3; reflexivity).
  rewrite terraform_loop_skip
    by (unfold any_in; simpl existsb; rewrite ?N4, ?N5, ?N6, ?N7; reflexivity).
  simpl advance_terraform_loop. rewrite N8, N9, Hc. simpl orb. cbv iota.
  destruct (ensure_dyn g 2 true) as [Eb _].
  split.
  - intros k t Hk E. unfold complete_dynamic_tasks in E.
    rewrite nth_error_map_dynamic_base in E by (rewrite Eb; lia).
    rewrite <- Eg in Hl. exact (ensure_true_base g 2 ltac:(lia) Hl k t Hk E).
  - rewrite <- Eb. apply complete_dynamic_closed.
Qed.

End TerraformDone.

Section Tfvars.







(** strip_prefix *)
Lemma strip_prefix_app (p r : string) : strip_prefix p (p ++ r) = Some r.
Proof. induction p; simpl; [reflexivity|]. rewrite Ascii.eqb_refl. exact IHp. Qed.

(** comments *)
Lemma prefix_head (a : ascii) (x y : string) :
  String.prefix "/" (String a x) = String.prefix "/" (String a y).
Proof. unfold String.prefix. destruct (ascii_dec _ _); [destruct x, y|]; reflexivity. Qed.

Lemma cut_comment_hash (l c : string) : cut_comment (l ++ String "#" c) = cut_comment l.
Proof.
  induction l as [|a t IH]; simpl; [reflexivity|].
  destruct (Ascii.eqb a "#"); [reflexivity|].
  rewrite IH. destruct t as [|a0 t]; [reflexivity|].
  change (String a0 t ++ String "#" c)%string with (String a0 (t ++ String "#" c)).
  rewrite (prefix_head a0 (t ++ String "#" c) t). reflexivity.
Qed.



Lemma span_digits_uint (u : Decimal.uint) :
  span_digits (uint_to_string u) = uint_to_string u.
Proof. induction u; simpl; congruence. Qed.

Lemma app_assoc_string (a b c : string) : ((a ++ b) ++ c)%string = (a ++ (b ++ c))%string.
Proof. induction a; simpl; congruence. Qed.

Lemma app_empty_string (a : string) : (a ++ "")%string = a.
Proof. induction a; simpl; congruence. Qed.





(** tokens *)
Lemma token_parts (x : string) :
  tfvars_token x = true ->
  x <> "" /\ forallb (fun c => negb (Ascii.eqb c QUOTE)) (list_ascii_of_string x) = true /\
  forallb no_cut (list_ascii_of_string x) = true.
Proof.
  unfold tfvars_token. intros H. apply andb_prop in H as [H1 H2].
  split; [intros E; subst; discriminate|].
  rewrite forallb_forall in H2. split; apply forallb_forall; intros c Hc; specialize (H2 c Hc);
  unfold no_cut; destruct (Ascii.eqb c QUOTE), (Ascii.eqb c "#"), (Ascii.eqb c "/"); simpl in *;
  congruence.
Qed.

Lemma span_nonquote_app (k r : string) :
  forallb (fun c => negb (Ascii.eqb c QUOTE)) (list_ascii_of_string k) = true ->
  span_nonquote (k ++ String QUOTE r) = (k, String QUOTE r).
Proof.
  induction k as [|a t IH]; intros H; simpl.
  - try rewrite Ascii.eqb_refl. reflexivity.
  - simpl in H. apply andb_prop in H as [H1 H2]. apply negb_true_iff in H1. rewrite H1.
    rewrite IH by exact H2. reflexivity.
Qed.

Lemma quoted_at_quote (k r : string) :
  tfvars_token k = true -> quoted_at (quote k ++ r) = Some (k, r).
Proof.
  intros H. destruct (token_parts k H) as [Hne [Hq _]].
  change (quote k ++ r)%string with (String QUOTE ((k ++ String QUOTE "") ++ r)).
  rewrite app_assoc_string. simpl (String QUOTE "" ++ r)%string.
  unfold quoted_at. rewrite Ascii.eqb_refl.
  rewrite span_nonquote_app by exact Hq. destruct k; [congruence|]. reflexivity.
Qed.
















(** [key = rest] matched by [key\s*=\s*]. *)
Lemma match_key_eq (key r : string) :
  match_key key (key ++ " = " ++ r) = Some (lstrip_by is_space r).
Proof. unfold match_key. rewrite strip_prefix_app. reflexivity. Qed.




Lemma scan_close (n : nat) (d : string) (acc : dict string) :
  scan_line (mk_tfvars_scan true n d acc) "}" = mk_tfvars_scan false n d acc.
Proof. reflexivity. Qed.



(** X12: trailing "#" comments do not change the detected roles: adding
    "#..." to the end of any lines of the tfvars file gives the same role
    usage. *)
Theorem determine_vm_role_usage_comments (lines : list (string * string)) :
  determine_vm_role_usage (Some (map (fun lc => fst lc ++ String "#" (snd lc)) lines)) =
  determine_vm_role_usage (Some (map fst lines)).
Proof.
  unfold determine_vm_role_usage. f_equal. generalize initial_scan.
  induction lines as [|[l c] lines IH]; intros st; simpl; [reflexivity|].
  rewrite <- IH. f_equal. unfold scan_line. rewrite cut_comment_hash. reflexivity.
Qed.




Lemma search_assign_eq (key s : string) :
  search_assign key s =
  match match match_key key s with
        | Some r => option_map fst (quoted_at r)
        | None => None
        end with
  | Some v => Some v
  | None => match s with EmptyString => None | String _ t => search_assign key t end
  end.
Proof. destruct s; reflexivity. Qed.

(** X14: the credentials search does not skip comments: a commented-out
    assignment "# proxmox_user = "u"" at the head of the file sets the user,
    with "@pam" appended when [u] names no realm. *)
Theorem parse_proxmox_credentials_commented_user (u rest : string) :
  tfvars_token u = true ->
  cred_user (parse_proxmox_credentials (Some ("# proxmox_user = " ++ quote u ++ rest))) =
  if contains "@" u then u else (u ++ "@pam")%string.
Proof.
  intros Hu. destruct (token_parts u Hu) as [Hne _].
  assert (Hs : search_assign "proxmox_user" ("# proxmox_user = " ++ quote u ++ rest) = Some u).
  { change ("# proxmox_user = " ++ quote u ++ rest)%string
      with (String "#" (String " " ("proxmox_user" ++ " = " ++ (quote u ++ rest)))).
    rewrite !search_assign_eq. rewrite match_key_eq.
    change (lstrip_by is_space (quote u ++ rest)) with (quote u ++ rest)%string.
    rewrite quoted_at_quote by exact Hu. reflexivity. }
  unfold parse_proxmox_credentials. cbn [cred_user]. rewrite Hs. unfold pam_user.
  destruct u; [congruence|]. change (String.eqb (String a u) "") with false. cbv iota.
  destruct (contains "@" (String a u)); reflexivity.
Qed.

End Tfvars.

Section Connect.

(** lemmas *)
Lemma prefix_app_self (p s : string) : String.prefix p (p ++ s) = true.
Proof.
  induction p as [|a p IH]; simpl; [destruct s; reflexivity|].
  destruct (ascii_dec a a); [exact IH | congruence].
Qed.

Lemma replace_from_skip (pat rep x s : string) :
  replace_from pat rep (String.length x) (x ++ s) = replace_from pat rep 0 s.
Proof. induction x; simpl; auto. Qed.

Lemma py_replace_app (pat rep s : string) :
  pat <> "" -> py_replace pat rep (pat ++ s) = (rep ++ py_replace pat rep s)%string.
Proof.
  intros H. destruct pat as [|a p]; [congruence|]. unfold py_replace.
  change (String a p ++ s)%string with (String a (p ++ s)).
  unfold replace_from at 1. fold replace_from.
  assert (Hp : String.prefix (String a p) (String a (p ++ s)) = true)
    by exact (prefix_app_self (String a p) s).
  rewrite Hp. simpl (String.length (String a p) - 1). rewrite Nat.sub_0_r, replace_from_skip. reflexivity.
Qed.

Lemma py_replace_absent (pat rep s : string) :
  contains pat s = false -> py_replace pat rep s = s.
Proof.
  unfold py_replace. induction s as [|c t IH]; intros H; [reflexivity|].
  simpl in H. apply orb_false_iff in H as [H1 H2]. simpl. rewrite H1, IH by exact H2.
  reflexivity.
Qed.

Lemma prefix_split (x s : string) : String.prefix x s = true -> exists r, s = (x ++ r)%string.
Proof.
  revert s; induction x as [|a x IH]; intros s H.
  - exists s. reflexivity.
  - destruct s as [|b s]; simpl in H; [discriminate|].
    destruct (ascii_dec a b) as [->|]; [|discriminate].
    destruct (IH s H) as [r ->]. exists r. reflexivity.
Qed.

Lemma contains_split (x s : string) :
  contains x s = true -> exists l r, s = (l ++ x ++ r)%string.
Proof.
  induction s as [|c t IH]; intros H.
  - simpl in H. rewrite orb_false_r in H. destruct x; [|discriminate].
    exists "", "". reflexivity.
  - change (String.prefix x (String c t) || contains x t = true) in H.
    apply orb_true_iff in H as [H|H].
    + destruct (prefix_split _ _ H) as [r E]. exists "", r. exact E.
    + destruct (IH H) as [l [r ->]]. exists (String c l), r. reflexivity.
Qed.

Lemma contains_eq (x s : string) :
  contains x s = String.prefix x s || match s with EmptyString => false | String _ t => contains x t end.
Proof. destruct s; reflexivity. Qed.

Lemma contains_middle (l x r : string) : contains x (l ++ x ++ r) = true.
Proof.
  induction l as [|c l IH]; simpl.
  - rewrite contains_eq, prefix_app_self. reflexivity.
  - rewrite IH. apply orb_true_r.
Qed.

(** An occurrence of [a ++ y ++ b] holds one of [y]. *)
Lemma contains_inner (a y b s : string) :
  contains y s = false -> contains (a ++ y ++ b) s = false.
Proof.
  intros H. destruct (contains (a ++ y ++ b) s) eqn:E; [|reflexivity].
  destruct (contains_split _ _ E) as [l [r ->]].
  assert (E2 : (l ++ (a ++ y ++ b) ++ r)%string = ((l ++ a) ++ y ++ (b ++ r))%string)
    by (rewrite !app_assoc_string; reflexivity).
  rewrite E2, contains_middle in H. discriminate.
Qed.

Lemma contains_skip_free (c : ascii) (p a b : string) :
  char_free c a = true -> contains (String c p) (a ++ b) = contains (String c p) b.
Proof.
  unfold char_free. induction a as [|x a IH]; intros H; [reflexivity|].
  simpl in H. apply andb_prop in H as [H1 H2]. apply negb_true_iff in H1.
  simpl. rewrite IH by exact H2.
  destruct (ascii_dec c x) as [->|]; [rewrite Ascii.eqb_refl in H1; discriminate|reflexivity].
Qed.

Lemma split_once_skip_free (c : ascii) (a s : string) :
  char_free c a = true ->
  split_once (String c "") (a ++ s) =
  match split_once (String c "") s with Some (b, r) => Some ((a ++ b)%string, r) | None => None end.
Proof.
  unfold char_free. induction a as [|x a IH]; intros H.
  - simpl. destruct (split_once _ s) as [[b r]|]; reflexivity.
  - simpl in H. apply andb_prop in H as [H1 H2]. apply negb_true_iff in H1.
    simpl. destruct (ascii_dec c x) as [->|]; [rewrite Ascii.eqb_refl in H1; discriminate|].
    rewrite IH by exact H2. destruct (split_once _ s) as [[b r]|]; reflexivity.
Qed.

Lemma substring_long (n : nat) (s : string) : String.length s <= n -> substring 0 n s = s.
Proof.
  revert n; induction s as [|c t IH]; intros n H; destruct n; simpl in *; try reflexivity; try lia.
  rewrite IH by lia. reflexivity.
Qed.




Lemma split_once_head (c : ascii) (s : string) :
  split_once (String c "") (String c s) = Some ("", s).
Proof.
  simpl split_once. destruct (ascii_dec c c) as [_|]; [|congruence].
  assert (E : String.prefix "" s = true) by (destruct s; reflexivity). rewrite E.
  simpl. rewrite substring_long by lia. reflexivity.
Qed.


Lemma no_double_slash_scheme (s : string) :
  contains "//" s = false -> contains "https://" s = false /\ contains "http://" s = false.
Proof.
  intros H. split.
  - exact (contains_inner "https:" "//" "" s H).
  - exact (contains_inner "http:" "//" "" s H).
Qed.

Lemma py_replace_schemes (s : string) :
  contains "//" s = false ->
  py_replace "http://" "" (py_replace "https://" "" s) = s /\
  py_replace "http://" "" (py_replace "https://" "" ("https://" ++ s)) = s.
Proof.
  intros H. destruct (no_double_slash_scheme s H) as [H1 H2].
  rewrite py_replace_app by discriminate. simpl append.
  rewrite (py_replace_absent "https://" "" s H1), (py_replace_absent "http://" "" s H2). auto.
Qed.


(** X16: a host given without a port, either as the host override with
    no URL or as a URL "https://host/path", is contacted on port 8006. *)
Theorem connect_proxmox_default_port (c : credentials) (h : string) :
  char_free "/" h = true -> char_free ":" h = true ->
  (cred_url c = "" /\ cred_host c = h /\ h <> "") \/
  (exists path, cred_url c = ("https://" ++ h ++ String "/" path)%string /\
                contains "//" (String "/" path) = false) ->
  cred_user c <> "" -> cred_password c <> "" ->
  connect_proxmox true c =
  Some (mk_proxmox_call h (cred_user c) (cred_password c) false 8006).
Proof.
  intros Hs Hc Hsrc Hu Hp.
  assert (Hcol : contains ":" h = false).
  { rewrite <- (app_empty_string h). rewrite contains_skip_free by exact Hc. reflexivity. }
  unfold connect_proxmox. simpl negb. cbv iota zeta.
  destruct (String.eqb_spec (cred_user c) "") as [|_]; [contradiction|].
  destruct (String.eqb_spec (cred_password c) "") as [|_]; [contradiction|].
  rewrite !orb_false_r.
  destruct Hsrc as [[Hurl [Hh Hne]] | [path [Hurl Hpath]]].
  - rewrite Hurl, Hh. change (String.eqb "" "") with true. simpl andb.
    destruct (String.eqb_spec h "") as [|_]; [contradiction|]. cbv iota.
    assert (Hr : contains "//" h = false).
    { rewrite <- (app_empty_string h). rewrite contains_skip_free by exact Hs. reflexivity. }
    destruct (py_replace_schemes _ Hr) as [-> _].
    unfold split_all_first, split_first.
    assert (Hsp : split_once "/" h = None).
    { rewrite <- (app_empty_string h). rewrite split_once_skip_free by exact Hs. reflexivity. }
    rewrite Hsp, Hcol. reflexivity.
  - rewrite Hurl.
    change (String.eqb ("https://" ++ h ++ String "/" path) "") with false. cbv iota.
    assert (Hr : contains "//" (h ++ String "/" path) = false)
      by (rewrite contains_skip_free by exact Hs; exact Hpath).
    destruct (py_replace_schemes _ Hr) as [_ ->].
    unfold split_all_first, split_first.
    rewrite split_once_skip_free by exact Hs. rewrite split_once_head.
    rewrite app_empty_string, Hcol. reflexivity.
Qed.


End Connect.

Section Extras.
Local Open Scope list_scope.

(** X1: the log buffer never holds more than [LOG_CAPACITY] (200) lines:
    in any state the runner can reach, and at the end of any run started on
    an idle runner. *)
Theorem logs_within_capacity :
  (forall s, reachable s -> length (logs s) <= LOG_CAPACITY) /\
  (forall s0 m ru t0 out rc now, running s0 = false ->
     length (logs (run_deploy out rc now (snd (start m ru t0 s0)))) <= LOG_CAPACITY).
Proof.
  split; [exact reachable_logs_bounded|].
  intros s0 m ru t0 out rc now H.
  apply reachable_logs_bounded, run_deploy_reachable, reach_start, H.
Qed.

(** X3: the tasks a run adds to a stage after its base tasks are never
    pending, and at most one of them is running, in any state the runner
    can reach and at the end of any run started on an idle runner. *)
Theorem dynamic_subtasks_settled :
  (forall s, reachable s -> dyn_inv s) /\
  (forall s0 m ru t0 out rc now, running s0 = false ->
     dyn_inv (run_deploy out rc now (snd (start m ru t0 s0)))).
Proof.
  split; [exact dyn_inv_reachable|].
  intros s0 m ru t0 out rc now H.
  apply dyn_inv_reachable, run_deploy_reachable, reach_start, H.
Qed.


End Extras.

(** ** Witnesses of the extra properties *)

Lemma clean_exit_completes_active_stage_witness :
  (running (init_runner []) = false /\
   current_stage (stream_lines ["=== TERRAFORM DEPLOYMENT ==="]
     (snd (start "deploy" [] 0%Z (init_runner [])))) = Some "terraform") /\
  (exists g, find_stage "terraform" (run_deploy (Some ["=== TERRAFORM DEPLOYMENT ==="]) 0 9
               (snd (start "deploy" [] 0%Z (init_runner [])))) = Some g /\
     sstatus g = Completed /\ note g = "Finished." /\ Forall task_closed (tasks g) /\
     logs (run_deploy (Some ["=== TERRAFORM DEPLOYMENT ==="]) 0 9
             (snd (start "deploy" [] 0%Z (init_runner [])))) =
     logs (stream_lines ["=== TERRAFORM DEPLOYMENT ==="] (snd (start "deploy" [] 0%Z (init_runner []))))).
Proof.
  split; [split; [reflexivity | vm_compute; reflexivity]|].
  apply clean_exit_completes_active_stage; [reflexivity | vm_compute; reflexivity].
Defined.

Lemma stdout_failure_skips_every_stage_witness :
  running (init_runner []) = false /\
  ((forall g, In g (stage_state (run_deploy None 1 2 (snd (start "destroy" [] 0%Z (init_runner []))))) ->
     sstatus g = Skipped /\ note g = "Not executed in this run." /\
     Forall (fun t => tstatus t = Skipped) (tasks g)) /\
   map sid (stage_state (run_deploy None 1 2 (snd (start "destroy" [] 0%Z (init_runner []))))) =
   map sid (stage_state (snd (start "destroy" [] 0%Z (init_runner [])))) /\
   logs (run_deploy None 1 2 (snd (start "destroy" [] 0%Z (init_runner [])))) =
     ["Failed to attach to deploy.py stdout."] /\
   return_code (run_deploy None 1 2 (snd (start "destroy" [] 0%Z (init_runner [])))) = None /\
   running (run_deploy None 1 2 (snd (start "destroy" [] 0%Z (init_runner [])))) = false).
Proof.
  split; [reflexivity|]. apply stdout_failure_skips_every_stage. reflexivity.
Defined.


Lemma creation_line_opens_subtask_witness :
  (0 < base_task_count sample_terraform_stage /\
   base_task_count sample_terraform_stage <= length (tasks sample_terraform_stage)) /\
  (let target := Nat.min (base_task_count sample_terraform_stage - 1) 2 in
   let g' := add_creation_task sample_terraform_stage "[INFO] Creating VM k3s-master" in
   length (tasks g') = S (length (tasks sample_terraform_stage)) /\
   (forall k t, k < target -> nth_error (tasks g') k = Some t -> tstatus t = Completed) /\
   (exists t, nth_error (tasks g') target = Some t /\ (tstatus t = Running \/ tstatus t = Completed)) /\
   count (is_status Running) (skipn (base_task_count sample_terraform_stage) (tasks g')) = 1 /\
   (exists lbl, nth_error (tasks g') (length (tasks sample_terraform_stage)) = Some (mk_task lbl Running) /\
                String.prefix "Creating " lbl = true)).
Proof.
  split; [split; vm_compute; lia|].
  apply creation_line_opens_subtask; vm_compute; lia.
Defined.

Lemma destroy_complete_closes_subtasks_witness :
  (contains "Destroy complete" "Destroy complete! Resources: 1 destroyed." = true \/
   contains "Destruction complete" "Destroy complete! Resources: 1 destroyed." = true) /\
  contains "Destroying..." "Destroy complete! Resources: 1 destroyed." = false /\
  Forall task_closed (skipn (base_task_count sample_destroy_stage)
    (tasks (advance_destroy_task sample_destroy_stage "Destroy complete! Resources: 1 destroyed."))).
Proof.
  split; [left; reflexivity|]. split; [reflexivity|].
  apply destroy_complete_closes_subtasks; [left; reflexivity | reflexivity].
Defined.

Lemma infrastructure_created_closes_terraform_tasks_witness :
  (2 < base_task_count sample_terraform_stage /\
   base_task_count sample_terraform_stage <= length (tasks sample_terraform_stage) /\
   contains "✓ Infrastructure created successfully" "✓ Infrastructure created successfully!" = true /\
   any_in ["Initializing"; "Validating configuration"; "✓ Configuration valid";
           "Planning deployment"; "PLAN SUMMARY"; "✓ No changes needed"; "✓ Plan created";
           "Creating VM"; "[INFO] Creating"] "✓ Infrastructure created successfully!" = false) /\
  ((forall k t, k <= 2 -> nth_error (tasks (advance_terraform_task sample_terraform_stage
      "✓ Infrastructure created successfully!")) k = Some t -> tstatus t = Completed) /\
   Forall task_closed (skipn (base_task_count sample_terraform_stage)
     (tasks (advance_terraform_task sample_terraform_stage "✓ Infrastructure created successfully!")))).
Proof.
  split; [split; [vm_compute; lia | split; [vm_compute; lia | split; reflexivity]]|].
  apply infrastructure_created_closes_terraform_tasks; [vm_compute; lia | vm_compute; lia
    | reflexivity | reflexivity].
Defined.


Lemma parse_proxmox_credentials_commented_user_witness :
  tfvars_token "admin" = true /\
  cred_user (parse_proxmox_credentials
    (Some ("# proxmox_user = " ++ quote "admin" ++ String "010" "proxmox_host = " ++ quote "pve"))) =
  (if contains "@" "admin" then "admin" else "admin" ++ "@pam").
Proof.
  split; [reflexivity|]. apply parse_proxmox_credentials_commented_user. reflexivity.
Defined.


Lemma connect_proxmox_default_port_witness :
  (char_free "/" "pve.lan" = true /\ char_free ":" "pve.lan" = true /\
   ((cred_url (mk_credentials "" "pve.lan" "root@pam" "root" "secret" "pve") = "" /\
     cred_host (mk_credentials "" "pve.lan" "root@pam" "root" "secret" "pve") = "pve.lan" /\
     "pve.lan" <> "") \/
    (exists path, cred_url (mk_credentials "" "pve.lan" "root@pam" "root" "secret" "pve") =
                  ("https://" ++ "pve.lan" ++ String "/" path) /\
                  contains "//" (String "/" path) = false)) /\
   cred_user (mk_credentials "" "pve.lan" "root@pam" "root" "secret" "pve") <> "" /\
   cred_password (mk_credentials "" "pve.lan" "root@pam" "root" "secret" "pve") <> "") /\
  connect_proxmox true (mk_credentials "" "pve.lan" "root@pam" "root" "secret" "pve") =
  Some (mk_proxmox_call "pve.lan" "root@pam" "secret" false 8006).
Proof.
  assert (H : char_free "/" "pve.lan" = true /\ char_free ":" "pve.lan" = true /\
   ((cred_url (mk_credentials "" "pve.lan" "root@pam" "root" "secret" "pve") = "" /\
     cred_host (mk_credentials "" "pve.lan" "root@pam" "root" "secret" "pve") = "pve.lan" /\
     "pve.lan" <> "") \/
    (exists path, cred_url (mk_credentials "" "pve.lan" "root@pam" "root" "secret" "pve") =
                  ("https://" ++ "pve.lan" ++ String "/" path) /\
                  contains "//" (String "/" path) = false)) /\
   cred_user (mk_credentials "" "pve.lan" "root@pam" "root" "secret" "pve") <> "" /\
   cred_password (mk_credentials "" "pve.lan" "root@pam" "root" "secret" "pve") <> "").
  { split; [reflexivity|]. split; [reflexivity|].
    split; [left; split; [reflexivity | split; [reflexivity | discriminate]]|]. split; discriminate. }
  split; [exact H|]. destruct H as (H1 & H2 & H3 & H4 & H5).
  exact (connect_proxmox_default_port _ "pve.lan" H1 H2 H3 H4 H5).
Defined.

